(** * SqlIntegration

    A shallow embedding of the SQL query composer, the result parser and the
    experiment analysis of
    [packages/back-end/src/integrations/SqlIntegration.ts].

    Strings are sequences of characters below 256.  JavaScript numbers are
    binary64 floats: those that the program prints into a query ([cap], the
    conversion window) are printed as [Number::toString] prints them, and
    those read back with [parseFloat] are read as it reads them; numbers
    read back with [parseInt] are an integer or [NaN]. *)

From Stdlib Require Import ZArith List String Ascii Bool Lia Floats.
From Stdlib Require Import Permutation DecimalString DecimalZ QArith Qminmax.
From stdpp Require Import gmap strings list fin_maps.

Set Warnings "-inexact-float".

Local Open Scope string_scope.
Local Open Scope Z_scope.

(** ** The JavaScript built-ins the program calls *)

Module Js.

(** Template literals print an integer as its decimal numeral. *)
Definition showZ (z : Z) : string := NilEmpty.string_of_int (Z.to_int z).

(** Truthiness of a string that may be [undefined]: [undefined] and the
    empty string are falsy. *)
Definition truthy (o : option string) : bool :=
  match o with
  | Some s => negb (String.eqb s "")
  | None => false
  end.

(** A string that may be [undefined], when it is truthy. *)
Definition whenTruthy (o : option string) : option string :=
  match o with
  | Some s => if String.eqb s "" then None else Some s
  | None => None
  end.

(** [o || k] where [k] is a string. *)
Definition orStr (o : option string) (k : string) : string :=
  match o with
  | Some s => if String.eqb s "" then k else s
  | None => k
  end.

(** [Array.prototype.join]. *)
Fixpoint join (sep : string) (l : list string) : string :=
  match l with
  | nil => ""
  | x :: nil => x
  | x :: rest => x ++ sep ++ join sep rest
  end.

(** [s.substr(0, n)]. *)
Definition substr0 (n : nat) (s : string) : string := String.substring 0 n s.

(** [s.replace(pat, rep)] with a string pattern: the first occurrence only. *)
Fixpoint replaceFirst (pat rep s : string) : string :=
  if String.prefix pat s
  then rep ++ String.substring (String.length pat)
                               (String.length s - String.length pat) s
  else match s with
       | EmptyString => EmptyString
       | String c s' => String c (replaceFirst pat rep s')
       end.

(** [s.replace(/pat/g, rep)] for a pattern that is a literal, non-empty
    string: [skip] counts the characters of a match still to be dropped. *)
Fixpoint replaceAllFrom (skip : nat) (pat rep s : string) : string :=
  match s with
  | EmptyString => EmptyString
  | String c s' =>
      match skip with
      | S k => replaceAllFrom k pat rep s'
      | O =>
          if String.prefix pat s
          then rep ++ replaceAllFrom (String.length pat - 1) pat rep s'
          else String c (replaceAllFrom O pat rep s')
      end
  end.

Definition replaceAll (pat rep s : string) : string :=
  replaceAllFrom O pat rep s.

(** [s.match(/pat/)] used as a condition, for a literal pattern. *)
Fixpoint includes (pat s : string) : bool :=
  String.prefix pat s ||
  match s with
  | EmptyString => false
  | String _ s' => includes pat s'
  end.

(** White space skipped by [parseInt] and [parseFloat] and matched by [\s]
    in a regular expression (ECMAScript's WhiteSpace and LineTerminator),
    among the characters below 256: TAB, LF, VT, FF, CR, SP and the
    no-break space. *)
Definition isWhiteSpace (c : ascii) : bool :=
  let n := Z.of_nat (nat_of_ascii c) in
  ((9 <=? n) && (n <=? 13)) || (n =? 32) || (n =? 160).

Fixpoint trimStart (s : string) : string :=
  match s with
  | String c s' => if isWhiteSpace c then trimStart s' else s
  | EmptyString => EmptyString
  end.

(** The length of a match of [/{{\s*name\s*}}/] at the head of [s]. *)
Fixpoint skipSpaces (s : string) : nat * string :=
  match s with
  | String c s' =>
      if isWhiteSpace c
      then let '(n, r) := skipSpaces s' in (S n, r)
      else (O, s)
  | EmptyString => (O, s)
  end.

Definition dropPrefix (p s : string) : option string :=
  if String.prefix p s
  then Some (String.substring (String.length p)
               (String.length s - String.length p) s)
  else None.

Definition matchPlaceholder (name s : string) : option nat :=
  match dropPrefix "{{" s with
  | None => None
  | Some r1 =>
      let '(n1, r2) := skipSpaces r1 in
      match dropPrefix name r2 with
      | None => None
      | Some r3 =>
          let '(n2, r4) := skipSpaces r3 in
          if String.prefix "}}" r4
          then Some (2 + n1 + String.length name + n2 + 2)%nat
          else None
      end
  end.

(** What [String.prototype.replace] puts for one match of a pattern
    without groups, from the replacement text [template]: [$$] is a
    dollar, [$&] the match, [$`] the text before the match and [$'] the
    text after it; any other character stands for itself. *)
Fixpoint substitution (template matched before after : string) : string :=
  match template with
  | EmptyString => EmptyString
  | String c r =>
      if Ascii.eqb c "$" then
        match r with
        | String d r' =>
            if Ascii.eqb d "$"
            then String "$" (substitution r' matched before after)
            else if Ascii.eqb d "&"
            then matched ++ substitution r' matched before after
            else if Ascii.eqb d "`"
            then before ++ substitution r' matched before after
            else if Ascii.eqb d "'"
            then after ++ substitution r' matched before after
            else String c (substitution r matched before after)
        | EmptyString => String c EmptyString
        end
      else String c (substitution r matched before after)
  end.

(** [s.replace(/{{\s*name\s*}}/g, rep)]; [before] is the text already
    read and [skip] counts the characters of a match still to be
    dropped. *)
Fixpoint replacePlaceholderFrom
  (skip : nat) (name rep before s : string) : string :=
  match s with
  | EmptyString => EmptyString
  | String c s' =>
      match skip with
      | S k => replacePlaceholderFrom k name rep (before ++ String c "") s'
      | O =>
          match matchPlaceholder name s with
          | Some len =>
              substitution rep (String.substring 0 len s) before
                (String.substring len (String.length s - len) s)
              ++ replacePlaceholderFrom (len - 1) name rep
                   (before ++ String c "") s'
          | None =>
              String c
                (replacePlaceholderFrom O name rep (before ++ String c "") s')
          end
      end
  end.

Definition replacePlaceholder (name rep s : string) : string :=
  replacePlaceholderFrom O name rep "" s.

(** An integer-valued number or [NaN]: what [parseInt] returns. *)
Inductive num := NaN | Num (z : Z).

(** [number | undefined]: what [Map.prototype.get] returns. *)
Inductive maybeNum := Undefined | Defined (n : num).

Definition digitOf (c : ascii) : option Z :=
  let n := Z.of_nat (nat_of_ascii c) in
  if (48 <=? n) && (n <=? 57) then Some (n - 48)
  else if (97 <=? n) && (n <=? 122) then Some (n - 87)
  else if (65 <=? n) && (n <=? 90) then Some (n - 55)
  else None.

Definition radixDigit (R : Z) (c : ascii) : option Z :=
  match digitOf c with
  | Some d => if d <? R then Some d else None
  | None => None
  end.

(** The value of the longest prefix of radix-[R] digits; [acc] is [None]
    until a digit was read. *)
Fixpoint digitsPrefix (R : Z) (s : string) (acc : option Z) : option Z :=
  match s with
  | EmptyString => acc
  | String c s' =>
      match radixDigit R c with
      | Some d =>
          digitsPrefix R s'
            (Some (R * (match acc with Some a => a | None => 0 end) + d))
      | None => acc
      end
  end.

(** [parseInt(s)] with no radix argument: leading white space, an optional
    sign, an optional [0x]/[0X] prefix (radix 16, else radix 10), then the
    longest run of digits; [NaN] when there is no digit. *)
Definition parseInt (s : string) : num :=
  let s0 := trimStart s in
  let '(neg, s1) :=
    match s0 with
    | String "-" r => (true, r)
    | String "+" r => (false, r)
    | _ => (false, s0)
    end in
  let '(R, s2) :=
    match s1 with
    | String "0" (String "x" r) => (16, r)
    | String "0" (String "X" r) => (16, r)
    | _ => (10, s1)
    end in
  match digitsPrefix R s2 None with
  | None => NaN
  | Some z => Num (if neg then - z else z)
  end.

(** A string that may be [undefined], as a template literal prints it. *)
Definition showOpt (o : option string) : string :=
  match o with
  | Some s => s
  | None => "undefined"
  end.

(** [s.replace(/^p/, "")] for a one-character pattern [p]. *)
Definition stripLeading (p s : string) : string :=
  match dropPrefix p s with
  | Some r => r
  | None => s
  end.

(** [n || 0] on a number: [NaN] and [0] are falsy. *)
Definition orZero (n : num) : num :=
  match n with
  | NaN => Num 0
  | Num z => Num z
  end.

(** [x < y] and [x >= y] on numbers: every comparison with [NaN] is
    false, and [undefined] converts to [NaN]. *)
Definition toNum (v : maybeNum) : num :=
  match v with
  | Undefined => NaN
  | Defined n => n
  end.

Definition lt (a b : num) : bool :=
  match a, b with
  | Num x, Num y => x <? y
  | _, _ => false
  end.

Definition ge (a b : num) : bool :=
  match a, b with
  | Num x, Num y => y <=? x
  | _, _ => false
  end.

(** The property key a value denotes in [obj[v]]: [String(v)]. *)
Definition propertyKey (v : maybeNum) : string :=
  match v with
  | Undefined => "undefined"
  | Defined NaN => "NaN"
  | Defined (Num z) => showZ z
  end.

(** *** Floating point: [parseFloat] and the arithmetic on its results *)

(** The binary64 number nearest to an integer. *)
Definition ofZ (z : Z) : float :=
  SF2Prim (binary_normalize prec emax z 0 false).

(** The binary64 number nearest to [m * 10^e] (round to nearest, ties to
    even), for [0 < m].  For [e < 0] the quotient is taken with at least 64
    significant bits and one more bit that records a non-zero remainder,
    so that the final rounding sees on which side of a tie the value is. *)
Definition ofDecimal (neg : bool) (m e : Z) : float :=
  let sf :=
    if m =? 0 then S754_zero neg
    else if 0 <=? e then
      binary_normalize prec emax ((if neg then - m else m) * 10 ^ e) 0 false
    else
      let d := 10 ^ (- e) in
      let s := Z.max 0 (64 + Z.log2 d - Z.log2 m) in
      let q := (m * 2 ^ s) / d in
      let r := (m * 2 ^ s) mod d in
      let q' := 2 * q + (if r =? 0 then 0 else 1) in
      binary_normalize prec emax (if neg then - q' else q') (- s - 1) false
  in SF2Prim sf.

(** The longest prefix of decimal digits of [s], read after the digits
    already in [acc]: the value, the number of digits read, the rest. *)
Fixpoint spanDigits (acc : Z) (n : nat) (s : string) : Z * nat * string :=
  match s with
  | EmptyString => (acc, n, s)
  | String c s' =>
      match radixDigit 10 c with
      | Some d => spanDigits (10 * acc + d) (S n) s'
      | None => (acc, n, s)
      end
  end.

(** The exponent part [e|E [+|-] digits] at the head of [s], or 0 when
    there is none. *)
Definition exponentPart (s : string) : Z :=
  match s with
  | String c r =>
      if Ascii.eqb c "e" || Ascii.eqb c "E" then
        let '(eneg, r1) :=
          match r with
          | String "-" r' => (true, r')
          | String "+" r' => (false, r')
          | _ => (false, r)
          end in
        let '(v, n, _) := spanDigits 0 O r1 in
        match n with
        | O => 0
        | S _ => if eneg then - v else v
        end
      else 0
  | EmptyString => 0
  end.

(** [parseFloat(s)]: leading white space, then the longest prefix that is
    a StrDecimalLiteral ([Infinity], or digits with an optional fraction
    and exponent, with an optional sign); [NaN] when there is none. *)
Definition parseFloat (s : string) : float :=
  let s0 := trimStart s in
  let '(neg, s1) :=
    match s0 with
    | String "-" r => (true, r)
    | String "+" r => (false, r)
    | _ => (false, s0)
    end in
  if String.prefix "Infinity" s1
  then (if neg then neg_infinity else infinity)
  else
    let '(ip, ni, r1) := spanDigits 0 O s1 in
    let '(m, nf, r2) :=
      match r1 with
      | String "." r => spanDigits ip O r
      | _ => (ip, O, r1)
      end in
    match ni, nf with
    | O, O => nan
    | _, _ => ofDecimal neg m (exponentPart r2 - Z.of_nat nf)
    end.

(** [x || 0] on a float: [NaN], [0] and [-0] are falsy. *)
Definition orZeroF (x : float) : float :=
  if is_nan x || is_zero x then zero else x.

(** A [parseInt] result as the float it is. *)
Definition toFloat (n : num) : float :=
  match n with
  | NaN => nan
  | Num z => ofZ z
  end.

(** [Math.floor] of a finite float, as an integer. *)
Definition floorZ (x : float) : Z :=
  match Prim2SF x with
  | S754_finite neg m e =>
      let v := if neg then Z.neg m else Z.pos m in
      if 0 <=? e then v * 2 ^ e else v / 2 ^ (- e)
  | _ => 0
  end.

(** *** Numbers in a template literal: [!x] and [Number::toString] *)

(** [!x] for a number: [NaN] and the two zeros are falsy. *)
Definition falsyNumber (x : float) : bool :=
  PrimFloat.is_nan x || PrimFloat.is_zero x.

(** [10^n <= num/den], for positive [num] and [den]. *)
Definition reaches (num den n : Z) : bool :=
  if 0 <=? n then den * 10 ^ n <=? num else den <=? num * 10 ^ (- n).

Fixpoint raise (fuel : nat) (num den n : Z) : Z :=
  match fuel with
  | O => n
  | S f => if reaches num den n then raise f num den (n + 1) else n
  end.

Fixpoint lower (fuel : nat) (num den n : Z) : Z :=
  match fuel with
  | O => n
  | S f => if reaches num den (n - 1) then n else lower f num den (n - 1)
  end.

(** The [n] with [10^(n-1) <= num/den < 10^n]: an estimate from the binary
    logarithms, which is off by less than two, then corrected. *)
Definition magnitude (num den : Z) : Z :=
  let n0 := ((Z.log2 num - Z.log2 den) * 1233) / 4096 in
  lower 4 num den (raise 4 num den n0).

(** The decimal [digits * 10^(point - count)], where [digits] has [count]
    decimal digits: the [s], [k] and [n] of [Number::toString]. *)
Record Decimal := { digits : Z; count : Z; point : Z }.

(** The decimals of [k] digits on either side of [num/den], the nearer
    first (the even one at equal distance); one decimal when [num/den] has
    no more than [k] digits. *)
Definition neighbours (num den n k : Z) : Decimal * list Decimal :=
  let '(a, b) :=
    if 0 <=? n - k then (num, den * 10 ^ (n - k))
    else (num * 10 ^ (k - n), den) in
  let lo := a / b in
  let r := a mod b in
  let dec s :=
    if s =? 10 ^ k
    then {| digits := 10 ^ (k - 1); count := k; point := n + 1 |}
    else {| digits := s; count := k; point := n |} in
  if r =? 0 then (dec lo, nil)
  else if (2 * r <? b) || ((2 * r =? b) && Z.even lo)
  then (dec lo, dec (lo + 1) :: nil)
  else (dec (lo + 1), dec lo :: nil).

(** The number value of the decimal [d] is [x]. *)
Definition denotes (x : float) (d : Decimal) : bool :=
  PrimFloat.eqb (ofDecimal false (digits d) (point d - count d)) x.

(** The decimal of the fewest digits whose number value is [x], and among
    those of that many digits the nearest to [x]; the search starts at [k]
    digits and ends at [k + fuel] digits, where the nearest decimal is
    taken (17 digits tell any two binary64 numbers apart). *)
Fixpoint shortestFrom (fuel : nat) (x : float) (num den n k : Z) : Decimal :=
  let '(near, others) := neighbours num den n k in
  match fuel with
  | O => near
  | S f =>
      match List.find (denotes x) (near :: others) with
      | Some d => d
      | None => shortestFrom f x num den n (k + 1)
      end
  end.

(** The decimal that [Number::toString] prints for the finite number
    [x = m * 2^e > 0]. *)
Definition shortest (x : float) (m : positive) (e : Z) : Decimal :=
  let '(num, den) :=
    if 0 <=? e then (Z.pos m * 2 ^ e, 1) else (Z.pos m, 2 ^ (- e)) in
  shortestFrom 16 x num den (magnitude num den) 1.

Fixpoint zeros (n : nat) : string :=
  match n with
  | O => ""
  | S k => String "0" (zeros k)
  end.

(** The digits of a decimal laid out as [Number::toString] does: as an
    integer, with a decimal point, or with an exponent from [1e21] on and
    below [1e-6]. *)
Definition layout (d : Decimal) : string :=
  let s := showZ (digits d) in
  let k := count d in
  let n := point d in
  if (k <=? n) && (n <=? 21) then s ++ zeros (Z.to_nat (n - k))
  else if (0 <? n) && (n <=? 21)
  then String.substring 0 (Z.to_nat n) s ++ "."
       ++ String.substring (Z.to_nat n) (Z.to_nat (k - n)) s
  else if (-6 <? n) && (n <=? 0) then "0." ++ zeros (Z.to_nat (- n)) ++ s
  else
    let e := n - 1 in
    let exponent := (if e <? 0 then "-" else "+") ++ showZ (Z.abs e) in
    if k =? 1 then s ++ "e" ++ exponent
    else String.substring 0 1 s ++ "."
         ++ String.substring 1 (Z.to_nat (k - 1)) s ++ "e" ++ exponent.

(** [Number::toString(x)], which a template literal applies to a number. *)
Definition showNumber (x : float) : string :=
  match Prim2SF x with
  | S754_nan => "NaN"
  | S754_zero _ => "0"
  | S754_infinity neg => if neg then "-Infinity" else "Infinity"
  | S754_finite neg m e =>
      (if neg then "-" else "") ++ layout (shortest (PrimFloat.abs x) m e)
  end.

Definition valueOf (d : Decimal) : Q :=
  let e := point d - count d in
  if 0 <=? e then inject_Z (digits d * 10 ^ e)
  else Qmake (digits d) (Z.to_pos (10 ^ (- e))).

(** The number that the text printed for [x] denotes when SQL reads it;
    [NaN] and [Infinity] denote none. *)
Definition numberQ (x : float) : option Q :=
  match Prim2SF x with
  | S754_zero _ => Some 0%Q
  | S754_finite neg m e =>
      let v := valueOf (shortest (PrimFloat.abs x) m e) in
      Some (if neg then Qopp v else v)
  | _ => None
  end.

End Js.

(** ** Data model *)

(** [metric.type]. *)
Inductive MetricType := binomial | count | duration | revenue.

Definition showMetricType (t : MetricType) : string :=
  match t with
  | binomial => "binomial"
  | count => "count"
  | duration => "duration"
  | revenue => "revenue"
  end.

Module Condition.
Record t := { column : string; operator : string; value : string }.
End Condition.

(** The fields of [MetricInterface] that the integration reads.  [column]
    is the empty string when unset; [userIdType] is compared with the
    literals ["user"] and ["anonymous"] only. *)
Module Metric.
Record t := {
  id : string;
  name : string;
  type : MetricType;
  table : string;
  column : string;
  conditions : list Condition.t;
  userIdType : string;
  userIdColumn : option string;
  anonymousIdColumn : option string;
  timestampColumn : option string;
  cap : float;
  earlyStart : bool
}.
End Metric.

(** [DataSourceSettings]: five parts, every field optional. *)
Module Settings.
Record part := {
  userIdColumn : option string;
  anonymousIdColumn : option string;
  timestampColumn : option string;
  table : option string;
  experimentIdColumn : option string;
  variationColumn : option string;
  variationFormat : option string;
  urlColumn : option string
}.

Definition noPart : part :=
  Build_part None None None None None None None None.

Record t := {
  default : part;
  experiments : part;
  users : part;
  pageviews : part;
  identifies : part
}.

(** [{ ...defaults, ...given }]: a field of [given] that is set wins. *)
Definition over (dflt given : option string) : option string :=
  match given with
  | Some v => Some v
  | None => dflt
  end.

Definition spread (defaults given : part) : part :=
  {| userIdColumn := over (userIdColumn defaults) (userIdColumn given);
     anonymousIdColumn :=
       over (anonymousIdColumn defaults) (anonymousIdColumn given);
     timestampColumn := over (timestampColumn defaults) (timestampColumn given);
     table := over (table defaults) (table given);
     experimentIdColumn :=
       over (experimentIdColumn defaults) (experimentIdColumn given);
     variationColumn := over (variationColumn defaults) (variationColumn given);
     variationFormat := over (variationFormat defaults) (variationFormat given);
     urlColumn := over (urlColumn defaults) (urlColumn given) |}.

(** The settings the constructor stores in [this.settings]. *)
Definition construct (given : t) : t :=
  {| default :=
       spread {| userIdColumn := Some "user_id";
                 anonymousIdColumn := None;
                 timestampColumn := Some "received_at";
                 table := None; experimentIdColumn := None;
                 variationColumn := None; variationFormat := None;
                 urlColumn := None |} (default given);
     experiments :=
       spread {| userIdColumn := None; anonymousIdColumn := None;
                 timestampColumn := None;
                 table := Some "experiment_viewed";
                 experimentIdColumn := Some "experiment_id";
                 variationColumn := Some "variation_id";
                 variationFormat := Some "index";
                 urlColumn := None |} (experiments given);
     users :=
       spread {| userIdColumn := None; anonymousIdColumn := None;
                 timestampColumn := None; table := Some "users";
                 experimentIdColumn := None; variationColumn := None;
                 variationFormat := None; urlColumn := None |}
              (users given);
     pageviews :=
       spread {| userIdColumn := None; anonymousIdColumn := None;
                 timestampColumn := None; table := Some "pages";
                 experimentIdColumn := None; variationColumn := None;
                 variationFormat := None; urlColumn := Some "path" |}
              (pageviews given);
     identifies :=
       spread {| userIdColumn := None; anonymousIdColumn := None;
                 timestampColumn := None; table := Some "identifies";
                 experimentIdColumn := None; variationColumn := None;
                 variationFormat := None; urlColumn := None |}
              (identifies given) |}.
End Settings.

(** The [section] argument of the column getters. *)
Inductive SectionName :=
  InExperiments | InPageviews | InUsers | InIdentifies | InDefault.

(** [Date] and the methods the program calls on it. *)
Class JsDate := {
  Date : Type;
  toISOString : Date -> string;
  setHours : Date -> Z -> Date;
  setMinutes : Date -> Z -> Date;
  setSeconds : Date -> Z -> Date;
  setMilliseconds : Date -> Z -> Date;
  getDate : Date -> Z;
  setDate : Date -> Z -> Date;
  newDate : string -> Date
}.

(** ** The query composer *)

(** The template of [getMetricCTE], as a function of what fills its
    placeholders. *)
Definition metricCTEText
  (name userIdCol value actualStart conversionEnd sessionStart table join
   where_ : string) : string :=
  "-- Metric ("
    ++ name
    ++ ")
      SELECT
        "
    ++ userIdCol
    ++ " as user_id,
        "
    ++ value
    ++ " as value,
        "
    ++ actualStart
    ++ " as actual_start,
        "
    ++ conversionEnd
    ++ " as conversion_end,
        "
    ++ sessionStart
    ++ " as session_start
      FROM
        "
    ++ table
    ++ " m
        "
    ++ join
    ++ "
      "
    ++ where_
    ++ "
    ".

(** The fields of [UsersQueryParams]; [from] and [to] are of the type
    [Date] of the instance in scope. *)
Module QueryParams.
Record t `{JsDate} := {
  name : string;
  from : Date;
  to : Date;
  userIdType : string;
  conversionWindow : float;
  urlRegex : option string;
  segmentQuery : option string;
  segmentName : option string;
  includeByDate : bool
}.
End QueryParams.

(** [MetricValueParams]: the fields of [UsersQueryParams], the metric and
    [includePercentiles]. *)
Module MetricValueParams.
Record t `{JsDate} := {
  base : QueryParams.t;
  metric : Metric.t;
  includePercentiles : bool
}.
End MetricValueParams.

Definition isBinomial (t : MetricType) : bool :=
  match t with
  | binomial => true
  | _ => false
  end.

Definition percentileNumbers : list float :=
  (0.01 :: 0.05 :: 0.1 :: 0.2 :: 0.3 :: 0.4 :: 0.5 :: 0.6 :: 0.7 :: 0.8
   :: 0.9 :: 0.95 :: 0.99 :: nil)%float.

(** The template of [getMetricValueQuery], as a function of what fills its
    placeholders. *)
Definition metricValueQueryText
  (name metricName users segment metricCTE segmentJoin aggregate windowStart
   userMetricDates nullDate percentileColumns byDate : string) : string :=
  "-- "
    ++ name
    ++ " - "
    ++ metricName
    ++ " Metric
      WITH
        __users as ("
    ++ users
    ++ ")
        "
    ++ segment
    ++ "
        , __metric as ("
    ++ metricCTE
    ++ ")
        , __distinctUsers as (
          SELECT
            u.user_id,
            MIN(u.conversion_end) as conversion_end,
            MIN(u.session_start) as session_start,
            MIN(u.actual_start) as actual_start
          FROM
            __users u
            "
    ++ segmentJoin
    ++ "
          GROUP BY
            u.user_id
        )
        , __userMetric as (
          -- Add in the aggregate metric value for each user
          SELECT
            "
    ++ aggregate
    ++ " as value
          FROM
            __distinctUsers d
            JOIN __metric m ON (
              m.user_id = d.user_id
              AND m.actual_start >= d."
    ++ windowStart
    ++ "
              AND m.actual_start <= d.conversion_end
            )
          GROUP BY
            d.user_id
        )
        "
    ++ userMetricDates
    ++ "
      SELECT
        "
    ++ nullDate
    ++ "
        COUNT(*) as count,
        AVG(value) as mean,
        STDDEV(value) as stddev
        "
    ++ percentileColumns
    ++ "
      from
        __userMetric
      "
    ++ byDate
    ++ "
      ".

(** The per-date SELECT that [getMetricValueQuery] adds with UNION when
    [includeByDate] is set; [zeroColumns] fills its percentile
    placeholder. *)
Definition byDateSelectText (zeroColumns : string) : string :=
  "
        UNION SELECT
          date,
          COUNT(*) as count,
          AVG(value) as mean,
          STDDEV(value) as stddev
          "
    ++ zeroColumns
    ++ "
        FROM
          __userMetricDates d
        GROUP BY
          date
        ORDER BY
          date ASC
      ".

Module Variation.
Record t := { key : string }.
End Variation.

(** The fields of [ExperimentInterface] that the integration reads;
    [sqlOverride] is the empty map when the experiment has none. *)
Module Experiment.
Record t := {
  trackingKey : string;
  userIdType : string;
  variations : list Variation.t;
  conversionWindowDays : float;
  sqlOverride : gmap string string
}.
End Experiment.

Module Phase.
Record t `{JsDate} := {
  dateStarted : Date;
  dateEnded : option Date
}.
End Phase.

Module Dimension.
Record t := { name : string; sql : string }.
End Dimension.

Section Composer.

Context `{JsDate}.

(** [this.settings], the abstract method [percentile] and the SQL pretty
    printer [sqlFormatter.format]. *)
Variable settings : Settings.t.
Variable percentile : string -> float -> string.
Variable sqlFormat : string -> string.

Definition getFullTableName (table : string) : string := table.

Definition toTimestamp (date : Date) : string :=
  "'" ++ Js.replaceFirst "T" " " (Js.substr0 19 (toISOString date)) ++ "'".

(** [days] is a number, printed as the template literal prints it. *)
Definition addDateInterval (col : string) (days : float) : string :=
  col ++ " + INTERVAL '" ++ Js.showNumber days ++ " days'".

Definition subtractHalfHour (col : string) : string :=
  col ++ " - INTERVAL '30 minutes'".

Definition regexMatch (col regex : string) : string :=
  col ++ " ~ '" ++ regex ++ "'".

Definition dateTrunc (col : string) : string :=
  "date_trunc('day', " ++ col ++ ")".

Definition dateDiff (startCol endCol : string) : string :=
  "datediff(day, " ++ startCol ++ ", " ++ endCol ++ ")".

Definition dateOnly (orig : Date) : Date :=
  setMilliseconds (setSeconds (setMinutes (setHours orig 0) 0) 0) 0.

(** [this.settings[section]]. *)
Definition settingsPart (section : SectionName) : Settings.part :=
  match section with
  | InExperiments => Settings.experiments settings
  | InPageviews => Settings.pageviews settings
  | InUsers => Settings.users settings
  | InIdentifies => Settings.identifies settings
  | InDefault => Settings.default settings
  end.

(** [a || b] where [a] may be [undefined]: the first truthy one. *)
Definition orOpt (a b : option string) : option string :=
  if Js.truthy a then a else b.

Definition getUserIdColumn
  (metric : option Metric.t) (section : SectionName) : string :=
  Js.orStr
    (orOpt (match metric with
            | Some m => Metric.userIdColumn m
            | None => None
            end)
       (orOpt (Settings.userIdColumn (settingsPart section))
              (Settings.userIdColumn (Settings.default settings))))
    "user_id".

Definition getAnonymousIdColumn
  (metric : option Metric.t) (section : SectionName) : string :=
  Js.orStr
    (orOpt (match metric with
            | Some m => Metric.anonymousIdColumn m
            | None => None
            end)
       (orOpt (Settings.anonymousIdColumn (settingsPart section))
              (Settings.anonymousIdColumn (Settings.default settings))))
    "anonymous_id".

Definition getTimestampColumn
  (metric : option Metric.t) (section : SectionName) : string :=
  Js.orStr
    (orOpt (match metric with
            | Some m => Metric.timestampColumn m
            | None => None
            end)
       (orOpt (Settings.timestampColumn (settingsPart section))
              (Settings.timestampColumn (Settings.default settings))))
    "received_at".

Definition getVariationColumn : string :=
  Js.orStr (Settings.variationColumn (Settings.experiments settings))
           "variation_id".

(** [!cap] holds of 0 and of [NaN]; another cap is printed as the template
    literal prints a number. *)
Definition capValue (cap : float) (value : string) : string :=
  if Js.falsyNumber cap then value
  else "LEAST(" ++ Js.showNumber cap ++ ", " ++ value ++ ")".

Definition getMetricColumn (metric : Metric.t) (alias : string) : string :=
  match Metric.type metric with
  | duration =>
      if Js.includes "{alias}" (Metric.column metric)
      then Js.replaceAll "{alias}" alias (Metric.column metric)
      else alias ++ "." ++ Metric.column metric
  | _ => alias ++ "." ++ Metric.column metric
  end.

Definition getRawMetricSqlValue
  (metric : Metric.t) (alias : string) : string :=
  match Metric.type metric with
  | count =>
      if Js.truthy (Some (Metric.column metric))
      then getMetricColumn metric alias
      else "1"
  | duration => getMetricColumn metric alias
  | revenue => getMetricColumn metric alias
  | binomial => "1"
  end.

Definition getAggregateMetricSqlValue
  (metric : Metric.t) (col : string) : string :=
  match Metric.type metric with
  | count =>
      capValue (Metric.cap metric)
        ("COUNT("
         ++ (if Js.truthy (Some (Metric.column metric))
             then "DISTINCT " ++ col
             else "*")
         ++ ")")
  | duration => capValue (Metric.cap metric) ("MAX(" ++ col ++ ")")
  | revenue => capValue (Metric.cap metric) ("MAX(" ++ col ++ ")")
  | binomial => "1"
  end.

Definition getIdentifiesJoinSql (column : string) (userId : bool) : string :=
  let identifiesColumn :=
    if userId
    then getUserIdColumn None InIdentifies
    else getAnonymousIdColumn None InIdentifies in
  "JOIN "
  ++ (getFullTableName
       (Js.orStr (Settings.table (Settings.identifies settings)) "identifies"))
  ++ " i ON (
      i."
  ++ identifiesColumn
  ++ " = "
  ++ column
  ++ "
    )".

(** The two variables [userIdCol] and [join] of [getMetricCTE]. *)
Definition metricUserIdColAndJoin
  (metric : Metric.t) (userId : bool) : string * string :=
  if userId && String.eqb (Metric.userIdType metric) "anonymous" then
    ("i.user_id",
     getIdentifiesJoinSql
       ("m." ++ getAnonymousIdColumn (Some metric) InDefault) false)
  else if negb userId && String.eqb (Metric.userIdType metric) "user" then
    ("i.user_id",
     getIdentifiesJoinSql
       ("m." ++ getUserIdColumn (Some metric) InDefault) true)
  else
    ("m." ++ (if userId
              then getUserIdColumn (Some metric) InDefault
              else getAnonymousIdColumn (Some metric) InDefault),
     "").

Definition conditionSql (c : Condition.t) : string :=
  "m." ++ Condition.column c ++ " " ++ Condition.operator c
  ++ " '" ++ Condition.value c ++ "'".

Definition getMetricCTE
  (metric : Metric.t) (conversionWindowDays : float) (userId : bool) : string :=
  let '(userIdCol, join) := metricUserIdColAndJoin metric userId in
  let timestampCol := "m." ++ getTimestampColumn (Some metric) InDefault in
  metricCTEText
    (Metric.name metric)
    userIdCol
    (getRawMetricSqlValue metric "m")
    timestampCol
    (addDateInterval timestampCol conversionWindowDays)
    (subtractHalfHour timestampCol)
    (getFullTableName (Metric.table metric))
    join
    (match Metric.conditions metric with
     | nil => ""
     | _ :: _ =>
         "WHERE " ++ Js.join " AND " (map conditionSql (Metric.conditions metric))
     end).

Definition getPageUsersCTE (params : QueryParams.t) (userId : bool) : string :=
  let timestampCol := getTimestampColumn None InPageviews in
  let userIdCol :=
    if userId
    then getUserIdColumn None InPageviews
    else getAnonymousIdColumn None InPageviews in
  "-- Users visiting specific pages
    SELECT
      "
    ++ userIdCol
    ++ " as user_id,
      MIN("
    ++ timestampCol
    ++ ") as actual_start,
      "
    ++ (addDateInterval ("MIN(" ++ timestampCol ++ ")")
       (QueryParams.conversionWindow params))
    ++ " as conversion_end,
      "
    ++ subtractHalfHour ("MIN(" ++ timestampCol ++ ")")
    ++ " as session_start
    FROM
      "
    ++ getFullTableName
       (Js.orStr (Settings.table (Settings.pageviews settings)) "pages")
    ++ "
    WHERE
      "
    ++ timestampCol
    ++ " >= "
    ++ toTimestamp (dateOnly (QueryParams.from params))
    ++ "
      AND "
    ++ timestampCol
    ++ " <= "
    ++ toTimestamp (dateOnly (QueryParams.to params))
    ++ "
      "
    ++ (match QueryParams.urlRegex params with
        | Some urlRegex =>
            if Js.truthy (Some urlRegex) && negb (String.eqb urlRegex ".*")
            then "AND " ++ regexMatch
                   (Js.orStr (Settings.urlColumn (Settings.pageviews settings))
                             "path")
                   urlRegex
            else ""
        | None => ""
        end)
    ++ "
    GROUP BY
      "
    ++ userIdCol
    ++ "
    ".

Definition getSegmentCTE
  (sql : string) (name : option string) (userId : bool) : string :=
  if negb userId then
    "-- Segment ("
    ++ Js.showOpt name
    ++ ")
      SELECT
        i.user_id,
        s.date
      FROM
        ("
    ++ sql
    ++ ") s
        "
    ++ getIdentifiesJoinSql "s.user_id" true
    ++ "
      "
  else
    "-- Segment ("
    ++ Js.showOpt name
    ++ ")
    "
    ++ sql
    ++ "
    ".

Definition getUsersQuery (params : QueryParams.t) : string :=
  let userId := String.eqb (QueryParams.userIdType params) "user" in
  let segmentJoin :=
    if Js.truthy (QueryParams.segmentQuery params)
    then "JOIN __segment s ON (s.user_id = u.user_id AND s.date <= u.actual_start)"
    else "" in
  sqlFormat
    ("-- "
    ++ QueryParams.name params
    ++ " - Number of Users
      WITH
        __users as ("
    ++ getPageUsersCTE params userId
    ++ ")
        "
    ++ (match QueryParams.segmentQuery params with
        | Some segmentQuery =>
            if Js.truthy (Some segmentQuery)
            then ", __segment as ("
                 ++ getSegmentCTE segmentQuery
                      (QueryParams.segmentName params) userId
                 ++ ")"
            else ""
        | None => ""
        end)
    ++ "
      SELECT
        "
    ++ (if QueryParams.includeByDate params then "null as date," else "")
    ++ "
        COUNT(DISTINCT u.user_id) as users
      FROM
        __users u
        "
    ++ segmentJoin
    ++ "

      "
    ++ (if QueryParams.includeByDate params
       then "
        UNION SELECT
          "
           ++ dateTrunc "u.actual_start"
           ++ " as date,
          COUNT(DISTINCT u.user_id) as users
        FROM
          __users u
          "
           ++ segmentJoin
           ++ "
        GROUP BY
          "
           ++ dateTrunc "u.actual_start"
           ++ "
        ORDER BY
          date asc
      "
       else "")
    ++ "
      ").

(** The percentile columns of the terminal SELECT of
    [getMetricValueQuery]. *)
Definition percentileColumns (params : MetricValueParams.t) : string :=
  if MetricValueParams.includePercentiles params
     && negb (isBinomial (Metric.type (MetricValueParams.metric params)))
  then "," ++ Js.join "
      ,"
         (map (fun n =>
                 percentile "value" n ++ " as p"
                 ++ Js.showZ (Js.floorZ (n * 100)%float))
              percentileNumbers)
  else "".

(** The percentile columns of the per-date SELECT of
    [getMetricValueQuery]. *)
Definition zeroPercentileColumns (params : MetricValueParams.t) : string :=
  if MetricValueParams.includePercentiles params
     && negb (isBinomial (Metric.type (MetricValueParams.metric params)))
  then "," ++ Js.join "
      ,"
         (map (fun n => "0 as p" ++ Js.showZ (Js.floorZ (n * 100)%float))
              percentileNumbers)
  else "".

(** The [__userMetricDates] table of [getMetricValueQuery]. *)
Definition userMetricDatesText (aggregate windowStart : string) : string :=
    "
          , __userMetricDates as (
            -- Add in the aggregate metric value for each user
            SELECT
              "
    ++ dateTrunc "d.actual_start"
    ++ " as date,
              "
    ++ aggregate
    ++ " as value
            FROM
              __distinctUsers d
              JOIN __metric m ON (
                m.user_id = d.user_id
                AND m.actual_start >= d."
    ++ windowStart
    ++ "
                AND m.actual_start <= d.conversion_end
              )
            GROUP BY
              "
    ++ dateTrunc "d.actual_start"
    ++ ",
              d.user_id
          )".

(** The text of [getMetricValueQuery] before it is pretty printed, as a
    function of what fills its two percentile placeholders. *)
Definition metricValueQueryWith
  (params : MetricValueParams.t) (percentiles zeroPercentiles : string)
  : string :=
  let base := MetricValueParams.base params in
  let metric := MetricValueParams.metric params in
  let userId := String.eqb (QueryParams.userIdType base) "user" in
  let windowStart :=
    if Metric.earlyStart metric then "session_start" else "actual_start" in
  metricValueQueryText
    (QueryParams.name base)
    (Metric.name metric)
    (getPageUsersCTE base userId)
    (match QueryParams.segmentQuery base with
     | Some segmentQuery =>
         if Js.truthy (Some segmentQuery)
         then ", segment as ("
              ++ getSegmentCTE segmentQuery (QueryParams.segmentName base)
                   userId
              ++ ")"
         else ""
     | None => ""
     end)
    (getMetricCTE metric (QueryParams.conversionWindow base) userId)
    (if Js.truthy (QueryParams.segmentQuery base)
     then "JOIN segment s ON (s.user_id = u.user_id AND s.date <= u.actual_start)"
     else "")
    (getAggregateMetricSqlValue metric "m.value")
    windowStart
    (if QueryParams.includeByDate base
     then userMetricDatesText
            (getAggregateMetricSqlValue metric "m.value") windowStart
     else "")
    (if QueryParams.includeByDate base then "null as date," else "")
    percentiles
    (if QueryParams.includeByDate base
     then byDateSelectText zeroPercentiles
     else "").

Definition getMetricValueQueryText (params : MetricValueParams.t) : string :=
  metricValueQueryWith params (percentileColumns params)
    (zeroPercentileColumns params).

Definition getMetricValueQuery (params : MetricValueParams.t) : string :=
  sqlFormat (getMetricValueQueryText params).

Definition getPastExperimentQuery (from : Date) : string :=
  sqlFormat
    ("-- Past Experiments
    WITH
      __experimentDates as (
        SELECT
          "
    ++ (Js.orStr (Settings.experimentIdColumn (Settings.experiments settings))
             "experiment_id")
    ++ " as experiment_id,
          "
    ++ getVariationColumn
    ++ " as variation_id,
          "
    ++ dateTrunc (getTimestampColumn None InExperiments)
    ++ " as date,
          count(distinct "
    ++ getAnonymousIdColumn None InExperiments
    ++ ") as users
        FROM
          "
    ++ (getFullTableName
       (Js.orStr (Settings.table (Settings.experiments settings))
                 "experiment_viewed"))
    ++ "
        WHERE
          "
    ++ getTimestampColumn None InExperiments
    ++ " > "
    ++ toTimestamp from
    ++ "
        GROUP BY
          "
    ++ (Js.orStr (Settings.experimentIdColumn (Settings.experiments settings))
             "experiment_id")
    ++ ",
          "
    ++ getVariationColumn
    ++ ",
          "
    ++ dateTrunc (getTimestampColumn None InExperiments)
    ++ "
      ),
      __userThresholds as (
        SELECT
          experiment_id,
          variation_id,
          -- It's common for a small number of tracking events to continue coming in
          -- long after an experiment ends, so limit to days with enough traffic
          max(users)*0.05 as threshold
        FROM
          __experimentDates
        WHERE
          -- Skip days where a variation got 5 or fewer visitors since it's probably not real traffic
          users > 5
        GROUP BY
          experiment_id, variation_id
      ),
      __variations as (
        SELECT
          d.experiment_id,
          d.variation_id,
          MIN(d.date) as start_date,
          MAX(d.date) as end_date,
          SUM(d.users) as users
        FROM
          __experimentDates d
          JOIN __userThresholds u ON (
            d.users > u.threshold
            AND d.experiment_id = u.experiment_id
            AND d.variation_id = u.variation_id
          )
        GROUP BY
          d.experiment_id, d.variation_id
      )
    SELECT
      *
    FROM
      __variations
    WHERE
      -- Skip experiments with fewer than 200 users since they don't have enough data
      users > 200
      -- Skip experiments that are 5 days or shorter (most likely means it was stopped early)
      AND "
    ++ dateDiff "start_date" "end_date"
    ++ " > 5
      -- Skip experiments that start of the very first day since we're likely missing data
      AND "
    ++ dateDiff (toTimestamp from) "start_date"
    ++ " > 2
    ORDER BY
      experiment_id ASC, variation_id ASC").

(** The two variables [userIdCol] and [join] of [getExperimentCTE]. *)
Definition experimentUserIdColAndJoin
  (experiment : Experiment.t) (userId : bool) : string * string :=
  if userId && String.eqb (Experiment.userIdType experiment) "anonymous" then
    ("i.user_id",
     getIdentifiesJoinSql
       ("m." ++ getAnonymousIdColumn None InExperiments) false)
  else if negb userId && String.eqb (Experiment.userIdType experiment) "user"
  then
    ("i.user_id",
     getIdentifiesJoinSql ("m." ++ getUserIdColumn None InExperiments) true)
  else
    (if userId
     then getUserIdColumn None InExperiments
     else getAnonymousIdColumn None InExperiments,
     "").

Definition getExperimentCTE
  (experiment : Experiment.t) (phase : Phase.t) (userId : bool) : string :=
  let '(userIdCol, join) := experimentUserIdColAndJoin experiment userId in
  let timestampCol := "e." ++ getTimestampColumn None InExperiments in
    "-- Viewed Experiment
    SELECT
      "
    ++ userIdCol
    ++ " as user_id,
      e."
    ++ getVariationColumn
    ++ " as variation,
      "
    ++ timestampCol
    ++ " as actual_start,
      "
    ++ addDateInterval timestampCol
         (Experiment.conversionWindowDays experiment)
    ++ " as conversion_end,
      "
    ++ subtractHalfHour timestampCol
    ++ " as session_start
    FROM
      "
    ++ (getFullTableName
       (Js.orStr (Settings.table (Settings.experiments settings))
                 "experiment_viewed"))
    ++ " e
      "
    ++ join
    ++ "
    WHERE
      e."
    ++ (Js.orStr (Settings.experimentIdColumn (Settings.experiments settings))
             "experiment_id")
    ++ " = '"
    ++ Experiment.trackingKey experiment
    ++ "'
      AND "
    ++ timestampCol
    ++ " >= "
    ++ toTimestamp (Phase.dateStarted phase)
    ++ "
      "
    ++ (match Phase.dateEnded phase with
        | Some dateEnded =>
            "AND " ++ timestampCol ++ " <= " ++ toTimestamp dateEnded
        | None => ""
        end)
    ++ "
    ".

Definition getDimensionCTE (dimension : Dimension.t) (userId : bool) : string :=
  if negb userId then
    "-- Dimension ("
    ++ Dimension.name dimension
    ++ ")
      SELECT
        i.user_id,
        d.value
      FROM
        ("
    ++ Dimension.sql dimension
    ++ ") d
        "
    ++ getIdentifiesJoinSql "d.user_id" true
    ++ "
      "
  else
    "-- Dimension ("
    ++ Dimension.name dimension
    ++ ")
    "
    ++ Dimension.sql dimension
    ++ "
    ".

(** The three replacements applied to an entry of [sqlOverride]; [now] is
    [new Date()]. *)
Definition substituteOverride
  (sql : string) (experiment : Experiment.t) (phase : Phase.t) (now : Date)
  : string :=
  Js.replacePlaceholder "experimentKey"
    ("'" ++ Experiment.trackingKey experiment ++ "'")
    (Js.replacePlaceholder "dateEnd"
       (toTimestamp (match Phase.dateEnded phase with
                     | Some d => d
                     | None => now
                     end))
       (Js.replacePlaceholder "dateStart"
          (toTimestamp (Phase.dateStarted phase)) sql)).

Definition getExperimentUsersSql
  (experiment : Experiment.t) (phase : Phase.t)
  (activationMetric : option Metric.t) (dimension : option Dimension.t)
  (now : Date) : string :=
  match Experiment.sqlOverride experiment !! "users" with
  | Some sql => substituteOverride sql experiment phase now
  | None =>
    let userId := String.eqb (Experiment.userIdType experiment) "user" in
    "-- Number of users in experiment
    WITH
      __experiment as ("
    ++ getExperimentCTE experiment phase userId
    ++ ")
      "
    ++ (match dimension with
        | Some d => ", __dimension as (" ++ getDimensionCTE d userId ++ ")"
        | None => ""
        end)
    ++ "
      "
    ++ (match activationMetric with
        | Some a =>
            ", __activationMetric as ("
            ++ getMetricCTE a (Experiment.conversionWindowDays experiment)
                 userId
            ++ ")"
        | None => ""
        end)
    ++ "
      , __distinctUsers as (
        -- One row per user/dimension/variation
        SELECT
          e.user_id,
          e.variation,
          "
    ++ (match dimension with Some _ => "d.value" | None => "'All'" end)
    ++ " as dimension
        FROM
          __experiment e
          "
    ++ (match dimension with
        | Some _ => "JOIN __dimension d ON (d.user_id = e.user_id)"
        | None => ""
        end)
    ++ "
          "
    ++ (match activationMetric with
        | Some _ => "
          JOIN __activationMetric a ON (
            a.user_id = e.user_id
            AND a.actual_start >= e.actual_start
            AND a.actual_start <= e.conversion_end
          )"
        | None => ""
        end)
    ++ "
        GROUP BY
          variation, dimension, e.user_id
      )
    -- Count of distinct users in experiment per variation/dimension
    SELECT
      variation,
      dimension,
      COUNT(*) as users
    FROM
      __distinctUsers
    GROUP BY
      variation,
      dimension
    "
  end.

Definition getExperimentMetricSql
  (metric : Metric.t) (experiment : Experiment.t) (phase : Phase.t)
  (activationMetric : option Metric.t) (dimension : option Dimension.t)
  (now : Date) : string :=
  match Experiment.sqlOverride experiment !! Metric.id metric with
  | Some sql => substituteOverride sql experiment phase now
  | None =>
    let userId := String.eqb (Experiment.userIdType experiment) "user" in
    "-- "
    ++ Metric.name metric
    ++ " ("
    ++ showMetricType (Metric.type metric)
    ++ ")
    WITH
      __experiment as ("
    ++ getExperimentCTE experiment phase userId
    ++ ")
      , __metric as ("
    ++ getMetricCTE metric (Experiment.conversionWindowDays experiment) userId
    ++ ")
      "
    ++ (match dimension with
        | Some d => ", __dimension as (" ++ getDimensionCTE d userId ++ ")"
        | None => ""
        end)
    ++ "
      "
    ++ (match activationMetric with
        | Some a =>
            ", __activationMetric as ("
            ++ getMetricCTE a (Experiment.conversionWindowDays experiment)
                 userId
            ++ ")"
        | None => ""
        end)
    ++ "
      , __distinctUsers as (
        -- One row per user/dimension/variation
        SELECT
          e.user_id,
          e.variation,
          "
    ++ (match dimension with Some _ => "d.value" | None => "'All'" end)
    ++ " as dimension,
          MIN("
    ++ (match activationMetric with Some _ => "a" | None => "e" end)
    ++ ".actual_start) as actual_start,
          MIN("
    ++ (match activationMetric with Some _ => "a" | None => "e" end)
    ++ ".session_start) as session_start,
          MIN("
    ++ (match activationMetric with Some _ => "a" | None => "e" end)
    ++ ".conversion_end) as conversion_end
        FROM
          __experiment e
          "
    ++ (match dimension with
        | Some _ => "JOIN __dimension d ON (d.user_id = e.user_id)"
        | None => ""
        end)
    ++ "
          "
    ++ (match activationMetric with
        | Some _ => "
          JOIN __activationMetric a ON (
            a.user_id = e.user_id
            AND a.actual_start >= e.actual_start
            AND a.actual_start <= e.conversion_end
          )"
        | None => ""
        end)
    ++ "
        GROUP BY
          variation, dimension, e.user_id
      )
      , __userMetric as (
        -- Add in the aggregate metric value for each user
        SELECT
          d.variation,
          d.dimension,
          "
    ++ getAggregateMetricSqlValue metric "m.value"
    ++ " as value
        FROM
          __distinctUsers d
          JOIN __metric m ON (
            m.user_id = d.user_id
            AND m.actual_start >= d."
    ++ (if Metric.earlyStart metric then "session_start" else "actual_start")
    ++ "
            AND m.actual_start <= d.conversion_end
          )
        GROUP BY
          variation, dimension, d.user_id
      )
    -- Sum all user metrics together to get a total per variation/dimension
    SELECT
      variation,
      dimension,
      COUNT(*) as count,
      AVG(value) as mean,
      STDDEV(value) as stddev
    FROM
      __userMetric
    GROUP BY
      variation,
      dimension
    "
  end.

End Composer.

(** ** Rows and typed results *)

(** A row of [UsersQueryResponse]. *)
Module UsersRow.
Record t := { date : option string; users : string }.
End UsersRow.

(** A row of a metric value query: the columns [runMetricValueQuery] names,
    and the remaining ones in the order [Object.keys] lists them. *)
Module MetricValueRow.
Record t := {
  date : option string;
  count : string;
  mean : string;
  stddev : string;
  percentiles : list (string * string)
}.
End MetricValueRow.

(** A row of [PastExperimentResponse]. *)
Module PastExperimentRow.
Record t := {
  experiment_id : string;
  variation_id : string;
  start_date : string;
  end_date : string;
  users : string
}.
End PastExperimentRow.

(** The rows of the per-metric query and of the users query of an
    experiment. *)
Module ExperimentMetricRow.
Record t := {
  variation : string;
  dimension : string;
  count : string;
  mean : string;
  stddev : string
}.
End ExperimentMetricRow.

Module ExperimentUsersRow.
Record t := { variation : string; users : string; dimension : string }.
End ExperimentUsersRow.

(** The abstract method [runQuery], at each row type a caller declares for
    its result.  A query that fails is outside the model: every call
    returns rows. *)
Class Warehouse := {
  runUsers : string -> list UsersRow.t;
  runMetricValue : string -> list MetricValueRow.t;
  runPastExperiments : string -> list PastExperimentRow.t;
  runExperimentMetric : string -> list ExperimentMetricRow.t;
  runExperimentUsers : string -> list ExperimentUsersRow.t
}.

Module UsersResult.
Record t := {
  users : Js.num;
  dates : option (list (string * Js.num))
}.
End UsersResult.

Module MetricValueDate.
Record t := { date : string; count : Js.num; mean : float; stddev : float }.
End MetricValueDate.

Module MetricValueResult.
Record t := {
  count : Js.num;
  mean : float;
  stddev : float;
  percentiles : option (gmap string Js.num);
  dates : option (list MetricValueDate.t)
}.
End MetricValueResult.

Module PastExperiment.
Record t `{JsDate} := {
  users : Js.num;
  end_date : Date;
  start_date : Date;
  experiment_id : string;
  variation_id : string
}.
End PastExperiment.

Module PastExperimentResult.
Record t `{JsDate} := { experiments : list PastExperiment.t }.
End PastExperimentResult.

Module ImpactEstimationResult.
Record t := {
  query : string;
  users : float;
  value : float;
  metricTotal : float
}.
End ImpactEstimationResult.

Module Segment.
Record t := { name : string; sql : string }.
End Segment.

(** [ret.dates = ret.dates || []; ret.dates.push(x)]. *)
Definition pushDate {A : Type} (dates : option (list A)) (x : A)
  : option (list A) :=
  Some (match dates with
        | Some l => l ++ x :: nil
        | None => x :: nil
        end)%list.

(** ** The result parser *)

Section Parser.

Context `{JsDate} `{Warehouse}.

Definition usersRowStep (ret : UsersResult.t) (row : UsersRow.t)
  : UsersResult.t :=
  match Js.whenTruthy (UsersRow.date row) with
  | Some date =>
      {| UsersResult.users := UsersResult.users ret;
         UsersResult.dates :=
           pushDate (UsersResult.dates ret)
             (date, Js.orZero (Js.parseInt (UsersRow.users row))) |}
  | None =>
      {| UsersResult.users := Js.orZero (Js.parseInt (UsersRow.users row));
         UsersResult.dates := UsersResult.dates ret |}
  end.

Definition runUsersQuery (query : string) : UsersResult.t :=
  fold_left usersRowStep (runUsers query)
    {| UsersResult.users := Js.Num 0; UsersResult.dates := None |}.

(** [ret.percentiles[p.replace(/^p/, "")] = parseInt(percentiles[p]) || 0]. *)
Definition percentileStep
  (acc : option (gmap string Js.num)) (kv : string * string)
  : option (gmap string Js.num) :=
  let cur := match acc with Some m => m | None => ∅ end in
  Some (<[Js.stripLeading "p" (fst kv) :=
            Js.orZero (Js.parseInt (snd kv))]> cur).

Definition metricValueRowStep
  (ret : MetricValueResult.t) (row : MetricValueRow.t)
  : MetricValueResult.t :=
  match Js.whenTruthy (MetricValueRow.date row) with
  | Some date =>
      {| MetricValueResult.count := MetricValueResult.count ret;
         MetricValueResult.mean := MetricValueResult.mean ret;
         MetricValueResult.stddev := MetricValueResult.stddev ret;
         MetricValueResult.percentiles := MetricValueResult.percentiles ret;
         MetricValueResult.dates :=
           pushDate (MetricValueResult.dates ret)
             {| MetricValueDate.date := date;
                MetricValueDate.count :=
                  Js.orZero (Js.parseInt (MetricValueRow.count row));
                MetricValueDate.mean :=
                  Js.orZeroF (Js.parseFloat (MetricValueRow.mean row));
                MetricValueDate.stddev :=
                  Js.orZeroF (Js.parseFloat (MetricValueRow.stddev row)) |} |}
  | None =>
      {| MetricValueResult.count :=
           Js.orZero (Js.parseInt (MetricValueRow.count row));
         MetricValueResult.mean :=
           Js.orZeroF (Js.parseFloat (MetricValueRow.mean row));
         MetricValueResult.stddev :=
           Js.orZeroF (Js.parseFloat (MetricValueRow.stddev row));
         MetricValueResult.percentiles :=
           fold_left percentileStep (MetricValueRow.percentiles row)
             (MetricValueResult.percentiles ret);
         MetricValueResult.dates := MetricValueResult.dates ret |}
  end.

Definition runMetricValueQuery (query : string) : MetricValueResult.t :=
  fold_left metricValueRowStep (runMetricValue query)
    {| MetricValueResult.count := Js.Num 0;
       MetricValueResult.mean := zero;
       MetricValueResult.stddev := zero;
       MetricValueResult.percentiles := None;
       MetricValueResult.dates := None |}.

Definition pastExperimentOfRow (r : PastExperimentRow.t) : PastExperiment.t :=
  {| PastExperiment.users := Js.parseInt (PastExperimentRow.users r);
     PastExperiment.end_date := newDate (PastExperimentRow.end_date r);
     PastExperiment.start_date := newDate (PastExperimentRow.start_date r);
     PastExperiment.experiment_id := PastExperimentRow.experiment_id r;
     PastExperiment.variation_id := PastExperimentRow.variation_id r |}.

Definition runPastExperimentQuery (query : string) : PastExperimentResult.t :=
  {| PastExperimentResult.experiments :=
       map pastExperimentOfRow (runPastExperiments query) |}.

End Parser.

(** ** Impact estimation *)

Section ImpactEstimation.

Context `{JsDate} `{Warehouse}.
Variable settings : Settings.t.
Variable percentile : string -> float -> string.
Variable sqlFormat : string -> string.

(** [now] is the reading of the clock ([new Date()]), taken as one
    instant for the whole call. *)
Variable now : Date.
Variable urlRegex : string.
Variable metric : Metric.t.
Variable segment : option Segment.t.

Definition numDays : Z := 30.

(** [segment?.sql || null] and [segment?.name]. *)
Definition segmentSql : option string :=
  match segment with
  | Some s =>
      if Js.truthy (Some (Segment.sql s)) then Some (Segment.sql s) else None
  | None => None
  end.

Definition segmentNameOf : option string :=
  match segment with
  | Some s => Some (Segment.name s)
  | None => None
  end.

(** [baseSettings] with the [name], [urlRegex] and segment of a query. *)
Definition impactParams
  (name : string) (urlRegex : option string)
  (segmentQuery segmentName : option string) : QueryParams.t :=
  {| QueryParams.name := name;
     QueryParams.from := setDate now (getDate now - numDays - 3);
     QueryParams.to := setDate now (getDate now - 3);
     QueryParams.userIdType := Metric.userIdType metric;
     QueryParams.conversionWindow := 3%float;
     QueryParams.urlRegex := urlRegex;
     QueryParams.segmentQuery := segmentQuery;
     QueryParams.segmentName := segmentName;
     QueryParams.includeByDate := false |}.

Definition usersSql : string :=
  getUsersQuery settings sqlFormat
    (impactParams "Traffic - Selected Pages and Segment" (Some urlRegex)
       segmentSql segmentNameOf).

Definition metricSql : string :=
  getMetricValueQuery settings percentile sqlFormat
    {| MetricValueParams.base :=
         impactParams "Metric Value - Entire Site" None None None;
       MetricValueParams.metric := metric;
       MetricValueParams.includePercentiles := false |}.

Definition valueSql : string :=
  getMetricValueQuery settings percentile sqlFormat
    {| MetricValueParams.base :=
         impactParams "Metric Value - Selected Pages and Segment"
           (Some urlRegex) segmentSql segmentNameOf;
       MetricValueParams.metric := metric;
       MetricValueParams.includePercentiles := false |}.

Definition getImpactEstimation : ImpactEstimationResult.t :=
  let users := runUsers usersSql in
  let metricTotal := runMetricValue metricSql in
  let value := runMetricValue valueSql in
  let formatted :=
    Js.join ";

" (map sqlFormat (usersSql :: metricSql :: valueSql :: nil)) ++ ";" in
  match users, metricTotal, value with
  | users0 :: _, metricTotal0 :: _, value0 :: _ =>
      {| ImpactEstimationResult.query := formatted;
         ImpactEstimationResult.users :=
           (Js.toFloat (Js.orZero (Js.parseInt (UsersRow.users users0)))
            / Js.ofZ numDays)%float;
         ImpactEstimationResult.value :=
           (Js.orZeroF
              (Js.toFloat (Js.parseInt (MetricValueRow.count value0))
               * Js.parseFloat (MetricValueRow.mean value0))
            / Js.ofZ numDays)%float;
         ImpactEstimationResult.metricTotal :=
           (Js.orZeroF
              (Js.toFloat (Js.parseInt (MetricValueRow.count metricTotal0))
               * Js.parseFloat (MetricValueRow.mean metricTotal0))
            / Js.ofZ numDays)%float |}
  | _, _, _ =>
      {| ImpactEstimationResult.query := formatted;
         ImpactEstimationResult.users := zero;
         ImpactEstimationResult.value := zero;
         ImpactEstimationResult.metricTotal := zero |}
  end.

End ImpactEstimation.

(** ** Experiment analysis *)

Module VariationMetricResult.
Record t := {
  metric : string;
  count : Js.num;
  mean : float;
  stddev : float
}.
End VariationMetricResult.

(** The object [getDimensionData] creates for a variation. *)
Module VariationData.
Record t := {
  variation : Js.maybeNum;
  users : Js.num;
  metrics : list VariationMetricResult.t
}.
End VariationData.

(** A JavaScript array of [VariationData]: its elements by property key.
    The element at index [i] has the key [Js.showZ i]; an assignment
    [obj[NaN] = x] or [obj[undefined] = x] adds the property ["NaN"] or
    ["undefined"]. *)
Abbreviation VariationArray := (gmap string VariationData.t).

(** [dimensionMap]: a [Map] lists its keys in the order of their first
    insertion, so it is an association list with distinct keys. *)
Abbreviation DimensionMap := (list (string * VariationArray)).

Module DimensionResult.
Record t := { dimension : string; variations : VariationArray }.
End DimensionResult.

Module ExperimentResults.
Record t := { results : list DimensionResult.t; query : string }.
End ExperimentResults.

(** What [getExperimentResults] has written so far: [dimensionMap] and the
    lines printed with [console.log]. *)
Module Merge.
Record t := { dimensionMap : DimensionMap; console : list string }.
End Merge.

(** [dimensionMap.get(key)]. *)
Fixpoint mapGet (key : string) (m : DimensionMap) : option VariationArray :=
  match m with
  | nil => None
  | (k, obj) :: rest => if String.eqb k key then Some obj else mapGet key rest
  end.

(** [dimensionMap.set(key, obj)]: a key already present keeps its place. *)
Fixpoint mapSet (key : string) (obj : VariationArray) (m : DimensionMap)
  : DimensionMap :=
  match m with
  | nil => (key, obj) :: nil
  | (k, o) :: rest =>
      if String.eqb k key then (k, obj) :: rest
      else (k, o) :: mapSet key obj rest
  end.

(** [getDimensionData(key, variation)]: the map after the call; the object
    returned is the one now stored at [key], property [variation]. *)
Definition getDimensionData
  (key : string) (variation : Js.maybeNum) (m : DimensionMap) : DimensionMap :=
  let obj :=
    match mapGet key m with
    | Some obj => obj
    | None => ∅
    end in
  let obj' :=
    match obj !! Js.propertyKey variation with
    | Some _ => obj
    | None =>
        <[Js.propertyKey variation :=
            {| VariationData.variation := variation;
               VariationData.users := Js.Num 0;
               VariationData.metrics := nil |}]> obj
    end in
  mapSet key obj' m.

(** A write through the object that [getDimensionData] returned. *)
Definition updateData
  (key : string) (variation : Js.maybeNum)
  (f : VariationData.t -> VariationData.t) (m : DimensionMap) : DimensionMap :=
  match mapGet key m with
  | Some obj => mapSet key (alter f (Js.propertyKey variation) obj) m
  | None => m
  end.

(** [variationKeyMap]: the index of each variation key, the last one
    winning when a key repeats. *)
Fixpoint variationKeyMapFrom
  (i : Z) (variations : list Variation.t) (m : gmap string Z) : gmap string Z :=
  match variations with
  | nil => m
  | v :: rest => variationKeyMapFrom (i + 1) rest (<[Variation.key v := i]> m)
  end.

(** The promises of [getExperimentResults]: one per metric and the users
    query. *)
Inductive Task := MetricTask (m : Metric.t) | UsersTask.

Section ExperimentAnalysis.

Context `{JsDate} `{Warehouse}.
Variable settings : Settings.t.
Variable sqlFormat : string -> string.

Variable experiment : Experiment.t.
Variable phase : Phase.t.
Variable activationMetric : option Metric.t.
Variable dimension : option Dimension.t.
Variable now : Date.

Definition variationKeyMap : gmap string Z :=
  variationKeyMapFrom 0 (Experiment.variations experiment) ∅.

Definition varIndexOf (variation : string) : Js.maybeNum :=
  if match Settings.variationFormat (Settings.experiments settings) with
     | Some f => String.eqb f "key"
     | None => false
     end
  then match variationKeyMap !! variation with
       | Some i => Js.Defined (Js.Num i)
       | None => Js.Undefined
       end
  else Js.Defined (Js.parseInt variation).

(** [varIndex < 0 || varIndex >= experiment.variations.length]. *)
Definition unexpected (varIndex : Js.maybeNum) : bool :=
  Js.lt (Js.toNum varIndex) (Js.Num 0)
  || Js.ge (Js.toNum varIndex)
       (Js.Num (Z.of_nat (List.length (Experiment.variations experiment)))).

Definition logUnexpected (variation : string) (st : Merge.t) : Merge.t :=
  {| Merge.dimensionMap := Merge.dimensionMap st;
     Merge.console :=
       app (Merge.console st)
           (("Unexpected variation " ++ variation) :: nil) |}.

Definition pushMetric (r : VariationMetricResult.t) (data : VariationData.t)
  : VariationData.t :=
  {| VariationData.variation := VariationData.variation data;
     VariationData.users := VariationData.users data;
     VariationData.metrics := (VariationData.metrics data ++ r :: nil)%list |}.

Definition setUsers (users : Js.num) (data : VariationData.t)
  : VariationData.t :=
  {| VariationData.variation := VariationData.variation data;
     VariationData.users := users;
     VariationData.metrics := VariationData.metrics data |}.

(** The callback of [rows.forEach] in the promise of metric [m]. *)
Definition metricRowStep
  (m : Metric.t) (st : Merge.t) (row : ExperimentMetricRow.t) : Merge.t :=
  let varIndex := varIndexOf (ExperimentMetricRow.variation row) in
  if unexpected varIndex
  then logUnexpected (ExperimentMetricRow.variation row) st
  else
    {| Merge.dimensionMap :=
         updateData (ExperimentMetricRow.dimension row) varIndex
           (pushMetric
              {| VariationMetricResult.metric := Metric.id m;
                 VariationMetricResult.count :=
                   Js.orZero (Js.parseInt (ExperimentMetricRow.count row));
                 VariationMetricResult.mean :=
                   Js.orZeroF (Js.parseFloat (ExperimentMetricRow.mean row));
                 VariationMetricResult.stddev :=
                   Js.orZeroF
                     (Js.parseFloat (ExperimentMetricRow.stddev row)) |})
           (getDimensionData (ExperimentMetricRow.dimension row) varIndex
              (Merge.dimensionMap st));
       Merge.console := Merge.console st |}.

(** The callback of [rows.forEach] in the promise of the users query. *)
Definition usersQueryRowStep
  (st : Merge.t) (row : ExperimentUsersRow.t) : Merge.t :=
  let varIndex := varIndexOf (ExperimentUsersRow.variation row) in
  if unexpected varIndex
  then logUnexpected (ExperimentUsersRow.variation row) st
  else
    {| Merge.dimensionMap :=
         updateData (ExperimentUsersRow.dimension row) varIndex
           (setUsers (Js.orZero (Js.parseInt (ExperimentUsersRow.users row))))
           (getDimensionData (ExperimentUsersRow.dimension row) varIndex
              (Merge.dimensionMap st));
       Merge.console := Merge.console st |}.

(** The query text of a promise, composed when the promise is created. *)
Definition taskSql (t : Task) : string :=
  match t with
  | MetricTask m =>
      getExperimentMetricSql settings m experiment phase activationMetric
        dimension now
  | UsersTask =>
      getExperimentUsersSql settings experiment phase activationMetric
        dimension now
  end.

(** What a promise does once its query has returned: it runs to its end
    before any other promise continues. *)
Definition completeTask (st : Merge.t) (t : Task) : Merge.t :=
  match t with
  | MetricTask m =>
      fold_left (metricRowStep m) (runExperimentMetric (taskSql t)) st
  | UsersTask =>
      fold_left usersQueryRowStep (runExperimentUsers (taskSql t)) st
  end.

(** The promises in the order of their creation. *)
Definition tasks (metrics : list Metric.t) : list Task :=
  (map MetricTask metrics ++ UsersTask :: nil)%list.

(** [getExperimentResults], with the order in which the queries of its
    promises return: [completionOrder] lists the promises of
    [tasks metrics] in that order.  The second component is what was
    printed with [console.log]. *)
Definition getExperimentResults
  (metrics : list Metric.t) (completionOrder : list Task)
  : ExperimentResults.t * list string :=
  let query := map taskSql (tasks metrics) in
  let st :=
    fold_left completeTask completionOrder
      {| Merge.dimensionMap := nil; Merge.console := nil |} in
  ({| ExperimentResults.results :=
        map (fun kv =>
               {| DimensionResult.dimension := fst kv;
                  DimensionResult.variations := snd kv |})
            (Merge.dimensionMap st);
      ExperimentResults.query :=
        Js.join ";

" (map sqlFormat query) ++ ";" |},
   Merge.console st).

End ExperimentAnalysis.

(** ** A clock for the examples

    An instance of [JsDate] in which a date is its time value, the number of
    milliseconds since 1970-01-01T00:00:00Z, and the local time zone is
    UTC. *)

Module UtcClock.

Definition msPerDay : Z := 86400000.

(** Year, month and day of the [days]-th day since the epoch, in the
    proleptic Gregorian calendar. *)
Definition civilFromDays (days : Z) : Z * Z * Z :=
  let z := days + 719468 in
  let era := z / 146097 in
  let doe := z - era * 146097 in
  let yoe := (doe - doe / 1460 + doe / 36524 - doe / 146096) / 365 in
  let doy := doe - (365 * yoe + yoe / 4 - yoe / 100) in
  let mp := (5 * doy + 2) / 153 in
  let d := doy - (153 * mp + 2) / 5 + 1 in
  let m := if mp <? 10 then mp + 3 else mp - 9 in
  let y := yoe + era * 400 + (if m <=? 2 then 1 else 0) in
  (y, m, d).

Definition daysFromCivil (y m d : Z) : Z :=
  let y' := if m <=? 2 then y - 1 else y in
  let era := y' / 400 in
  let yoe := y' - era * 400 in
  let doy := (153 * (if 2 <? m then m - 3 else m + 9) + 2) / 5 + d - 1 in
  let doe := yoe * 365 + yoe / 4 - yoe / 100 + doy in
  era * 146097 + doe - 719468.

(** [z] in decimal, padded with zeros to [w] digits. *)
Definition pad (w : nat) (z : Z) : string :=
  let s := Js.showZ z in
  String.concat "" (repeat "0" (w - String.length s)) ++ s.

(** For the years 0 to 9999. *)
Definition toISOString (t : Z) : string :=
  let '(y, m, d) := civilFromDays (t / msPerDay) in
  let r := t mod msPerDay in
  pad 4 y ++ "-" ++ pad 2 m ++ "-" ++ pad 2 d ++ "T"
  ++ pad 2 (r / 3600000) ++ ":" ++ pad 2 (r / 60000 mod 60) ++ ":"
  ++ pad 2 (r / 1000 mod 60) ++ "." ++ pad 3 (r mod 1000) ++ "Z".

Definition setHours (t h : Z) : Z :=
  t - (t mod msPerDay) / 3600000 * 3600000 + h * 3600000.

Definition setMinutes (t m : Z) : Z :=
  t - (t / 60000 mod 60) * 60000 + m * 60000.

Definition setSeconds (t s : Z) : Z :=
  t - (t / 1000 mod 60) * 1000 + s * 1000.

Definition setMilliseconds (t ms : Z) : Z := t - t mod 1000 + ms.

Definition getDate (t : Z) : Z :=
  let '(_, _, d) := civilFromDays (t / msPerDay) in d.

Definition setDate (t d : Z) : Z := t + (d - getDate t) * msPerDay.

Definition digitsAt (start len : nat) (s : string) : Z :=
  match Js.digitsPrefix 10 (String.substring start len s) None with
  | Some z => z
  | None => 0
  end.

(** [new Date(s)] for a text [YYYY-MM-DD] that may go on with a time
    [hh:mm:ss] after one character; other texts are outside this
    instance. *)
Definition newDate (s : string) : Z :=
  daysFromCivil (digitsAt 0 4 s) (digitsAt 5 2 s) (digitsAt 8 2 s) * msPerDay
  + digitsAt 11 2 s * 3600000 + digitsAt 14 2 s * 60000
  + digitsAt 17 2 s * 1000.

Definition clock : JsDate :=
  Build_JsDate Z toISOString setHours setMinutes setSeconds setMilliseconds
    getDate setDate newDate.

End UtcClock.

(** ** What the composed expressions denote *)

(** The per-user aggregate expressions of [getAggregateMetricSqlValue],
    with their text and their value on the metric rows joined to one
    user.  The values of a column are decimals, and the cap is the number
    that the program holds and prints. *)
Module Aggregate.

Inductive t :=
| One
| CountAll
| CountDistinct (col : string)
| Max (col : string)
| Least (cap : float) (a : t).

Fixpoint render (a : t) : string :=
  match a with
  | One => "1"
  | CountAll => "COUNT(*)"
  | CountDistinct col => "COUNT(DISTINCT " ++ col ++ ")"
  | Max col => "MAX(" ++ col ++ ")"
  | Least cap a' => "LEAST(" ++ Js.showNumber cap ++ ", " ++ render a' ++ ")"
  end.

(** The values of a list without those equal to a later one. *)
Fixpoint distinct (values : list Q) : list Q :=
  match values with
  | nil => nil
  | v :: rest =>
      if existsb (Qeq_bool v) rest then distinct rest else v :: distinct rest
  end.

(** [values] are the values of the column in the rows of the group.  There
    is no value where SQL has none: the maximum of no row, and the least of
    a text that denotes no number. *)
Fixpoint eval (values : list Q) (a : t) : option Q :=
  match a with
  | One => Some 1%Q
  | CountAll => Some (inject_Z (Z.of_nat (List.length values)))
  | CountDistinct _ =>
      Some (inject_Z (Z.of_nat (List.length (distinct values))))
  | Max _ =>
      match values with
      | nil => None
      | v :: rest => Some (fold_left Qmax rest v)
      end
  | Least cap a' =>
      match Js.numberQ cap, eval values a' with
      | Some c, Some v => Some (Qmin c v)
      | _, _ => None
      end
  end.

(** The aggregate of a metric type before the cap. *)
Definition ofMetric (metric : Metric.t) (col : string) : t :=
  match Metric.type metric with
  | count =>
      if Js.truthy (Some (Metric.column metric))
      then CountDistinct col
      else CountAll
  | duration => Max col
  | revenue => Max col
  | binomial => One
  end.

End Aggregate.

(** The timestamp expressions of the CTEs, with their text and their value
    in minutes. *)
Module TimeExpr.

Inductive t :=
| Column (col : string)
| PlusDays (e : t) (days : float)
| MinusHalfHour (e : t).

Fixpoint render (e : t) : string :=
  match e with
  | Column col => col
  | PlusDays e' days => addDateInterval (render e') days
  | MinusHalfHour e' => subtractHalfHour (render e')
  end.

(** [row] gives the value of each column, in minutes since the epoch.
    There is no value where the text of the interval denotes no number. *)
Fixpoint eval (row : string -> Q) (e : t) : option Q :=
  match e with
  | Column col => Some (row col)
  | PlusDays e' days =>
      match eval row e', Js.numberQ days with
      | Some t, Some d => Some (t + d * inject_Z (24 * 60))%Q
      | _, _ => None
      end
  | MinusHalfHour e' =>
      match eval row e' with
      | Some t => Some (t - inject_Z 30)%Q
      | None => None
      end
  end.

End TimeExpr.

(** ** The tables of the past experiments query, typed

    The tables of [getPastExperimentQuery] as functions on the assignment
    events, with typed rows; the reading of the text of the query below is
    shown to compute them.  A timestamp is a number of seconds since the
    epoch and a date is a number of days since the epoch. *)

Module PastQuery.

(** The columns of the experiments table that the query reads. *)
Record Event := {
  experiment_id : string;
  variation_id : string;
  timestamp : Z;
  anonymous_id : string
}.

(** [date_trunc('day', t)]. *)
Definition dateTrunc (t : Z) : Z := t / 86400.

(** [datediff(day, a, b)] on dates. *)
Definition dateDiff (a b : Z) : Z := b - a.

Definition Key : Type := string * string.

(** A row of [__experimentDates]. *)
Record DateRow := {
  d_key : Key;
  d_date : Z;
  d_users : Z
}.

(** A row of [__userThresholds]. *)
Record ThresholdRow := {
  u_key : Key;
  u_threshold : Q
}.

(** A row of [__variations]. *)
Record VariationRow := {
  v_key : Key;
  v_start_date : Z;
  v_end_date : Z;
  v_users : Z
}.

Definition eventKey (e : Event) : Key := (experiment_id e, variation_id e).

(** The variation and the day of an event. *)
Definition dayKey (e : Event) : Key * Z :=
  (eventKey e, dateTrunc (timestamp e)).

Definition minimum (l : list Z) : Z :=
  match l with
  | nil => 0
  | x :: rest => fold_left Z.min rest x
  end.

Definition maximum (l : list Z) : Z :=
  match l with
  | nil => 0
  | x :: rest => fold_left Z.max rest x
  end.

Definition sum (l : list Z) : Z := fold_left Z.add l 0.

(** The rows of the group [k] of a GROUP BY experiment, variation. *)
Definition rowsOf (k : Key) (rows : list DateRow) : list DateRow :=
  List.filter (fun d => bool_decide (d_key d = k)) rows.

(** [a > b] between a count and a threshold. *)
Definition above (a : Z) (b : Q) : bool := negb (Qle_bool (inject_Z a) b).

(** [__experimentDates]: WHERE timestamp > from, GROUP BY experiment,
    variation and day, count(distinct anonymous_id). *)
Definition experimentDates (from : Z) (events : list Event) : list DateRow :=
  let rows := List.filter (fun e => from <? timestamp e) events in
  map (fun g : Key * Z =>
         {| d_key := fst g;
            d_date := snd g;
            d_users :=
              Z.of_nat
                (List.length
                   (remove_dups
                      (map anonymous_id
                         (List.filter
                            (fun e =>
                               bool_decide
                                 ((eventKey e, dateTrunc (timestamp e)) = g))
                            rows)))) |})
      (remove_dups (map (fun e => (eventKey e, dateTrunc (timestamp e))) rows)).

(** [__userThresholds]: WHERE users > 5, GROUP BY experiment and
    variation, max(users)*0.05. *)
Definition userThresholds (dates : list DateRow) : list ThresholdRow :=
  let rows := List.filter (fun d => 5 <? d_users d) dates in
  map (fun k =>
         {| u_key := k;
            u_threshold :=
              (inject_Z
                 (maximum
                    (map d_users
                       (rowsOf k rows)))
               * (5 # 100))%Q |})
      (remove_dups (map d_key rows)).

(** The rows [d] of [__experimentDates d JOIN __userThresholds u ON
    (d.users > u.threshold AND same experiment AND same variation)]. *)
Definition joinedDates
  (dates : list DateRow) (thresholds : list ThresholdRow) : list DateRow :=
  flat_map
    (fun d =>
       flat_map
         (fun u =>
            if above (d_users d) (u_threshold u)
               && bool_decide (d_key d = u_key u)
            then d :: nil
            else nil)
         thresholds)
    dates.

(** [__variations]: GROUP BY experiment and variation, MIN(date),
    MAX(date), SUM(users). *)
Definition variations
  (dates : list DateRow) (thresholds : list ThresholdRow)
  : list VariationRow :=
  let rows := joinedDates dates thresholds in
  map (fun k =>
         let g := rowsOf k rows in
         {| v_key := k;
            v_start_date := minimum (map d_date g);
            v_end_date := maximum (map d_date g);
            v_users := sum (map d_users g) |})
      (remove_dups (map d_key rows)).

(** The final SELECT: users > 200, datediff(day, start_date, end_date) >
    5, datediff(day, from, start_date) > 2. *)
Definition keep (from : Z) (v : VariationRow) : bool :=
  (200 <? v_users v)
  && (5 <? dateDiff (v_start_date v) (v_end_date v))
  && (2 <? dateDiff (dateTrunc from) (v_start_date v)).

Definition result (from : Z) (events : list Event) : list VariationRow :=
  let dates := experimentDates from events in
  List.filter (keep from) (variations dates (userThresholds dates)).

(** The events after the horizon of one variation and one day. *)
Definition eventsOf (from : Z) (k : Key) (date : Z) (events : list Event)
  : list Event :=
  List.filter
    (fun e =>
       (from <? timestamp e)
       && bool_decide ((eventKey e, dateTrunc (timestamp e)) = (k, date)))
    events.

(** The variations that have a threshold: those with a day of more than 5
    users. *)
Definition thresholdKeys (dates : list DateRow) : list Key :=
  remove_dups (map d_key (List.filter (fun d => 5 <? d_users d) dates)).

(** The greatest daily count of the variation [k]. *)
Definition peak (k : Key) (dates : list DateRow) : Z :=
  maximum (map d_users (rowsOf k dates)).

(** The days kept of the variation [k]: those whose count is above 5% of
    the peak. *)
Definition keptDays (k : Key) (dates : list DateRow) : list DateRow :=
  List.filter (fun d => 5 * peak k dates <? 100 * d_users d) (rowsOf k dates).

(** The days the final table is made of: those of a variation with a
    threshold whose count is above the threshold. *)
Definition counted (dates : list DateRow) (d : DateRow) : bool :=
  bool_decide (elem_of (d_key d) (thresholdKeys dates))
  && (5 * peak (d_key d) dates <? 100 * d_users d).

End PastQuery.

(** The pipeline as the specification words it: days at or below the floor
    of 5 users are discarded, then the days below 5% of the peak daily
    count of their variation, and what remains is collapsed and filtered. *)

Module PastSpec.

Import PastQuery.

(** 5% of the peak daily count of the variation [k]. *)
Definition noiseThreshold (dates : list DateRow) (k : Key) : Q :=
  (inject_Z
     (maximum (map d_users (rowsOf k dates)))
   * (5 # 100))%Q.

Definition aboveFloor (dates : list DateRow) : list DateRow :=
  List.filter (fun d => negb (d_users d <=? 5)) dates.

(** [a < b] between a count and a threshold. *)
Definition below (a : Z) (b : Q) : bool :=
  negb (Qle_bool b (inject_Z a)).

Definition notBelowThreshold
  (allDates remaining : list DateRow) : list DateRow :=
  List.filter (fun d => negb (below (d_users d) (noiseThreshold allDates (d_key d))))
         remaining.

Definition collapse (rows : list DateRow) : list VariationRow :=
  map (fun k =>
         let g := rowsOf k rows in
         {| v_key := k;
            v_start_date := minimum (map d_date g);
            v_end_date := maximum (map d_date g);
            v_users := sum (map d_users g) |})
      (remove_dups (map d_key rows)).

Definition result (from : Z) (events : list Event) : list VariationRow :=
  let dates := experimentDates from events in
  List.filter (keep from) (collapse (notBelowThreshold dates (aboveFloor dates))).

(** The same pipeline with one change: a day is discarded when its count
    is at the threshold or below, not only when it is below. *)
Definition aboveThreshold
  (allDates remaining : list DateRow) : list DateRow :=
  List.filter (fun d => above (d_users d) (noiseThreshold allDates (d_key d)))
         remaining.

Definition amended (from : Z) (events : list Event) : list VariationRow :=
  let dates := experimentDates from events in
  List.filter (keep from) (collapse (aboveThreshold dates (aboveFloor dates))).

(** No day of the events after the horizon is at the floor of 5 users or
    below it. *)
Definition floorFree (from : Z) (events : list Event) : bool :=
  forallb (fun d => 5 <? d_users d) (experimentDates from events).

End PastSpec.

(** ** The reading of the past experiments query

    The text that [getPastExperimentQuery] composes, as a syntax tree of
    the SQL it is written in: the tree prints to the text, with the white
    space and the comments of the template kept in it, and it is evaluated
    on the rows of a warehouse by the usual reading of SELECT, FROM, JOIN,
    WHERE and GROUP BY.  The rows of a table come in the order of the last
    row of their group, and ORDER BY is printed but not evaluated. *)

Module Sql.

(** *** Syntax *)

(** White space and comments between the words of a query. *)
Definition Trivia : Type := string.

Inductive Fn := Min | Max | Sum.

Inductive Expr :=
| Column (name : string)
| Integer (z : Z)
| Decimal (units : Z) (places : nat)
| Literal (text : string)
| Times (a b : Expr)
| DateTrunc (e : Expr)
| DateDiff (a b : Expr)
| CountDistinct (e : Expr)
| Aggregate (f : Fn) (upper : bool) (e : Expr).

Inductive Cond :=
| Gt (a b : Expr)
| Eq (a b : Expr)
| And (a : Cond) (before : Trivia) (b : Cond).

(** An expression of a list, after the white space [item_before], with
    the name it is given. *)
Record Item := {
  item_before : Trivia;
  item_expr : Expr;
  item_alias : option string
}.

Inductive Items :=
| Star (before : Trivia)
| Columns (items : list Item).

Inductive Source :=
| Table (name : string) (alias : option string)
| Join (left : Source) (before : Trivia) (right : Source)
       (opening : Trivia) (on : Cond) (closing : Trivia).

(** A column of ORDER BY and whether it ascends. *)
Record Order := {
  order_before : Trivia;
  order_expr : Expr;
  order_asc : bool
}.

Record Select := {
  select_items : Items;
  select_from : Trivia * Trivia * Source;
  select_where : option (Trivia * Trivia * Cond);
  select_group : option (Trivia * list Item);
  select_order : option (Trivia * list Order)
}.

(** [name as ( select )] after WITH. *)
Record Cte := {
  cte_before : Trivia;
  cte_name : string;
  cte_opening : Trivia;
  cte_select : Select;
  cte_closing : Trivia
}.

Record Query := {
  query_before : Trivia;
  query_ctes : list Cte;
  query_final : Trivia * Select
}.

(** *** The text of a tree *)

Definition fnName (f : Fn) (upper : bool) : string :=
  match f, upper with
  | Min, true => "MIN"
  | Min, false => "min"
  | Max, true => "MAX"
  | Max, false => "max"
  | Sum, true => "SUM"
  | Sum, false => "sum"
  end.

(** [units / 10^places] with its decimal point. *)
Definition decimalText (units : Z) (places : nat) : string :=
  let s := Js.showZ (Z.abs units) in
  let s := Js.zeros (S places - String.length s) ++ s in
  (if units <? 0 then "-" else "")
  ++ String.substring 0 (String.length s - places) s ++ "."
  ++ String.substring (String.length s - places) places s.

Fixpoint renderExpr (e : Expr) : string :=
  match e with
  | Column name => name
  | Integer z => Js.showZ z
  | Decimal units places => decimalText units places
  | Literal text => text
  | Times a b => renderExpr a ++ "*" ++ renderExpr b
  | DateTrunc e' => dateTrunc (renderExpr e')
  | DateDiff a b => dateDiff (renderExpr a) (renderExpr b)
  | CountDistinct e' => "count(distinct " ++ renderExpr e' ++ ")"
  | Aggregate f upper e' => fnName f upper ++ "(" ++ renderExpr e' ++ ")"
  end.

Fixpoint renderCond (c : Cond) : string :=
  match c with
  | Gt a b => renderExpr a ++ " > " ++ renderExpr b
  | Eq a b => renderExpr a ++ " = " ++ renderExpr b
  | And a before b => renderCond a ++ before ++ "AND " ++ renderCond b
  end.

Definition renderItem (i : Item) : string :=
  item_before i ++ renderExpr (item_expr i)
  ++ match item_alias i with
     | Some a => " as " ++ a
     | None => ""
     end.

Definition renderItems (items : Items) : string :=
  match items with
  | Star before => before ++ "*"
  | Columns l => Js.join "," (map renderItem l)
  end.

Fixpoint renderSource (s : Source) : string :=
  match s with
  | Table name alias =>
      name ++ match alias with
              | Some a => " " ++ a
              | None => ""
              end
  | Join l before r opening on closing =>
      renderSource l ++ before ++ "JOIN " ++ renderSource r ++ " ON ("
      ++ opening ++ renderCond on ++ closing ++ ")"
  end.

Definition renderOrder (o : Order) : string :=
  order_before o ++ renderExpr (order_expr o)
  ++ (if order_asc o then " ASC" else " DESC").

Definition renderSelect (s : Select) : string :=
  let '(beforeFrom, afterFrom, source) := select_from s in
  "SELECT" ++ renderItems (select_items s)
  ++ beforeFrom ++ "FROM" ++ afterFrom ++ renderSource source
  ++ match select_where s with
     | Some (before, after, c) => before ++ "WHERE" ++ after ++ renderCond c
     | None => ""
     end
  ++ match select_group s with
     | Some (before, keys) =>
         before ++ "GROUP BY" ++ Js.join "," (map renderItem keys)
     | None => ""
     end
  ++ match select_order s with
     | Some (before, l) =>
         before ++ "ORDER BY" ++ Js.join "," (map renderOrder l)
     | None => ""
     end.

Definition renderCte (c : Cte) : string :=
  cte_before c ++ cte_name c ++ " as (" ++ cte_opening c
  ++ renderSelect (cte_select c) ++ cte_closing c ++ ")".

Definition render (q : Query) : string :=
  query_before q ++ "WITH" ++ Js.join "," (map renderCte (query_ctes q))
  ++ fst (query_final q) ++ renderSelect (snd (query_final q)).

(** *** Trivia are white space and comments *)

(** The rest of a line after [--], the line end included. *)
Fixpoint afterComment (s : string) : string :=
  match s with
  | EmptyString => EmptyString
  | String c s' => if Ascii.eqb c "010" then s' else afterComment s'
  end.

Fixpoint isTriviaFrom (fuel : nat) (s : string) : bool :=
  match fuel with
  | O => false
  | S f =>
      match s with
      | EmptyString => true
      | String c s' =>
          if Js.isWhiteSpace c then isTriviaFrom f s'
          else if String.prefix "--" s then isTriviaFrom f (afterComment s')
          else false
      end
  end.

Definition isTrivia (s : Trivia) : bool :=
  isTriviaFrom (S (String.length s)) s.

Fixpoint condTrivia (c : Cond) : bool :=
  match c with
  | Gt _ _ => true
  | Eq _ _ => true
  | And a before b => condTrivia a && isTrivia before && condTrivia b
  end.

Fixpoint sourceTrivia (s : Source) : bool :=
  match s with
  | Table _ _ => true
  | Join l before r opening on closing =>
      sourceTrivia l && isTrivia before && sourceTrivia r
      && isTrivia opening && condTrivia on && isTrivia closing
  end.

Definition selectTrivia (s : Select) : bool :=
  let '(beforeFrom, afterFrom, source) := select_from s in
  match select_items s with
  | Star before => isTrivia before
  | Columns l => forallb (fun i => isTrivia (item_before i)) l
  end
  && isTrivia beforeFrom && isTrivia afterFrom && sourceTrivia source
  && match select_where s with
     | Some (before, after, c) =>
         isTrivia before && isTrivia after && condTrivia c
     | None => true
     end
  && match select_group s with
     | Some (before, keys) =>
         isTrivia before && forallb (fun i => isTrivia (item_before i)) keys
     | None => true
     end
  && match select_order s with
     | Some (before, l) =>
         isTrivia before && forallb (fun o => isTrivia (order_before o)) l
     | None => true
     end.

(** Every text of the tree that is not a word of the query is white space
    or a comment. *)
Definition wellFormed (q : Query) : bool :=
  isTrivia (query_before q)
  && forallb (fun c => isTrivia (cte_before c) && isTrivia (cte_opening c)
                       && selectTrivia (cte_select c)
                       && isTrivia (cte_closing c))
       (query_ctes q)
  && isTrivia (fst (query_final q))
  && selectTrivia (snd (query_final q)).

(** *** Values, rows and tables *)

(** A timestamp is a number of seconds since the epoch and a day a number
    of days since the epoch. *)
Inductive Value :=
| Null
| Text (s : string)
| Number (q : Q)
| Time (t : Z)
| Day (d : Z).

Definition Row : Type := list (string * Value).

Definition Database : Type := list (string * list Row).

Fixpoint field (name : string) (r : Row) : Value :=
  match r with
  | nil => Null
  | (k, v) :: rest => if String.eqb k name then v else field name rest
  end.

Fixpoint tableOf (name : string) (db : Database) : list Row :=
  match db with
  | nil => nil
  | (k, rows) :: rest => if String.eqb k name then rows else tableOf name rest
  end.

(** A row of a FROM clause: a row of each of the tables joined, with the
    alias of the table. *)
Definition Binding : Type := list (option string * Row).

(** The column [name] in a row of a FROM clause: [alias.column] in the
    table of that alias, another name in the first table that has it. *)
Fixpoint valueIn (b : Binding) (name : string) : Value :=
  match b with
  | nil => Null
  | (alias, r) :: rest =>
      let v :=
        match alias with
        | None => field name r
        | Some a =>
            match Js.dropPrefix (a ++ ".") name with
            | Some column => field column r
            | None => field name r
            end
        end in
      match v with
      | Null => valueIn rest name
      | _ => v
      end
  end.

(** The name of a column after its qualifier. *)
Fixpoint unqualified (name : string) : string :=
  match name with
  | EmptyString => EmptyString
  | String c rest =>
      if Js.includes "." rest then unqualified rest
      else if Ascii.eqb c "." then rest else name
  end.

(** ['YYYY-MM-DD hh:mm:ss'] as a number of seconds since the epoch. *)
Definition readTimestamp (text : string) : option Z :=
  if (String.length text =? 21)%nat
     && String.prefix "'" text
     && String.eqb (String.substring 20 1 text) "'"
  then Some (UtcClock.daysFromCivil (UtcClock.digitsAt 1 4 text)
               (UtcClock.digitsAt 6 2 text) (UtcClock.digitsAt 9 2 text)
             * 86400
             + UtcClock.digitsAt 12 2 text * 3600
             + UtcClock.digitsAt 15 2 text * 60
             + UtcClock.digitsAt 18 2 text)
  else None.

(** [a = b], and the equality of GROUP BY and DISTINCT. *)
Definition same (a b : Value) : bool :=
  match a, b with
  | Null, Null => true
  | Text s, Text s' => String.eqb s s'
  | Number q, Number q' => Qeq_bool q q'
  | Time t, Time t' => t =? t'
  | Day d, Day d' => d =? d'
  | _, _ => false
  end.

(** [a > b]. *)
Definition greater (a b : Value) : bool :=
  match a, b with
  | Number q, Number q' => negb (Qle_bool q q')
  | Time t, Time t' => t' <? t
  | Day d, Day d' => d' <? d
  | _, _ => false
  end.

Definition present (v : Value) : bool :=
  match v with
  | Null => false
  | _ => true
  end.

Definition times (a b : Value) : Value :=
  match a, b with
  | Number q, Number q' => Number (q * q')
  | _, _ => Null
  end.

Definition plus (a b : Value) : Value :=
  match a, b with
  | Number q, Number q' => Number (q + q')
  | _, _ => Null
  end.

Definition dayOf (v : Value) : option Z :=
  match v with
  | Time t => Some (t / 86400)
  | Day d => Some d
  | _ => None
  end.

(** The elements of a list without those equal to a later one. *)
Fixpoint distinctBy {A : Type} (eq : A -> A -> bool) (l : list A) : list A :=
  match l with
  | nil => nil
  | x :: rest =>
      if existsb (eq x) rest then distinctBy eq rest
      else x :: distinctBy eq rest
  end.

Definition aggregate (f : Fn) (values : list Value) : Value :=
  match f with
  | Min =>
      match List.filter present values with
      | nil => Null
      | v :: rest => fold_left (fun a b => if greater a b then b else a) rest v
      end
  | Max =>
      match List.filter present values with
      | nil => Null
      | v :: rest => fold_left (fun a b => if greater b a then b else a) rest v
      end
  | Sum =>
      match List.filter present values with
      | nil => Null
      | v :: rest => fold_left plus rest v
      end
  end.

(** *** Evaluation *)

(** The value of an expression in the row [b] of a group [group]; an
    aggregate is over the rows of the group. *)
Fixpoint evalExpr (group : list Binding) (b : Binding) (e : Expr) : Value :=
  match e with
  | Column name => valueIn b name
  | Integer z => Number (inject_Z z)
  | Decimal units places =>
      Number (Qmake units (Z.to_pos (10 ^ Z.of_nat places)))
  | Literal text =>
      match readTimestamp text with
      | Some t => Time t
      | None => Null
      end
  | Times x y => times (evalExpr group b x) (evalExpr group b y)
  | DateTrunc x =>
      match dayOf (evalExpr group b x) with
      | Some d => Day d
      | None => Null
      end
  | DateDiff x y =>
      match dayOf (evalExpr group b x), dayOf (evalExpr group b y) with
      | Some dx, Some dy => Number (inject_Z (dy - dx))
      | _, _ => Null
      end
  | CountDistinct x =>
      Number
        (inject_Z
           (Z.of_nat
              (List.length
                 (distinctBy same
                    (List.filter present
                       (map (fun r => evalExpr nil r x) group))))))
  | Aggregate f _ x => aggregate f (map (fun r => evalExpr nil r x) group)
  end.

Fixpoint holds (b : Binding) (c : Cond) : bool :=
  match c with
  | Gt x y => greater (evalExpr nil b x) (evalExpr nil b y)
  | Eq x y => same (evalExpr nil b x) (evalExpr nil b y)
                && present (evalExpr nil b x)
  | And x _ y => holds b x && holds b y
  end.

Fixpoint evalSource (db : Database) (s : Source) : list Binding :=
  match s with
  | Table name alias => map (fun r => (alias, r) :: nil) (tableOf name db)
  | Join l _ r _ on _ =>
      flat_map
        (fun x =>
           flat_map
             (fun y => if holds (app x y) on then app x y :: nil else nil)
             (evalSource db r))
        (evalSource db l)
  end.

(** The name of a column of the result. *)
Definition outputName (i : Item) : string :=
  match item_alias i with
  | Some a => a
  | None =>
      match item_expr i with
      | Column name => unqualified name
      | _ => ""
      end
  end.

Definition output (items : Items) (group : list Binding) (b : Binding) : Row :=
  match items with
  | Star _ => List.concat (map snd b)
  | Columns l => map (fun i => (outputName i, evalExpr group b (item_expr i))) l
  end.

Fixpoint sameKeys (a b : list Value) : bool :=
  match a, b with
  | nil, nil => true
  | x :: a', y :: b' => same x y && sameKeys a' b'
  | _, _ => false
  end.

Definition keyOf (keys : list Item) (b : Binding) : list Value :=
  map (fun i => evalExpr nil b (item_expr i)) keys.

Definition evalSelect (db : Database) (s : Select) : list Row :=
  let rows := evalSource db (snd (select_from s)) in
  let rows :=
    match select_where s with
    | Some (_, _, c) => List.filter (fun b => holds b c) rows
    | None => rows
    end in
  match select_group s with
  | Some (_, keys) =>
      let sameGroup x y := sameKeys (keyOf keys x) (keyOf keys y) in
      map (fun b => output (select_items s) (List.filter (sameGroup b) rows) b)
        (distinctBy sameGroup rows)
  | None => map (fun b => output (select_items s) (b :: nil) b) rows
  end.

(** The tables of WITH are added to the database one after the other, and
    the final SELECT reads the database they make. *)
Definition run (q : Query) (db : Database) : list Row :=
  evalSelect
    (fold_left (fun db' c => (cte_name c, evalSelect db' (cte_select c)) :: db')
       (query_ctes q) db)
    (snd (query_final q)).

End Sql.

(** ** The past experiments query as a syntax tree *)

Section PastExperiments.

Variable settings : Settings.t.

Definition experimentIdColumn : string :=
  Js.orStr (Settings.experimentIdColumn (Settings.experiments settings))
    "experiment_id".

Definition experimentsTable : string :=
  getFullTableName
    (Js.orStr (Settings.table (Settings.experiments settings))
       "experiment_viewed").

Definition experimentDatesCte (horizon : string) : Sql.Cte :=
  {| Sql.cte_before := "
      ";
     Sql.cte_name := "__experimentDates";
     Sql.cte_opening := "
        ";
     Sql.cte_select :=
       {| Sql.select_items :=
            Sql.Columns
              ({| Sql.item_before := "
          ";
                  Sql.item_expr := Sql.Column experimentIdColumn;
                  Sql.item_alias := Some "experiment_id" |}
               :: {| Sql.item_before := "
          ";
                     Sql.item_expr := Sql.Column (getVariationColumn settings);
                     Sql.item_alias := Some "variation_id" |}
               :: {| Sql.item_before := "
          ";
                     Sql.item_expr :=
                       Sql.DateTrunc
                         (Sql.Column
                            (getTimestampColumn settings None InExperiments));
                     Sql.item_alias := Some "date" |}
               :: {| Sql.item_before := "
          ";
                     Sql.item_expr :=
                       Sql.CountDistinct
                         (Sql.Column
                            (getAnonymousIdColumn settings None InExperiments));
                     Sql.item_alias := Some "users" |}
               :: nil);
          Sql.select_from := ("
        ", "
          ", Sql.Table experimentsTable None);
          Sql.select_where :=
            Some ("
        ", "
          ",
                  Sql.Gt
                    (Sql.Column
                       (getTimestampColumn settings None InExperiments))
                    (Sql.Literal horizon));
          Sql.select_group :=
            Some ("
        ",
                  {| Sql.item_before := "
          ";
                     Sql.item_expr := Sql.Column experimentIdColumn;
                     Sql.item_alias := None |}
                  :: {| Sql.item_before := "
          ";
                        Sql.item_expr :=
                          Sql.Column (getVariationColumn settings);
                        Sql.item_alias := None |}
                  :: {| Sql.item_before := "
          ";
                        Sql.item_expr :=
                          Sql.DateTrunc
                            (Sql.Column
                               (getTimestampColumn settings None
                                  InExperiments));
                        Sql.item_alias := None |}
                  :: nil);
          Sql.select_order := None |};
     Sql.cte_closing := "
      " |}.

Definition userThresholdsCte : Sql.Cte :=
  {| Sql.cte_before := "
      ";
     Sql.cte_name := "__userThresholds";
     Sql.cte_opening := "
        ";
     Sql.cte_select :=
       {| Sql.select_items :=
            Sql.Columns
              ({| Sql.item_before := "
          ";
                  Sql.item_expr := Sql.Column "experiment_id";
                  Sql.item_alias := None |}
               :: {| Sql.item_before := "
          ";
                     Sql.item_expr := Sql.Column "variation_id";
                     Sql.item_alias := None |}
               :: {| Sql.item_before := "
          -- It's common for a small number of tracking events to continue coming in
          -- long after an experiment ends, so limit to days with enough traffic
          ";
                     Sql.item_expr :=
                       Sql.Times
                         (Sql.Aggregate Sql.Max false (Sql.Column "users"))
                         (Sql.Decimal 5 2);
                     Sql.item_alias := Some "threshold" |}
               :: nil);
          Sql.select_from := ("
        ", "
          ", Sql.Table "__experimentDates" None);
          Sql.select_where :=
            Some ("
        ", "
          -- Skip days where a variation got 5 or fewer visitors since it's probably not real traffic
          ",
                  Sql.Gt (Sql.Column "users") (Sql.Integer 5));
          Sql.select_group :=
            Some ("
        ",
                  {| Sql.item_before := "
          ";
                     Sql.item_expr := Sql.Column "experiment_id";
                     Sql.item_alias := None |}
                  :: {| Sql.item_before := " ";
                        Sql.item_expr := Sql.Column "variation_id";
                        Sql.item_alias := None |}
                  :: nil);
          Sql.select_order := None |};
     Sql.cte_closing := "
      " |}.

Definition variationsCte : Sql.Cte :=
  {| Sql.cte_before := "
      ";
     Sql.cte_name := "__variations";
     Sql.cte_opening := "
        ";
     Sql.cte_select :=
       {| Sql.select_items :=
            Sql.Columns
              ({| Sql.item_before := "
          ";
                  Sql.item_expr := Sql.Column "d.experiment_id";
                  Sql.item_alias := None |}
               :: {| Sql.item_before := "
          ";
                     Sql.item_expr := Sql.Column "d.variation_id";
                     Sql.item_alias := None |}
               :: {| Sql.item_before := "
          ";
                     Sql.item_expr :=
                       Sql.Aggregate Sql.Min true (Sql.Column "d.date");
                     Sql.item_alias := Some "start_date" |}
               :: {| Sql.item_before := "
          ";
                     Sql.item_expr :=
                       Sql.Aggregate Sql.Max true (Sql.Column "d.date");
                     Sql.item_alias := Some "end_date" |}
               :: {| Sql.item_before := "
          ";
                     Sql.item_expr :=
                       Sql.Aggregate Sql.Sum true (Sql.Column "d.users");
                     Sql.item_alias := Some "users" |}
               :: nil);
          Sql.select_from := ("
        ", "
          ",
            Sql.Join (Sql.Table "__experimentDates" (Some "d")) "
          "
              (Sql.Table "__userThresholds" (Some "u")) "
            "
              (Sql.And
                 (Sql.And
                    (Sql.Gt (Sql.Column "d.users") (Sql.Column "u.threshold"))
                    "
            "
                    (Sql.Eq (Sql.Column "d.experiment_id")
                       (Sql.Column "u.experiment_id")))
                 "
            "
                 (Sql.Eq (Sql.Column "d.variation_id")
                    (Sql.Column "u.variation_id")))
              "
          ");
          Sql.select_where := None;
          Sql.select_group :=
            Some ("
        ",
                  {| Sql.item_before := "
          ";
                     Sql.item_expr := Sql.Column "d.experiment_id";
                     Sql.item_alias := None |}
                  :: {| Sql.item_before := " ";
                        Sql.item_expr := Sql.Column "d.variation_id";
                        Sql.item_alias := None |}
                  :: nil);
          Sql.select_order := None |};
     Sql.cte_closing := "
      " |}.

Definition pastExperimentsSelect (horizon : string) : Sql.Select :=
  {| Sql.select_items := Sql.Star "
      ";
     Sql.select_from := ("
    ", "
      ", Sql.Table "__variations" None);
     Sql.select_where :=
       Some ("
    ", "
      -- Skip experiments with fewer than 200 users since they don't have enough data
      ",
             Sql.And
               (Sql.And
                  (Sql.Gt (Sql.Column "users") (Sql.Integer 200))
                  "
      -- Skip experiments that are 5 days or shorter (most likely means it was stopped early)
      "
                  (Sql.Gt
                     (Sql.DateDiff (Sql.Column "start_date")
                        (Sql.Column "end_date"))
                     (Sql.Integer 5)))
               "
      -- Skip experiments that start of the very first day since we're likely missing data
      "
               (Sql.Gt
                  (Sql.DateDiff (Sql.Literal horizon)
                     (Sql.Column "start_date"))
                  (Sql.Integer 2)));
     Sql.select_group := None;
     Sql.select_order :=
       Some ("
    ",
             {| Sql.order_before := "
      ";
                Sql.order_expr := Sql.Column "experiment_id";
                Sql.order_asc := true |}
             :: {| Sql.order_before := " ";
                   Sql.order_expr := Sql.Column "variation_id";
                   Sql.order_asc := true |}
             :: nil) |}.

(** The query of [getPastExperimentQuery]; [horizon] is the text of the
    timestamp of the lookback horizon. *)
Definition pastExperiments (horizon : string) : Sql.Query :=
  {| Sql.query_before := "-- Past Experiments
    ";
     Sql.query_ctes :=
       experimentDatesCte horizon :: userThresholdsCte :: variationsCte :: nil;
     Sql.query_final := ("
    ", pastExperimentsSelect horizon) |}.

(** The experiments table of a warehouse with the assignment events
    [events]: a row has the four columns that the query reads. *)
Definition eventRow (e : PastQuery.Event) : Sql.Row :=
  (experimentIdColumn, Sql.Text (PastQuery.experiment_id e))
  :: (getVariationColumn settings, Sql.Text (PastQuery.variation_id e))
  :: (getTimestampColumn settings None InExperiments,
      Sql.Time (PastQuery.timestamp e))
  :: (getAnonymousIdColumn settings None InExperiments,
      Sql.Text (PastQuery.anonymous_id e))
  :: nil.

(** A row of the experiments table in a FROM clause. *)
Definition eventBinding (e : PastQuery.Event) : Sql.Binding :=
  (None, eventRow e) :: nil.

Definition experimentsColumns : list string :=
  experimentIdColumn :: getVariationColumn settings
  :: getTimestampColumn settings None InExperiments
  :: getAnonymousIdColumn settings None InExperiments :: nil.

Definition warehouseOf (events : list PastQuery.Event) : Sql.Database :=
  (experimentsTable, map eventRow events) :: nil.

End PastExperiments.

(** A row of the result with its columns typed. *)
Definition textOf (v : Sql.Value) : string :=
  match v with
  | Sql.Text s => s
  | _ => ""
  end.

Definition integerOf (v : Sql.Value) : Z :=
  match v with
  | Sql.Number q => Qnum q / Z.pos (Qden q)
  | _ => 0
  end.

Definition dateOf (v : Sql.Value) : Z :=
  match Sql.dayOf v with
  | Some d => d
  | None => 0
  end.

Definition variationRow (r : Sql.Row) : PastQuery.VariationRow :=
  {| PastQuery.v_key :=
       (textOf (Sql.field "experiment_id" r),
        textOf (Sql.field "variation_id" r));
     PastQuery.v_start_date := dateOf (Sql.field "start_date" r);
     PastQuery.v_end_date := dateOf (Sql.field "end_date" r);
     PastQuery.v_users := integerOf (Sql.field "users" r) |}.

(** The rows of the three tables of WITH, from their typed rows. *)
Definition dateRowOf (d : PastQuery.DateRow) : Sql.Row :=
  ("experiment_id", Sql.Text (fst (PastQuery.d_key d)))
  :: ("variation_id", Sql.Text (snd (PastQuery.d_key d)))
  :: ("date", Sql.Day (PastQuery.d_date d))
  :: ("users", Sql.Number (inject_Z (PastQuery.d_users d)))
  :: nil.

Definition thresholdRowOf (u : PastQuery.ThresholdRow) : Sql.Row :=
  ("experiment_id", Sql.Text (fst (PastQuery.u_key u)))
  :: ("variation_id", Sql.Text (snd (PastQuery.u_key u)))
  :: ("threshold", Sql.Number (PastQuery.u_threshold u))
  :: nil.

Definition variationRowOf (v : PastQuery.VariationRow) : Sql.Row :=
  ("experiment_id", Sql.Text (fst (PastQuery.v_key v)))
  :: ("variation_id", Sql.Text (snd (PastQuery.v_key v)))
  :: ("start_date", Sql.Day (PastQuery.v_start_date v))
  :: ("end_date", Sql.Day (PastQuery.v_end_date v))
  :: ("users", Sql.Number (inject_Z (PastQuery.v_users v)))
  :: nil.

(** The rows of the join of [__variations]: a day and a threshold of its
    variation that its count is above. *)
Definition joinedPairs
  (dates : list PastQuery.DateRow) (thresholds : list PastQuery.ThresholdRow)
  : list (PastQuery.DateRow * PastQuery.ThresholdRow) :=
  flat_map
    (fun d =>
       flat_map
         (fun u =>
            if PastQuery.above (PastQuery.d_users d) (PastQuery.u_threshold u)
               && bool_decide (PastQuery.d_key d = PastQuery.u_key u)
            then (d, u) :: nil
            else nil)
         thresholds)
    dates.

Definition joinedBinding (p : PastQuery.DateRow * PastQuery.ThresholdRow)
  : Sql.Binding :=
  (Some "d", dateRowOf (fst p)) :: (Some "u", thresholdRowOf (snd p)) :: nil.

(** ** Names for the parts of the composed text that the properties speak of *)

(** The timestamp column of a metric and the two columns derived from
    it. *)
Definition metricTimestampCol (settings : Settings.t) (metric : Metric.t)
  : string :=
  "m." ++ getTimestampColumn settings (Some metric) InDefault.

Definition conversionEnd
  (settings : Settings.t) (metric : Metric.t) (conversionWindowDays : float)
  : TimeExpr.t :=
  TimeExpr.PlusDays (TimeExpr.Column (metricTimestampCol settings metric))
    conversionWindowDays.

Definition sessionStart (settings : Settings.t) (metric : Metric.t)
  : TimeExpr.t :=
  TimeExpr.MinusHalfHour (TimeExpr.Column (metricTimestampCol settings metric)).

(** The WHERE clause of [getMetricCTE]. *)
Definition metricWhere (metric : Metric.t) : string :=
  match Metric.conditions metric with
  | nil => ""
  | _ :: _ =>
      "WHERE " ++ Js.join " AND " (map conditionSql (Metric.conditions metric))
  end.

(** The identifier spaces differ: a user id is requested of a metric
    tracked by anonymous id, or the reverse. *)
Definition identifierMismatch (metric : Metric.t) (userId : bool) : Prop :=
  (userId = true /\ Metric.userIdType metric = "anonymous")
  \/ (userId = false /\ Metric.userIdType metric = "user").

(** The column of the metric table that the identifies join reads, and
    the column of the identifies table it is compared with. *)
Definition bridgedMetricColumn
  (settings : Settings.t) (metric : Metric.t) (userId : bool) : string :=
  if userId
  then getAnonymousIdColumn settings (Some metric) InDefault
  else getUserIdColumn settings (Some metric) InDefault.

Definition bridgedIdentifiesColumn (settings : Settings.t) (userId : bool)
  : string :=
  if userId
  then getAnonymousIdColumn settings None InIdentifies
  else getUserIdColumn settings None InIdentifies.

(** The thirteen percentile columns [p1] to [p99], with the expression
    [expr n] for the column of the percentile [n]. *)
Definition percentileLadder (expr : float -> string) : string :=
  "," ++ Js.join "
      ,"
    ((expr 0.01 ++ " as p1") :: (expr 0.05 ++ " as p5")
     :: (expr 0.1 ++ " as p10") :: (expr 0.2 ++ " as p20")
     :: (expr 0.3 ++ " as p30") :: (expr 0.4 ++ " as p40")
     :: (expr 0.5 ++ " as p50") :: (expr 0.6 ++ " as p60")
     :: (expr 0.7 ++ " as p70") :: (expr 0.8 ++ " as p80")
     :: (expr 0.9 ++ " as p90") :: (expr 0.95 ++ " as p95")
     :: (expr 0.99 ++ " as p99") :: nil)%float.

(** The number of places at which [pat] occurs in [s]. *)
Fixpoint occurrences (pat s : string) : nat :=
  ((if String.prefix pat s then 1 else 0)
   + match s with
     | EmptyString => 0
     | String _ s' => occurrences pat s'
     end)%nat.

(** ** Names for the merge of [getExperimentResults] *)

(** The object at the property [p] of the array stored for the dimension
    [k]. *)
Definition cell (m : DimensionMap) (k p : string) : option VariationData.t :=
  match mapGet k m with
  | Some obj => obj !! p
  | None => None
  end.

(** The object that [getDimensionData] creates for [variation]. *)
Definition freshData (variation : Js.maybeNum) : VariationData.t :=
  {| VariationData.variation := variation;
     VariationData.users := Js.Num 0;
     VariationData.metrics := nil |}.

(** [getDimensionData(key, variation)] followed by a write [f] through the
    object it returns: what a row does to [dimensionMap]. *)
Definition write
  (key : string) (variation : Js.maybeNum)
  (f : VariationData.t -> VariationData.t) (m : DimensionMap) : DimensionMap :=
  updateData key variation f (getDimensionData key variation m).

(** The two writes of the program: [data.metrics.push(r)] and
    [data.users = n]. *)
Inductive Update :=
| Push (r : VariationMetricResult.t)
| SetUsers (n : Js.num).

Definition applyUpdate (u : Update) : VariationData.t -> VariationData.t :=
  match u with
  | Push r => pushMetric r
  | SetUsers n => setUsers n
  end.

Record Write := {
  w_key : string;
  w_variation : Js.maybeNum;
  w_update : Update
}.

Definition applyWrite (m : DimensionMap) (w : Write) : DimensionMap :=
  write (w_key w) (w_variation w) (applyUpdate (w_update w)) m.

(** Two variation objects that differ at most in the order of their
    per-metric summaries. *)
Definition sameVariation (a b : VariationData.t) : Prop :=
  VariationData.variation a = VariationData.variation b
  /\ VariationData.users a = VariationData.users b
  /\ Permutation (VariationData.metrics a) (VariationData.metrics b).

Definition sameCell (a b : option VariationData.t) : Prop :=
  match a, b with
  | Some x, Some y => sameVariation x y
  | None, None => True
  | _, _ => False
  end.

(** Two states of [dimensionMap] with the same objects, up to the order of
    the per-metric summaries, whatever the order of their keys. *)
Definition sameMap (m m' : DimensionMap) : Prop :=
  forall k p : string, sameCell (cell m k p) (cell m' k p).

(** The keys of [dimensionMap] are distinct and none of its arrays is
    without a property. *)
Definition wellFormed (m : DimensionMap) : Prop :=
  List.NoDup (map fst m)
  /\ forall k obj, mapGet k m = Some obj -> exists p d, obj !! p = Some d.

Definition isUsersTask (t : Task) : bool :=
  match t with
  | UsersTask => true
  | MetricTask _ => false
  end.

(** Two updates other than two assignments of [users]. *)
Definition compatible (u u' : Update) : Prop :=
  match u, u' with
  | SetUsers _, SetUsers _ => False
  | _, _ => True
  end.

(** The write of a row of the query of the metric [m], if the row passes
    the guard. *)
Definition metricRowWrite
  (settings : Settings.t) (experiment : Experiment.t) (m : Metric.t)
  (row : ExperimentMetricRow.t) : option Write :=
  let varIndex :=
    varIndexOf settings experiment (ExperimentMetricRow.variation row) in
  if unexpected experiment varIndex then None
  else
    Some
      {| w_key := ExperimentMetricRow.dimension row;
         w_variation := varIndex;
         w_update :=
           Push
             {| VariationMetricResult.metric := Metric.id m;
                VariationMetricResult.count :=
                  Js.orZero (Js.parseInt (ExperimentMetricRow.count row));
                VariationMetricResult.mean :=
                  Js.orZeroF (Js.parseFloat (ExperimentMetricRow.mean row));
                VariationMetricResult.stddev :=
                  Js.orZeroF
                    (Js.parseFloat (ExperimentMetricRow.stddev row)) |} |}.

(** The write of a row of the users query, if the row passes the guard. *)
Definition usersRowWrite
  (settings : Settings.t) (experiment : Experiment.t)
  (row : ExperimentUsersRow.t) : option Write :=
  let varIndex :=
    varIndexOf settings experiment (ExperimentUsersRow.variation row) in
  if unexpected experiment varIndex then None
  else
    Some
      {| w_key := ExperimentUsersRow.dimension row;
         w_variation := varIndex;
         w_update :=
           SetUsers (Js.orZero (Js.parseInt (ExperimentUsersRow.users row))) |}.

(** Two states of the merge with the same [dimensionMap] up to the order
    of its keys and of the per-metric summaries. *)
Definition sameState (st st' : Merge.t) : Prop :=
  sameMap (Merge.dimensionMap st) (Merge.dimensionMap st').

Section TaskWrites.

Context `{JsDate} `{Warehouse}.
Variable settings : Settings.t.
Variable experiment : Experiment.t.
Variable phase : Phase.t.
Variable activationMetric : option Metric.t.
Variable dimension : option Dimension.t.
Variable now : Date.

(** The writes of a promise, in the order of the rows of its query. *)
Definition taskWrites (t : Task) : list Write :=
  match t with
  | MetricTask m =>
      omap (metricRowWrite settings experiment m)
        (runExperimentMetric
           (taskSql settings experiment phase activationMetric dimension now t))
  | UsersTask =>
      omap (usersRowWrite settings experiment)
        (runExperimentUsers
           (taskSql settings experiment phase activationMetric dimension now t))
  end.

End TaskWrites.

(** The metrics whose summaries the variation at the index 1 holds, in the
    order of the list, over the dimensions of a result. *)
Definition summaryOrder (r : ExperimentResults.t) : list string :=
  flat_map
    (fun d =>
       match DimensionResult.variations d !! "1" with
       | Some data =>
           map VariationMetricResult.metric (VariationData.metrics data)
       | None => nil
       end)
    (ExperimentResults.results r).

(** ** Fixtures for the examples *)

Module Fixture.

#[local] Existing Instance UtcClock.clock.

(** The settings the constructor makes of empty settings. *)
Definition settings : Settings.t :=
  Settings.construct
    (Settings.Build_t Settings.noPart Settings.noPart Settings.noPart
       Settings.noPart Settings.noPart).

(** The same, with the variation format ["key"]. *)
Definition keySettings : Settings.t :=
  Settings.construct
    (Settings.Build_t Settings.noPart
       {| Settings.userIdColumn := None;
          Settings.anonymousIdColumn := None;
          Settings.timestampColumn := None;
          Settings.table := None;
          Settings.experimentIdColumn := None;
          Settings.variationColumn := None;
          Settings.variationFormat := Some "key";
          Settings.urlColumn := None |}
       Settings.noPart Settings.noPart Settings.noPart).

(** A percentile expression for the examples. *)
Definition percentile (col : string) (n : float) : string :=
  "APPROX_QUANTILES(" ++ col ++ ", 100)[OFFSET("
  ++ Js.showZ (Js.floorZ (n * 100)%float) ++ ")]".

(** A pretty printer that leaves the text as it is. *)
Definition sqlFormat (sql : string) : string := sql.

Definition metricOf
  (id : string) (type : MetricType) (column userIdType : string) (cap : float)
  : Metric.t :=
  {| Metric.id := id;
     Metric.name := id;
     Metric.type := type;
     Metric.table := "orders";
     Metric.column := column;
     Metric.conditions := nil;
     Metric.userIdType := userIdType;
     Metric.userIdColumn := None;
     Metric.anonymousIdColumn := None;
     Metric.timestampColumn := None;
     Metric.cap := cap;
     Metric.earlyStart := false |}.

Definition purchases : Metric.t := metricOf "purchases" count "" "user" 10%float.
Definition timeOnSite : Metric.t :=
  metricOf "time_on_site" duration "seconds" "anonymous" 0%float.
Definition signup : Metric.t := metricOf "signup" binomial "" "user" 5%float.
Definition basket : Metric.t :=
  metricOf "basket" revenue "amount" "user" 99.5%float.

(** A warehouse in which every query returns no row. *)
Definition emptyWarehouse : Warehouse :=
  Build_Warehouse (fun _ => nil) (fun _ => nil) (fun _ => nil)
    (fun _ => nil) (fun _ => nil).

(** 2021-06-15T12:00:00Z. *)
Definition noon : Z := 1623758400000.

Definition valueParams
  (metric : Metric.t) (includeByDate includePercentiles : bool)
  : MetricValueParams.t :=
  {| MetricValueParams.base :=
       {| QueryParams.name := "Example";
          QueryParams.from := noon - 30 * UtcClock.msPerDay;
          QueryParams.to := noon;
          QueryParams.userIdType := "user";
          QueryParams.conversionWindow := 3%float;
          QueryParams.urlRegex := Some ".*";
          QueryParams.segmentQuery := None;
          QueryParams.segmentName := None;
          QueryParams.includeByDate := includeByDate |};
     MetricValueParams.metric := metric;
     MetricValueParams.includePercentiles := includePercentiles |}.

Definition experiment : Experiment.t :=
  {| Experiment.trackingKey := "checkout-button";
     Experiment.userIdType := "user";
     Experiment.variations :=
       {| Variation.key := "control" |} :: {| Variation.key := "treatment" |}
       :: nil;
     Experiment.conversionWindowDays := 3%float;
     Experiment.sqlOverride := ∅ |}.

(** A phase that began on 2021-06-01 and still runs. *)
Definition phase : Phase.t :=
  {| Phase.dateStarted := 1622505600000; Phase.dateEnded := None |}.

Definition metricRow (variation : string) : ExperimentMetricRow.t :=
  {| ExperimentMetricRow.variation := variation;
     ExperimentMetricRow.dimension := "All";
     ExperimentMetricRow.count := "10";
     ExperimentMetricRow.mean := "0.5";
     ExperimentMetricRow.stddev := "0.25" |}.

Definition usersRow (variation : string) : ExperimentUsersRow.t :=
  {| ExperimentUsersRow.variation := variation;
     ExperimentUsersRow.users := "100";
     ExperimentUsersRow.dimension := "All" |}.

(** A warehouse in which every per-metric query of an experiment returns
    the one row [metricRow variation], and the other queries no row. *)
Definition metricRowWarehouse (variation : string) : Warehouse :=
  Build_Warehouse (fun _ => nil) (fun _ => nil) (fun _ => nil)
    (fun _ => metricRow variation :: nil) (fun _ => nil).

(** A warehouse in which the users query of an experiment returns the one
    row [usersRow variation], and the other queries no row. *)
Definition usersRowWarehouse (variation : string) : Warehouse :=
  Build_Warehouse (fun _ => nil) (fun _ => nil) (fun _ => nil)
    (fun _ => nil) (fun _ => usersRow variation :: nil).

(** A warehouse whose rows have numeric columns that no number can be read
    from. *)
Definition garbledWarehouse : Warehouse :=
  Build_Warehouse
    (fun _ => {| UsersRow.date := None; UsersRow.users := "abc" |} :: nil)
    (fun _ =>
       {| MetricValueRow.date := None;
          MetricValueRow.count := "n/a";
          MetricValueRow.mean := "";
          MetricValueRow.stddev := "-";
          MetricValueRow.percentiles := ("p50", "x") :: nil |} :: nil)
    (fun _ =>
       {| PastExperimentRow.experiment_id := "checkout-button";
          PastExperimentRow.variation_id := "0";
          PastExperimentRow.start_date := "2021-06-01";
          PastExperimentRow.end_date := "2021-06-10";
          PastExperimentRow.users := "abc" |} :: nil)
    (fun _ => nil) (fun _ => nil).

(** Assignment events of the experiment [exp], variation [0]: [n]
    visitors, each seen once, on the day [day]. *)
Definition visitors (day : Z) (n : nat) : list PastQuery.Event :=
  map (fun i =>
         {| PastQuery.experiment_id := "exp";
            PastQuery.variation_id := "0";
            PastQuery.timestamp := day * 86400 + 3600 + Z.of_nat i;
            PastQuery.anonymous_id := Js.showZ (Z.of_nat i) |})
      (seq 0 n).

(** Seven days of 40 visitors, then a day of 3. *)
Definition quietTail : list PastQuery.Event :=
  app (flat_map (fun day => visitors day 40)
         (3 :: 4 :: 5 :: 6 :: 7 :: 8 :: 9 :: nil))
      (visitors 10 3).

(** A day of 120 visitors, six days of 20, then a day of 6. *)
Definition thresholdTail : list PastQuery.Event :=
  app (visitors 3 120)
      (app (flat_map (fun day => visitors day 20)
              (4 :: 5 :: 6 :: 7 :: 8 :: 9 :: nil))
           (visitors 10 6)).

(** A warehouse in which every query of an experiment returns a row for
    each of the two variations, and the other queries no row. *)
Definition fullWarehouse : Warehouse :=
  Build_Warehouse (fun _ => nil) (fun _ => nil) (fun _ => nil)
    (fun _ => metricRow "0" :: metricRow "1" :: nil)
    (fun _ => usersRow "0" :: usersRow "1" :: nil).

Definition twoMetrics : list Metric.t := purchases :: signup :: nil.

End Fixture.

(** ** Names for the properties of the settings, the row guard, the
    override templates and the parsers *)

(** The condition [this.settings.experiments.variationFormat === "key"] of
    [getExperimentResults]. *)
Definition keyFormat (settings : Settings.t) : bool :=
  match Settings.variationFormat (Settings.experiments settings) with
  | Some f => String.eqb f "key"
  | None => false
  end.

(** The keys of the variations of an experiment, in their order. *)
Definition variationKeys (experiment : Experiment.t) : list string :=
  map Variation.key (Experiment.variations experiment).

(** The write [w] goes to the property [p] of the array of the dimension
    value [k]. *)
Definition targets (k p : string) (w : Write) : bool :=
  String.eqb (w_key w) k && String.eqb (Js.propertyKey (w_variation w)) p.

(** The summaries that the writes of [ws] push to the property [p] of the
    dimension value [k], in the order of the writes. *)
Definition summariesAt (k p : string) (ws : list Write)
  : list VariationMetricResult.t :=
  flat_map
    (fun w =>
       match w_update w with
       | Push r => if targets k p w then r :: nil else nil
       | SetUsers _ => nil
       end)
    ws.

(** The user count that the writes of [ws] leave at the property [p] of the
    dimension value [k]: the last one assigned, or the initial 0. *)
Definition usersAt (k p : string) (ws : list Write) : Js.num :=
  fold_left
    (fun n w =>
       match w_update w with
       | SetUsers n' => if targets k p w then n' else n
       | Push _ => n
       end)
    ws (Js.Num 0).

(** The text [k] is not among [ks]. *)
Definition absent (ks : list string) (k : string) : bool :=
  negb (existsb (String.eqb k) ks).

(** The distinct texts of a list, each at its first position. *)
Fixpoint firstOccurrences (l : list string) : list string :=
  match l with
  | nil => nil
  | x :: rest =>
      x :: List.filter (fun y => negb (String.eqb y x)) (firstOccurrences rest)
  end.

Section MergedWrites.

Context `{JsDate} `{Warehouse}.
Variable settings : Settings.t.
Variable experiment : Experiment.t.
Variable phase : Phase.t.
Variable activationMetric : option Metric.t.
Variable dimension : option Dimension.t.
Variable now : Date.

(** The writes of the promises of [order], in the order in which they are
    applied when the queries return in that order. *)
Definition mergedWrites (order : list Task) : list Write :=
  flat_map
    (taskWrites settings experiment phase activationMetric dimension now)
    order.

(** The variation texts of the rows of a promise that the guard rejects,
    in the order of the rows. *)
Definition rejectedRows (t : Task) : list string :=
  List.filter
    (fun variation =>
       unexpected experiment (varIndexOf settings experiment variation))
    match t with
    | MetricTask _ =>
        map ExperimentMetricRow.variation
          (runExperimentMetric
             (taskSql settings experiment phase activationMetric dimension now
                t))
    | UsersTask =>
        map ExperimentUsersRow.variation
          (runExperimentUsers
             (taskSql settings experiment phase activationMetric dimension now
                t))
    end.

End MergedWrites.

(** What a row of the users query gives: an entry of [dates] when it has a
    date, the overall count when it has none. *)
Definition usersDateEntry (row : UsersRow.t) : option (string * Js.num) :=
  match Js.whenTruthy (UsersRow.date row) with
  | Some date => Some (date, Js.orZero (Js.parseInt (UsersRow.users row)))
  | None => None
  end.

Definition usersOverall (row : UsersRow.t) : option Js.num :=
  match Js.whenTruthy (UsersRow.date row) with
  | Some _ => None
  | None => Some (Js.orZero (Js.parseInt (UsersRow.users row)))
  end.

(** What a row of a metric value query gives: an entry of [dates] when it
    has a date; else it is a row of overall numbers. *)
Definition metricDateEntry (row : MetricValueRow.t)
  : option MetricValueDate.t :=
  match Js.whenTruthy (MetricValueRow.date row) with
  | Some date =>
      Some {| MetricValueDate.date := date;
              MetricValueDate.count :=
                Js.orZero (Js.parseInt (MetricValueRow.count row));
              MetricValueDate.mean :=
                Js.orZeroF (Js.parseFloat (MetricValueRow.mean row));
              MetricValueDate.stddev :=
                Js.orZeroF (Js.parseFloat (MetricValueRow.stddev row)) |}
  | None => None
  end.

Definition isOverall (row : MetricValueRow.t) : bool :=
  negb (Js.truthy (MetricValueRow.date row)).

(** The name of the column of the percentile [n] in the query of
    [getMetricValueQuery], and the key under which [runMetricValueQuery]
    stores the column. *)
Definition percentileAlias (n : float) : string :=
  "p" ++ Js.showZ (Js.floorZ (n * 100)%float).

Definition percentileKey (n : float) : string :=
  Js.showZ (Js.floorZ (n * 100)%float).

(** A row of overall numbers with the percentile columns of the query,
    [value n] in the column of the percentile [n]. *)
Definition percentileRow (value : float -> string) : MetricValueRow.t :=
  {| MetricValueRow.date := None;
     MetricValueRow.count := "0";
     MetricValueRow.mean := "0";
     MetricValueRow.stddev := "0";
     MetricValueRow.percentiles :=
       map (fun n => (percentileAlias n, value n)) percentileNumbers |}.

(** The character [c] occurs in [s]. *)
Fixpoint mentions (c : ascii) (s : string) : bool :=
  match s with
  | EmptyString => false
  | String c' s' => Ascii.eqb c' c || mentions c s'
  end.

(** Every character of [s] is white space. *)
Fixpoint blank (s : string) : bool :=
  match s with
  | EmptyString => true
  | String c s' => Js.isWhiteSpace c && blank s'
  end.

(** *** The templates of an SQL override *)

(** The three placeholders that [getExperimentUsersSql] and
    [getExperimentMetricSql] replace in an override. *)
Inductive Placeholder := DateStart | DateEnd | ExperimentKey.

Definition placeholderName (h : Placeholder) : string :=
  match h with
  | DateStart => "dateStart"
  | DateEnd => "dateEnd"
  | ExperimentKey => "experimentKey"
  end.

Definition samePlaceholder (h h' : Placeholder) : bool :=
  match h, h' with
  | DateStart, DateStart | DateEnd, DateEnd
  | ExperimentKey, ExperimentKey => true
  | _, _ => false
  end.

(** A piece of an override: a text, or a placeholder in double braces with
    the texts [before] and [after] between its name and the braces. *)
Inductive Piece :=
| Text (s : string)
| Hole (h : Placeholder) (before after : string).

Definition renderPiece (x : Piece) : string :=
  match x with
  | Text s => s
  | Hole h before after =>
      "{{" ++ before ++ placeholderName h ++ after ++ "}}"
  end.

Definition renderPieces (l : list Piece) : string :=
  fold_right (fun x rest => renderPiece x ++ rest) "" l.

(** A text piece has no opening brace, and a placeholder has white space
    only around its name. *)
Definition wellFormedPiece (x : Piece) : bool :=
  match x with
  | Text s => negb (mentions "{" s)
  | Hole _ before after => blank before && blank after
  end.

(** One pass of replacement: the placeholders [h] become the text
    [rep]. *)
Definition fillOne (h : Placeholder) (rep : string) (x : Piece) : Piece :=
  match x with
  | Text s => Text s
  | Hole h' before after =>
      if samePlaceholder h h' then Text rep else Hole h' before after
  end.

(** The template with every placeholder replaced by its value. *)
Definition fillPieces (value : Placeholder -> string) (l : list Piece)
  : string :=
  fold_right
    (fun x rest =>
       match x with
       | Text s => s
       | Hole h _ _ => value h
       end ++ rest)
    "" l.

(** The values of the placeholders for an experiment and a phase; [now] is
    [new Date()]. *)
Definition overrideValue `{JsDate}
  (experiment : Experiment.t) (phase : Phase.t) (now : Date) (h : Placeholder)
  : string :=
  match h with
  | DateStart => toTimestamp (Phase.dateStarted phase)
  | DateEnd =>
      toTimestamp (match Phase.dateEnded phase with
                   | Some d => d
                   | None => now
                   end)
  | ExperimentKey => "'" ++ Experiment.trackingKey experiment ++ "'"
  end.

(** The parameters of a query with another URL pattern. *)
Definition withUrlRegex `{JsDate}
  (params : QueryParams.t) (urlRegex : option string) : QueryParams.t :=
  {| QueryParams.name := QueryParams.name params;
     QueryParams.from := QueryParams.from params;
     QueryParams.to := QueryParams.to params;
     QueryParams.userIdType := QueryParams.userIdType params;
     QueryParams.conversionWindow := QueryParams.conversionWindow params;
     QueryParams.urlRegex := urlRegex;
     QueryParams.segmentQuery := QueryParams.segmentQuery params;
     QueryParams.segmentName := QueryParams.segmentName params;
     QueryParams.includeByDate := QueryParams.includeByDate params |}.

(** The URL pattern restricts nothing: it is absent, empty or [.*]. *)
Definition matchesAll (urlRegex : option string) : bool :=
  match urlRegex with
  | Some r => String.eqb r "" || String.eqb r ".*"
  | None => true
  end.

(** ** More fixtures for the examples *)

Module Samples.

#[local] Existing Instance UtcClock.clock.

(** An experiment whose variation keys are their indices. *)
Definition numbered : Experiment.t :=
  {| Experiment.trackingKey := "checkout-button";
     Experiment.userIdType := "user";
     Experiment.variations :=
       {| Variation.key := "0" |} :: {| Variation.key := "1" |} :: nil;
     Experiment.conversionWindowDays := 3%float;
     Experiment.sqlOverride := ∅ |}.

(** A warehouse whose metric value queries return one row of overall
    numbers with the percentile columns, all of the value 7. *)
Definition percentileWarehouse : Warehouse :=
  Build_Warehouse (fun _ => nil)
    (fun _ => percentileRow (fun _ => "7") :: nil)
    (fun _ => nil) (fun _ => nil) (fun _ => nil).

(** An override of the users query with the three placeholders. *)
Definition usersTemplate : list Piece :=
  Text "SELECT variation, 'All' AS dimension, COUNT(1) AS users FROM exposures WHERE experiment = "
  :: Hole ExperimentKey "" ""
  :: Text " AND seen_at BETWEEN "
  :: Hole DateStart " " " "
  :: Text " AND "
  :: Hole DateEnd "" " "
  :: Text " GROUP BY variation"
  :: nil.

Definition overridden : Experiment.t :=
  {| Experiment.trackingKey := "checkout-button";
     Experiment.userIdType := "user";
     Experiment.variations :=
       {| Variation.key := "control" |} :: {| Variation.key := "treatment" |}
       :: nil;
     Experiment.conversionWindowDays := 3%float;
     Experiment.sqlOverride := {[ "users" := renderPieces usersTemplate ]} |}.

(** A duration metric whose column is an expression over the alias. *)
Definition elapsed : Metric.t :=
  {| Metric.id := "elapsed";
     Metric.name := "elapsed";
     Metric.type := duration;
     Metric.table := "sessions";
     Metric.column := "{alias}.ended_at - {alias}.started_at";
     Metric.conditions := nil;
     Metric.userIdType := "user";
     Metric.userIdColumn := None;
     Metric.anonymousIdColumn := None;
     Metric.timestampColumn := None;
     Metric.cap := 0%float;
     Metric.earlyStart := false |}.

(** A revenue metric with a negative cap. *)
Definition refunds : Metric.t :=
  Fixture.metricOf "refunds" revenue "amount" "user" (-1)%float.

End Samples.

(** ** Facts on strings *)

Lemma append_assoc (a b c : string) : (a ++ b) ++ c = a ++ (b ++ c).
Proof.
  induction a as [| ch a IH]; [reflexivity |].
  change (String ch ((a ++ b) ++ c) = String ch (a ++ (b ++ c))).
  f_equal. exact IH.
Qed.

Lemma append_length (a b : string) :
  String.length (a ++ b) = (String.length a + String.length b)%nat.
Proof.
  induction a as [| ch a IH]; [reflexivity |].
  change (S (String.length (a ++ b)) = S (String.length a + String.length b)).
  f_equal. exact IH.
Qed.

Lemma append_nonempty (a b : string) : b <> "" -> a ++ b <> "".
Proof.
  intros Hb E. apply (f_equal String.length) in E.
  rewrite append_length in E. destruct b; [congruence | simpl in E; lia].
Qed.

(** ** Properties of the composer *)

Lemma positive_truthy (x : float) :
  (0 <? x)%float = true -> Js.falsyNumber x = false.
Proof.
  unfold Js.falsyNumber, PrimFloat.is_nan, PrimFloat.is_zero.
  rewrite FloatAxioms.ltb_spec, !FloatAxioms.eqb_spec.
  change (Prim2SF 0) with (S754_zero false).
  change (Prim2SF zero) with (S754_zero false).
  destruct (Prim2SF x) as [s | s | | s m e]; try discriminate.
  - destruct s; [discriminate | reflexivity].
  - destruct s; [discriminate |].
    intros _. unfold SFeqb, SFcompare.
    rewrite Z.compare_refl, Pos.compare_cont_refl. reflexivity.
Qed.

Lemma negative_truthy (x : float) :
  (x <? 0)%float = true -> Js.falsyNumber x = false.
Proof.
  unfold Js.falsyNumber, PrimFloat.is_nan, PrimFloat.is_zero.
  rewrite FloatAxioms.ltb_spec, !FloatAxioms.eqb_spec.
  change (Prim2SF 0) with (S754_zero false).
  change (Prim2SF zero) with (S754_zero false).
  destruct (Prim2SF x) as [s | s | | s m e]; try discriminate.
  - destruct s; [reflexivity | discriminate].
  - destruct s; [| discriminate].
    intros _. unfold SFeqb, SFcompare.
    rewrite Z.compare_refl, Pos.compare_cont_refl. reflexivity.
Qed.

Lemma zero_falsy (x : float) :
  (x =? 0)%float = true -> Js.falsyNumber x = true.
Proof.
  unfold Js.falsyNumber, PrimFloat.is_zero. intros E.
  change zero with 0%float. rewrite E. apply orb_true_r.
Qed.

Lemma capValue_truthy (cap : float) (value : string) :
  Js.falsyNumber cap = false ->
  capValue cap value
  = "LEAST(" ++ Js.showNumber cap ++ ", " ++ value ++ ")".
Proof.
  intros Hcap. unfold capValue. rewrite Hcap. reflexivity.
Qed.

Lemma aggregate_uncapped (metric : Metric.t) (col : string) :
  Js.falsyNumber (Metric.cap metric) = true ->
  getAggregateMetricSqlValue metric col
  = Aggregate.render (Aggregate.ofMetric metric col).
Proof.
  intros E. unfold getAggregateMetricSqlValue, Aggregate.ofMetric, capValue.
  rewrite E. simpl.
  destruct (Metric.type metric); simpl; try reflexivity.
  destruct (String.eqb (Metric.column metric) ""); reflexivity.
Qed.

Lemma aggregate_capped (metric : Metric.t) (col : string) :
  Metric.type metric <> binomial ->
  Js.falsyNumber (Metric.cap metric) = false ->
  getAggregateMetricSqlValue metric col
  = Aggregate.render
      (Aggregate.Least (Metric.cap metric) (Aggregate.ofMetric metric col)).
Proof.
  intros Hty Hcap. unfold getAggregateMetricSqlValue, Aggregate.ofMetric.
  destruct (Metric.type metric); try congruence;
    rewrite capValue_truthy by assumption; simpl; try reflexivity.
  destruct (String.eqb (Metric.column metric) ""); reflexivity.
Qed.

(** The aggregate of a metric that is not binomial has a value on every
    group of at least one row. *)
Lemma aggregate_value (metric : Metric.t) (col : string) (value : Q)
  (values : list Q) :
  Metric.type metric <> binomial ->
  exists v,
    Aggregate.eval (value :: values) (Aggregate.ofMetric metric col) = Some v.
Proof.
  intros Hty. unfold Aggregate.ofMetric.
  destruct (Metric.type metric); try congruence.
  - destruct (Js.truthy (Some (Metric.column metric))); eexists; reflexivity.
  - eexists; reflexivity.
  - eexists; reflexivity.
Qed.

Lemma least_value (cap : float) (a : Aggregate.t) (values : list Q) (c v : Q) :
  Js.numberQ cap = Some c ->
  Aggregate.eval values a = Some v ->
  Aggregate.eval values (Aggregate.Least cap a) = Some (Qmin c v).
Proof.
  intros Hc Hv. cbn [Aggregate.eval]. rewrite Hc, Hv. reflexivity.
Qed.

(** C5: for a metric of type count, duration or revenue with a cap [C > 0]
    the per-user aggregate is [LEAST(C, a)], where [C] is printed as a
    template literal prints a number and [a] is [COUNT(DISTINCT col)] for a
    count metric with a value column, a count of all rows for one without,
    and [MAX(col)] for duration and revenue, and its value on the rows of a
    user never exceeds the number that the text of [C] denotes; with the
    cap 0 it is [a] itself; for a binomial metric it is [1] whatever the
    cap. *)
Theorem aggregate_is_capped (metric : Metric.t) (col : string) :
  (Metric.type metric <> binomial ->
   Aggregate.ofMetric metric col
   = match Metric.type metric with
     | count =>
         if String.eqb (Metric.column metric) ""
         then Aggregate.CountAll
         else Aggregate.CountDistinct col
     | _ => Aggregate.Max col
     end
   /\ ((0 <? Metric.cap metric)%float = true ->
       getAggregateMetricSqlValue metric col
       = Aggregate.render
           (Aggregate.Least (Metric.cap metric) (Aggregate.ofMetric metric col))
       /\ Aggregate.render
            (Aggregate.Least (Metric.cap metric) (Aggregate.ofMetric metric col))
          = "LEAST(" ++ Js.showNumber (Metric.cap metric) ++ ", "
            ++ Aggregate.render (Aggregate.ofMetric metric col) ++ ")"
       /\ forall (c value : Q) (values : list Q),
            Js.numberQ (Metric.cap metric) = Some c ->
            exists v : Q,
              Aggregate.eval (value :: values)
                (Aggregate.Least (Metric.cap metric)
                   (Aggregate.ofMetric metric col))
              = Some v
              /\ (v <= c)%Q)
   /\ ((Metric.cap metric =? 0)%float = true ->
       getAggregateMetricSqlValue metric col
       = Aggregate.render (Aggregate.ofMetric metric col)))
  /\ (Metric.type metric = binomial ->
      getAggregateMetricSqlValue metric col = "1").
Proof.
  split.
  - intros Hty. split; [| split].
    + unfold Aggregate.ofMetric, Js.truthy.
      destruct (Metric.type metric); try congruence; try reflexivity.
      destruct (String.eqb (Metric.column metric) ""); reflexivity.
    + intros Hcap. split; [| split].
      * apply aggregate_capped; [exact Hty | now apply positive_truthy].
      * reflexivity.
      * intros c value values Hc.
        destruct (aggregate_value metric col value values Hty) as [v Hv].
        exists (Qmin c v). split.
        -- now apply least_value.
        -- apply Q.le_min_l.
    + intros Hcap. apply aggregate_uncapped. now apply zero_falsy.
  - intros Hty. unfold getAggregateMetricSqlValue. rewrite Hty. reflexivity.
Qed.

(** [getMetricCTE] is its template filled with the two variables
    [userIdCol] and [join], the raw value, and the three timestamp
    columns. *)
Lemma getMetricCTE_text
  (settings : Settings.t) (metric : Metric.t) (days : float) (userId : bool) :
  getMetricCTE settings metric days userId
  = metricCTEText (Metric.name metric)
      (fst (metricUserIdColAndJoin settings metric userId))
      (getRawMetricSqlValue metric "m")
      (metricTimestampCol settings metric)
      (TimeExpr.render (conversionEnd settings metric days))
      (TimeExpr.render (sessionStart settings metric))
      (Metric.table metric)
      (snd (metricUserIdColAndJoin settings metric userId))
      (metricWhere metric).
Proof.
  unfold getMetricCTE.
  destruct (metricUserIdColAndJoin settings metric userId) as [userIdCol join].
  reflexivity.
Qed.

(** C2, as amended: in the metric CTE the [conversion_end] column is the
    event timestamp plus the [conversionWindowDays] argument in days
    ([INTERVAL 'n days'] where [n] is the argument as a template literal
    prints a number; when that text denotes the number [d], that is
    [d * 24 * 60] minutes), and the [session_start] column is the event
    timestamp minus 30 minutes. *)
Theorem conversion_end_in_days
  (settings : Settings.t) (metric : Metric.t) (days : float) (userId : bool)
  (row : string -> Q) :
  getMetricCTE settings metric days userId
  = metricCTEText (Metric.name metric)
      (fst (metricUserIdColAndJoin settings metric userId))
      (getRawMetricSqlValue metric "m")
      (metricTimestampCol settings metric)
      (metricTimestampCol settings metric
       ++ " + INTERVAL '" ++ Js.showNumber days ++ " days'")
      (metricTimestampCol settings metric ++ " - INTERVAL '30 minutes'")
      (Metric.table metric)
      (snd (metricUserIdColAndJoin settings metric userId))
      (metricWhere metric)
  /\ TimeExpr.render (conversionEnd settings metric days)
     = metricTimestampCol settings metric
       ++ " + INTERVAL '" ++ Js.showNumber days ++ " days'"
  /\ TimeExpr.render (sessionStart settings metric)
     = metricTimestampCol settings metric ++ " - INTERVAL '30 minutes'"
  /\ TimeExpr.eval row (conversionEnd settings metric days)
     = match Js.numberQ days with
       | Some d =>
           Some (row (metricTimestampCol settings metric)
                 + d * inject_Z (24 * 60))%Q
       | None => None
       end
  /\ TimeExpr.eval row (sessionStart settings metric)
     = Some (row (metricTimestampCol settings metric) - inject_Z 30)%Q.
Proof.
  split; [| repeat split].
  apply getMetricCTE_text.
Qed.

Lemma metricUserIdColAndJoin_mismatch
  (settings : Settings.t) (metric : Metric.t) (userId : bool) :
  identifierMismatch metric userId ->
  metricUserIdColAndJoin settings metric userId
  = ("i.user_id",
     "JOIN "
     ++ Js.orStr (Settings.table (Settings.identifies settings)) "identifies"
     ++ " i ON (
      i." ++ bridgedIdentifiesColumn settings userId
     ++ " = " ++ "m." ++ bridgedMetricColumn settings metric userId ++ "
    )").
Proof.
  unfold identifierMismatch, metricUserIdColAndJoin.
  intros [[-> E] | [-> E]]; rewrite E; reflexivity.
Qed.

Lemma metricUserIdColAndJoin_match
  (settings : Settings.t) (metric : Metric.t) (userId : bool) :
  ~ identifierMismatch metric userId ->
  metricUserIdColAndJoin settings metric userId
  = ("m." ++ (if userId
              then getUserIdColumn settings (Some metric) InDefault
              else getAnonymousIdColumn settings (Some metric) InDefault),
     "").
Proof.
  unfold identifierMismatch, metricUserIdColAndJoin.
  intros Hno.
  destruct userId; simpl.
  - destruct (String.eqb_spec (Metric.userIdType metric) "anonymous") as [E | _];
      [exfalso; apply Hno; left; split; [reflexivity | exact E] | reflexivity].
  - destruct (String.eqb_spec (Metric.userIdType metric) "user") as [E | _];
      [exfalso; apply Hno; right; split; [reflexivity | exact E] | reflexivity].
Qed.

(** C6: when the identifier space requested differs from the one of the
    metric, the text of [getMetricCTE] has, after the metric table and its
    alias [m], the one clause [JOIN <identifies table> i ON (i.<column> =
    m.<column>)], and its [user_id] column is [i.user_id]; when the spaces
    agree, nothing follows the metric table and the [user_id] column is a
    column of [m]. *)
Theorem metric_cte_identity
  (settings : Settings.t) (metric : Metric.t) (days : float) (userId : bool) :
  (identifierMismatch metric userId ->
   getMetricCTE settings metric days userId
   = metricCTEText (Metric.name metric)
       "i.user_id"
       (getRawMetricSqlValue metric "m")
       (metricTimestampCol settings metric)
       (TimeExpr.render (conversionEnd settings metric days))
       (TimeExpr.render (sessionStart settings metric))
       (Metric.table metric)
       ("JOIN "
        ++ Js.orStr (Settings.table (Settings.identifies settings)) "identifies"
        ++ " i ON (
      i." ++ bridgedIdentifiesColumn settings userId
        ++ " = " ++ "m." ++ bridgedMetricColumn settings metric userId ++ "
    )")
       (metricWhere metric))
  /\ (~ identifierMismatch metric userId ->
      getMetricCTE settings metric days userId
      = metricCTEText (Metric.name metric)
          ("m." ++ (if userId
                    then getUserIdColumn settings (Some metric) InDefault
                    else getAnonymousIdColumn settings (Some metric) InDefault))
          (getRawMetricSqlValue metric "m")
          (metricTimestampCol settings metric)
          (TimeExpr.render (conversionEnd settings metric days))
          (TimeExpr.render (sessionStart settings metric))
          (Metric.table metric)
          ""
          (metricWhere metric)).
Proof.
  split; intros Hm; rewrite getMetricCTE_text.
  - rewrite (metricUserIdColAndJoin_mismatch settings metric userId Hm).
    reflexivity.
  - rewrite (metricUserIdColAndJoin_match settings metric userId Hm).
    reflexivity.
Qed.

(** ** The percentile columns of the metric value query *)

Lemma percentileColumns_ladder
  `{JsDate} (percentile : string -> float -> string)
  (params : MetricValueParams.t) :
  MetricValueParams.includePercentiles params = true ->
  Metric.type (MetricValueParams.metric params) <> binomial ->
  percentileColumns percentile params = percentileLadder (percentile "value").
Proof.
  intros Hp Hty. unfold percentileColumns. rewrite Hp.
  destruct (Metric.type (MetricValueParams.metric params));
    try congruence; reflexivity.
Qed.

Lemma zeroPercentileColumns_ladder `{JsDate} (params : MetricValueParams.t) :
  MetricValueParams.includePercentiles params = true ->
  Metric.type (MetricValueParams.metric params) <> binomial ->
  zeroPercentileColumns params = percentileLadder (fun _ => "0").
Proof.
  intros Hp Hty. unfold zeroPercentileColumns. rewrite Hp.
  destruct (Metric.type (MetricValueParams.metric params));
    try congruence; reflexivity.
Qed.

Lemma percentileColumns_binomial
  `{JsDate} (percentile : string -> float -> string)
  (params : MetricValueParams.t) :
  Metric.type (MetricValueParams.metric params) = binomial ->
  percentileColumns percentile params = ""
  /\ zeroPercentileColumns params = "".
Proof.
  intros Hty. unfold percentileColumns, zeroPercentileColumns. rewrite Hty.
  simpl. rewrite andb_false_r. split; reflexivity.
Qed.

(** Where the two percentile placeholders stand in the text of the metric
    value query: the first closes the terminal SELECT, the second is in the
    per-date SELECT that follows it. *)
Lemma metricValueQueryWith_text
  `{JsDate} (settings : Settings.t) (params : MetricValueParams.t)
  (percentiles zeroPercentiles : string) :
  exists before : string,
    metricValueQueryWith settings params percentiles zeroPercentiles
    = before
      ++ "
        COUNT(*) as count,
        AVG(value) as mean,
        STDDEV(value) as stddev
        "
      ++ percentiles
      ++ "
      from
        __userMetric
      "
      ++ (if QueryParams.includeByDate (MetricValueParams.base params)
          then byDateSelectText zeroPercentiles
          else "")
      ++ "
      ".
Proof.
  unfold metricValueQueryWith, metricValueQueryText.
  eexists. repeat rewrite <- append_assoc. reflexivity.
Qed.

(** C7: when percentiles are requested, the terminal SELECT of the metric
    value query ends, after [STDDEV(value) as stddev], with the columns
    [p1], [p5], [p10], [p20], ..., [p90], [p95], [p99], each the dialect's
    percentile of [value], when the metric is not binomial; when it is
    binomial nothing stands there, and nothing in the per-date SELECT: the
    query has no percentile column. *)
Theorem percentiles_unless_binomial
  `{JsDate} (settings : Settings.t) (percentile : string -> float -> string)
  (sqlFormat : string -> string) (params : MetricValueParams.t) :
  MetricValueParams.includePercentiles params = true ->
  (Metric.type (MetricValueParams.metric params) <> binomial ->
   percentileColumns percentile params = percentileLadder (percentile "value")
   /\ getMetricValueQuery settings percentile sqlFormat params
      = sqlFormat
          (metricValueQueryWith settings params
             (percentileLadder (percentile "value"))
             (percentileLadder (fun _ => "0")))
   /\ exists before : string,
        getMetricValueQueryText settings percentile params
        = before
          ++ "
        COUNT(*) as count,
        AVG(value) as mean,
        STDDEV(value) as stddev
        "
          ++ percentileLadder (percentile "value")
          ++ "
      from
        __userMetric
      "
          ++ (if QueryParams.includeByDate (MetricValueParams.base params)
              then byDateSelectText (percentileLadder (fun _ => "0"))
              else "")
          ++ "
      ")
  /\ (Metric.type (MetricValueParams.metric params) = binomial ->
      percentileColumns percentile params = ""
      /\ zeroPercentileColumns params = ""
      /\ getMetricValueQuery settings percentile sqlFormat params
         = sqlFormat (metricValueQueryWith settings params "" "")
      /\ exists before : string,
           getMetricValueQueryText settings percentile params
           = before
             ++ "
        COUNT(*) as count,
        AVG(value) as mean,
        STDDEV(value) as stddev
        "
             ++ "
      from
        __userMetric
      "
             ++ (if QueryParams.includeByDate (MetricValueParams.base params)
                 then byDateSelectText ""
                 else "")
             ++ "
      ").
Proof.
  intros Hp. unfold getMetricValueQuery, getMetricValueQueryText. split.
  - intros Hty.
    rewrite (percentileColumns_ladder percentile params Hp Hty).
    rewrite (zeroPercentileColumns_ladder params Hp Hty).
    split; [reflexivity | split; [reflexivity |]].
    apply metricValueQueryWith_text.
  - intros Hty.
    destruct (percentileColumns_binomial percentile params Hty) as [-> ->].
    split; [reflexivity | split; [reflexivity | split; [reflexivity |]]].
    apply (metricValueQueryWith_text settings params "" "").
Qed.

(** C10: when the breakdown by date and the percentiles are both requested
    of a metric that is not binomial, the per-date SELECT that the query adds
    with UNION has every percentile column as the constant 0, and the
    percentile expressions of the dialect are in the terminal SELECT
    only. *)
Theorem by_date_percentiles_are_zero
  `{JsDate} (settings : Settings.t) (percentile : string -> float -> string)
  (sqlFormat : string -> string) (params : MetricValueParams.t) :
  QueryParams.includeByDate (MetricValueParams.base params) = true ->
  MetricValueParams.includePercentiles params = true ->
  Metric.type (MetricValueParams.metric params) <> binomial ->
  zeroPercentileColumns params = percentileLadder (fun _ => "0")
  /\ percentileColumns percentile params
     = percentileLadder (percentile "value")
  /\ byDateSelectText (zeroPercentileColumns params)
     = "
        UNION SELECT
          date,
          COUNT(*) as count,
          AVG(value) as mean,
          STDDEV(value) as stddev
          ,0 as p1
      ,0 as p5
      ,0 as p10
      ,0 as p20
      ,0 as p30
      ,0 as p40
      ,0 as p50
      ,0 as p60
      ,0 as p70
      ,0 as p80
      ,0 as p90
      ,0 as p95
      ,0 as p99
        FROM
          __userMetricDates d
        GROUP BY
          date
        ORDER BY
          date ASC
      "
  /\ exists before : string,
       getMetricValueQueryText settings percentile params
       = before
         ++ percentileColumns percentile params
         ++ "
      from
        __userMetric
      "
         ++ byDateSelectText (zeroPercentileColumns params)
         ++ "
      ".
Proof.
  intros Hd Hp Hty.
  rewrite (zeroPercentileColumns_ladder params Hp Hty).
  rewrite (percentileColumns_ladder percentile params Hp Hty).
  split; [reflexivity | split; [reflexivity | split; [reflexivity |]]].
  unfold getMetricValueQueryText, metricValueQueryWith, metricValueQueryText.
  rewrite Hd.
  rewrite (zeroPercentileColumns_ladder params Hp Hty).
  rewrite (percentileColumns_ladder percentile params Hp Hty).
  eexists.
  repeat rewrite <- append_assoc.
  reflexivity.
Qed.

(** ** Impact estimation *)

(** C9: when the three queries of [getImpactEstimation] return no row, the
    result has [users], [value] and [metricTotal] equal to 0, and its
    [query] is the three query texts, each pretty printed and followed by a
    semicolon, which is not the empty text. *)
Theorem impact_of_empty_results
  `{JsDate} `{Warehouse} (settings : Settings.t)
  (percentile : string -> float -> string) (sqlFormat : string -> string)
  (now : Date) (urlRegex : string) (metric : Metric.t)
  (segment : option Segment.t) :
  runUsers (usersSql settings sqlFormat now urlRegex metric segment) = nil ->
  runMetricValue (metricSql settings percentile sqlFormat now metric) = nil ->
  runMetricValue
    (valueSql settings percentile sqlFormat now urlRegex metric segment) = nil ->
  getImpactEstimation settings percentile sqlFormat now urlRegex metric segment
  = {| ImpactEstimationResult.query :=
         sqlFormat (usersSql settings sqlFormat now urlRegex metric segment)
         ++ ";

" ++ sqlFormat (metricSql settings percentile sqlFormat now metric)
         ++ ";

" ++ sqlFormat
       (valueSql settings percentile sqlFormat now urlRegex metric segment)
         ++ ";";
       ImpactEstimationResult.users := zero;
       ImpactEstimationResult.value := zero;
       ImpactEstimationResult.metricTotal := zero |}
  /\ ImpactEstimationResult.query
       (getImpactEstimation settings percentile sqlFormat now urlRegex metric
          segment)
     <> "".
Proof.
  intros Hu Hm Hv.
  assert (E : getImpactEstimation settings percentile sqlFormat now urlRegex
                metric segment
              = {| ImpactEstimationResult.query :=
                     Js.join ";

" (map sqlFormat
     (usersSql settings sqlFormat now urlRegex metric segment
      :: metricSql settings percentile sqlFormat now metric
      :: valueSql settings percentile sqlFormat now urlRegex metric segment
      :: nil)) ++ ";";
                   ImpactEstimationResult.users := zero;
                   ImpactEstimationResult.value := zero;
                   ImpactEstimationResult.metricTotal := zero |}).
  { unfold getImpactEstimation. rewrite Hu. reflexivity. }
  rewrite E. split.
  - f_equal. cbn [map Js.join]. repeat rewrite append_assoc. reflexivity.
  - cbn [ImpactEstimationResult.query]. apply append_nonempty. discriminate.
Qed.

(** ** The result parser *)

(** Where the parser writes [parseInt(x) || 0] or [parseFloat(x) || 0], a
    text that no number can be read from gives 0: the two row steps of
    [runUsersQuery] and [runMetricValueQuery], for a row without a date and
    for a row with one. *)
Lemma parse_failure_gives_zero_overall
  (ret : UsersResult.t) (row : UsersRow.t)
  (ret' : MetricValueResult.t) (row' : MetricValueRow.t) :
  (Js.whenTruthy (UsersRow.date row) = None ->
   Js.parseInt (UsersRow.users row) = Js.NaN ->
   UsersResult.users (usersRowStep ret row) = Js.Num 0)
  /\ (Js.whenTruthy (MetricValueRow.date row') = None ->
      (Js.parseInt (MetricValueRow.count row') = Js.NaN ->
       MetricValueResult.count (metricValueRowStep ret' row') = Js.Num 0)
      /\ (is_nan (Js.parseFloat (MetricValueRow.mean row')) = true ->
          MetricValueResult.mean (metricValueRowStep ret' row') = zero)
      /\ (is_nan (Js.parseFloat (MetricValueRow.stddev row')) = true ->
          MetricValueResult.stddev (metricValueRowStep ret' row') = zero)).
Proof.
  split.
  - intros Hd Hn. unfold usersRowStep. rewrite Hd. simpl. now rewrite Hn.
  - intros Hd. unfold metricValueRowStep. rewrite Hd. simpl.
    split; [| split]; intros Hn.
    + now rewrite Hn.
    + unfold Js.orZeroF. now rewrite Hn.
    + unfold Js.orZeroF. now rewrite Hn.
Qed.

Lemma parse_failure_gives_zero_by_date
  (ret : UsersResult.t) (row : UsersRow.t) (date : string) :
  Js.whenTruthy (UsersRow.date row) = Some date ->
  Js.parseInt (UsersRow.users row) = Js.NaN ->
  UsersResult.dates (usersRowStep ret row)
  = pushDate (UsersResult.dates ret) (date, Js.Num 0).
Proof.
  intros Hd Hn. unfold usersRowStep. rewrite Hd. simpl. now rewrite Hn.
Qed.

(** No number that [runUsersQuery] stores is [NaN]. *)
Lemma orZero_not_NaN (n : Js.num) : Js.orZero n <> Js.NaN.
Proof. destruct n; discriminate. Qed.

Lemma orZeroF_not_nan (x : float) : is_nan (Js.orZeroF x) = false.
Proof.
  unfold Js.orZeroF. destruct (is_nan x) eqn:E; simpl; [reflexivity |].
  destruct (is_zero x); [reflexivity | exact E].
Qed.

(** ** The guard on the variation index *)

Section VariationGuard.

Context `{JsDate} `{Warehouse}.
Variable settings : Settings.t.
Variable experiment : Experiment.t.

(** An integer index outside the declared variations is unexpected. *)
Lemma unexpected_out_of_range (z : Z) :
  z < 0 \/ Z.of_nat (List.length (Experiment.variations experiment)) <= z ->
  unexpected experiment (Js.Defined (Js.Num z)) = true.
Proof.
  intros Hz. unfold unexpected. simpl.
  destruct (Z.ltb_spec z 0) as [_ | Hge]; [reflexivity |].
  destruct (Z.leb_spec (Z.of_nat (List.length (Experiment.variations experiment))) z)
    as [_ | Hlt]; [reflexivity | lia].
Qed.

(** [NaN] and [undefined] pass the guard: both comparisons are false. *)
Lemma unexpected_NaN : unexpected experiment (Js.Defined Js.NaN) = false.
Proof. reflexivity. Qed.

Lemma unexpected_Undefined : unexpected experiment Js.Undefined = false.
Proof. reflexivity. Qed.

(** A row whose variation is an integer out of range adds a line to the
    console and leaves [dimensionMap] as it was. *)
Lemma metricRowStep_out_of_range
  (m : Metric.t) (st : Merge.t) (row : ExperimentMetricRow.t) (z : Z) :
  varIndexOf settings experiment (ExperimentMetricRow.variation row)
  = Js.Defined (Js.Num z) ->
  z < 0 \/ Z.of_nat (List.length (Experiment.variations experiment)) <= z ->
  metricRowStep settings experiment m st row
  = logUnexpected (ExperimentMetricRow.variation row) st.
Proof.
  intros Hv Hz. unfold metricRowStep. rewrite Hv.
  now rewrite (unexpected_out_of_range z Hz).
Qed.

Lemma usersQueryRowStep_out_of_range
  (st : Merge.t) (row : ExperimentUsersRow.t) (z : Z) :
  varIndexOf settings experiment (ExperimentUsersRow.variation row)
  = Js.Defined (Js.Num z) ->
  z < 0 \/ Z.of_nat (List.length (Experiment.variations experiment)) <= z ->
  usersQueryRowStep settings experiment st row
  = logUnexpected (ExperimentUsersRow.variation row) st.
Proof.
  intros Hv Hz. unfold usersQueryRowStep. rewrite Hv.
  now rewrite (unexpected_out_of_range z Hz).
Qed.

End VariationGuard.

(** ** The past experiments query *)

Module PastQueryFacts.

Import PastQuery.

Lemma fold_max_lower (l : list Z) (x : Z) : x <= fold_left Z.max l x.
Proof.
  revert x. induction l as [| y l IH]; intros x; simpl; [lia |].
  specialize (IH (Z.max x y)). lia.
Qed.

Lemma fold_max_upper (l : list Z) (x y : Z) :
  In y l -> y <= fold_left Z.max l x.
Proof.
  revert x. induction l as [| z l IH]; intros x Hin; simpl; [destruct Hin |].
  destruct Hin as [-> | Hin].
  - pose proof (fold_max_lower l (Z.max x y)). lia.
  - apply IH, Hin.
Qed.

Lemma fold_max_In (l : list Z) (x : Z) :
  fold_left Z.max l x = x \/ In (fold_left Z.max l x) l.
Proof.
  revert x. induction l as [| y l IH]; intros x; simpl; [now left |].
  destruct (IH (Z.max x y)) as [E | Hin]; [| now right; right].
  rewrite E. destruct (Z.max_spec x y) as [[_ ->] | [_ ->]]; auto.
Qed.

Lemma maximum_upper (l : list Z) (y : Z) : In y l -> y <= maximum l.
Proof.
  destruct l as [| x l]; intros Hin; [destruct Hin |]. simpl.
  destruct Hin as [-> | Hin]; [apply fold_max_lower | now apply fold_max_upper].
Qed.

Lemma maximum_In (l : list Z) : l <> nil -> In (maximum l) l.
Proof.
  destruct l as [| x l]; intros Hne; [congruence |]. simpl.
  destruct (fold_max_In l x) as [-> | Hin]; auto.
Qed.

(** The greatest element is the same when the elements at or below [c] are
    left out, if an element above [c] exists. *)
Lemma maximum_filter_above (c : Z) (l : list Z) :
  (exists y, In y l /\ c < y) ->
  maximum (List.filter (fun x => c <? x) l) = maximum l.
Proof.
  intros (y & Hy & Hc).
  assert (Hne : l <> nil) by (destruct l; [destruct Hy | discriminate]).
  assert (Hin : In y (List.filter (fun x => c <? x) l)).
  { apply filter_In. split; [exact Hy | now apply Z.ltb_lt]. }
  assert (Hne' : List.filter (fun x => c <? x) l <> nil).
  { intros E. rewrite E in Hin. destruct Hin. }
  pose proof (maximum_In _ Hne') as H1.
  apply filter_In in H1. destruct H1 as [H1 _].
  pose proof (maximum_upper _ _ H1) as Hle.
  pose proof (maximum_In _ Hne) as H2.
  pose proof (maximum_upper _ _ Hy) as Hym.
  assert (H3 : In (maximum l) (List.filter (fun x => c <? x) l)).
  { apply filter_In. split; [exact H2 | apply Z.ltb_lt; lia]. }
  pose proof (maximum_upper _ _ H3). lia.
Qed.

Lemma filter_filter_comm {A : Type} (p q : A -> bool) (l : list A) :
  List.filter p (List.filter q l) = List.filter q (List.filter p l).
Proof.
  induction l as [| x l IH]; [reflexivity |]. simpl.
  destruct (q x) eqn:Eq, (p x) eqn:Ep; simpl; rewrite ?Eq, ?Ep, IH; reflexivity.
Qed.

Lemma map_filter_comm {A B : Type} (f : A -> B) (p : B -> bool) (l : list A) :
  map f (List.filter (fun x => p (f x)) l) = List.filter p (map f l).
Proof.
  induction l as [| x l IH]; [reflexivity |]. simpl.
  destruct (p (f x)); simpl; now rewrite IH.
Qed.

Lemma filter_none {A : Type} (p : A -> bool) (l : list A) :
  (forall x, In x l -> p x = false) -> List.filter p l = nil.
Proof.
  induction l as [| x l IH]; intros Hp; [reflexivity |]. simpl.
  rewrite (Hp x) by (now left). apply IH. intros y Hy. apply Hp. now right.
Qed.

Lemma flat_map_if {A : Type} (c : A -> bool) (l : list A) :
  flat_map (fun d => if c d then d :: nil else nil) l = List.filter c l.
Proof.
  induction l as [| x l IH]; [reflexivity |]. simpl.
  destruct (c x); simpl; now rewrite IH.
Qed.

Lemma above_threshold (a peak : Z) :
  above a (inject_Z peak * (5 # 100))%Q = (5 * peak <? 100 * a).
Proof.
  unfold above, Qle_bool. simpl. change (Z.pos (1 * 100)) with 100.
  destruct (Z.leb_spec (a * 100) (peak * 5 * 1)),
           (Z.ltb_spec (5 * peak) (100 * a)); simpl; try reflexivity; lia.
Qed.

Lemma In_rowsOf (k : Key) (rows : list DateRow) (d : DateRow) :
  In d (rowsOf k rows) <-> In d rows /\ d_key d = k.
Proof.
  unfold rowsOf. rewrite filter_In, bool_decide_eq_true. reflexivity.
Qed.

Lemma thresholdKeys_peak (k : Key) (dates : list DateRow) :
  elem_of k (thresholdKeys dates) <-> 5 < peak k dates.
Proof.
  unfold thresholdKeys, peak.
  rewrite elem_of_remove_dups, list_elem_of_In, in_map_iff.
  split.
  - intros (d & Hk & Hd). apply filter_In in Hd. destruct Hd as [Hd H5].
    apply Z.ltb_lt in H5.
    assert (Hin : In (d_users d) (map d_users (rowsOf k dates))).
    { apply in_map. apply In_rowsOf. now split. }
    pose proof (maximum_upper _ _ Hin). lia.
  - intros H5.
    assert (Hne : map d_users (rowsOf k dates) <> nil).
    { intros E. rewrite E in H5. simpl in H5. lia. }
    pose proof (maximum_In _ Hne) as Hin.
    apply in_map_iff in Hin. destruct Hin as (d & Hu & Hd).
    apply In_rowsOf in Hd. destruct Hd as [Hd Hk].
    exists d. split; [exact Hk |].
    apply filter_In. split; [exact Hd | apply Z.ltb_lt; lia].
Qed.

(** The threshold of a variation that has one is 5% of its peak. *)
Lemma threshold_peak (k : Key) (dates : list DateRow) :
  5 < peak k dates ->
  maximum (map d_users (rowsOf k (List.filter (fun d => 5 <? d_users d) dates)))
  = peak k dates.
Proof.
  intros H5. unfold peak, rowsOf in *.
  rewrite filter_filter_comm.
  rewrite (map_filter_comm d_users (fun x => 5 <? x)).
  apply maximum_filter_above.
  exists (maximum (map d_users (rowsOf k dates))). split; [| exact H5].
  apply maximum_In. intros E. unfold rowsOf in E. rewrite E in H5.
  simpl in H5. lia.
Qed.

(** A day joins the threshold of its own variation, if there is one. *)
Lemma join_one_threshold
  (d : DateRow) (thr : Key -> Q) (keys : list Key) :
  NoDup keys ->
  flat_map
    (fun u =>
       if above (d_users d) (u_threshold u) && bool_decide (d_key d = u_key u)
       then d :: nil
       else nil)
    (map (fun k => {| u_key := k; u_threshold := thr k |}) keys)
  = if bool_decide (elem_of (d_key d) keys)
       && above (d_users d) (thr (d_key d))
    then d :: nil
    else nil.
Proof.
  induction 1 as [| k keys Hnot Hnd IH]; [reflexivity |].
  cbn [map flat_map u_key u_threshold]. rewrite IH.
  destruct (decide (d_key d = k)) as [E | Hne].
  - subst k.
    rewrite (bool_decide_eq_true_2 (d_key d = d_key d) eq_refl).
    rewrite (bool_decide_eq_true_2 (elem_of (d_key d) (d_key d :: keys)))
      by (apply list_elem_of_here).
    rewrite (bool_decide_eq_false_2 (elem_of (d_key d) keys)) by exact Hnot.
    rewrite andb_true_r. simpl.
    destruct (above (d_users d) (thr (d_key d))); reflexivity.
  - rewrite (bool_decide_eq_false_2 (d_key d = k)) by exact Hne.
    rewrite andb_false_r. simpl.
    destruct (decide (elem_of (d_key d) keys)) as [Hin | Hnin].
    + rewrite (bool_decide_eq_true_2 (elem_of (d_key d) keys)) by exact Hin.
      rewrite (bool_decide_eq_true_2 (elem_of (d_key d) (k :: keys)))
        by (now apply list_elem_of_further).
      reflexivity.
    + rewrite (bool_decide_eq_false_2 (elem_of (d_key d) keys)) by exact Hnin.
      rewrite (bool_decide_eq_false_2 (elem_of (d_key d) (k :: keys)))
        by (rewrite elem_of_cons; intros [E | Hin];
            [now apply Hne | now apply Hnin]).
      reflexivity.
Qed.

Lemma joinedDates_counted (dates : list DateRow) :
  joinedDates dates (userThresholds dates) = List.filter (counted dates) dates.
Proof.
  unfold joinedDates, userThresholds.
  rewrite <- (flat_map_if (counted dates) dates).
  apply flat_map_ext. intros d.
  rewrite (join_one_threshold d
             (fun k =>
                (inject_Z
                   (maximum
                      (map d_users
                         (rowsOf k
                            (List.filter (fun d => 5 <? d_users d) dates))))
                 * (5 # 100))%Q)).
  2: { apply NoDup_remove_dups. }
  fold (thresholdKeys dates). unfold counted.
  destruct (decide (elem_of (d_key d) (thresholdKeys dates))) as [Hin | Hnin].
  - rewrite (bool_decide_eq_true_2 _ Hin). simpl.
    rewrite threshold_peak by (now apply thresholdKeys_peak).
    now rewrite above_threshold.
  - rewrite (bool_decide_eq_false_2 _ Hnin). reflexivity.
Qed.

Lemma rowsOf_counted (k : Key) (dates : list DateRow) :
  rowsOf k (List.filter (counted dates) dates)
  = if bool_decide (5 < peak k dates) then keptDays k dates else nil.
Proof.
  unfold rowsOf at 1. rewrite filter_filter_comm. fold (rowsOf k dates).
  unfold keptDays.
  destruct (decide (5 < peak k dates)) as [H5 | H5].
  - rewrite (bool_decide_eq_true_2 _ H5).
    apply filter_ext_in. intros d Hd. apply In_rowsOf in Hd.
    destruct Hd as [_ <-]. unfold counted.
    rewrite (bool_decide_eq_true_2 (elem_of (d_key d) (thresholdKeys dates)))
      by (now apply thresholdKeys_peak).
    reflexivity.
  - rewrite (bool_decide_eq_false_2 _ H5).
    apply filter_none. intros d Hd. apply In_rowsOf in Hd.
    destruct Hd as [_ <-]. unfold counted.
    rewrite (bool_decide_eq_false_2 (elem_of (d_key d) (thresholdKeys dates)))
      by (now rewrite thresholdKeys_peak).
    reflexivity.
Qed.

Lemma keep_spec (from : Z) (v : VariationRow) :
  keep from v = true <->
  200 < v_users v
  /\ 5 < dateDiff (v_start_date v) (v_end_date v)
  /\ 2 < dateDiff (dateTrunc from) (v_start_date v).
Proof.
  unfold keep. rewrite !andb_true_iff, !Z.ltb_lt. tauto.
Qed.

Lemma filter_filter_and {A : Type} (p q : A -> bool) (l : list A) :
  List.filter p (List.filter q l) = List.filter (fun x => q x && p x) l.
Proof.
  induction l as [| x l IH]; [reflexivity |]. simpl.
  destruct (q x); simpl; [destruct (p x) |]; now rewrite IH.
Qed.

(** A row of [__experimentDates] stands for the events after the horizon of
    one variation and one day, and counts their distinct visitors. *)
Lemma experimentDates_rows (from : Z) (events : list Event) (d : DateRow) :
  In d (experimentDates from events) <->
  eventsOf from (d_key d) (d_date d) events <> nil
  /\ d_users d
     = Z.of_nat
         (List.length
            (remove_dups
               (map anonymous_id
                  (eventsOf from (d_key d) (d_date d) events)))).
Proof.
  unfold experimentDates, eventsOf. rewrite in_map_iff. split.
  - intros ([k date] & <- & Hg). cbn [d_key d_date d_users fst snd].
    rewrite filter_filter_and. split; [| reflexivity].
    rewrite <- list_elem_of_In, elem_of_remove_dups, list_elem_of_In in Hg.
    apply in_map_iff in Hg. destruct Hg as (e & Eg & He).
    apply filter_In in He. destruct He as [He Hfrom].
    intros Hnil.
    assert (Hin : In e (List.filter
                          (fun e => (from <? timestamp e)
                                    && bool_decide
                                         ((eventKey e, dateTrunc (timestamp e))
                                          = (k, date))) events)).
    { apply filter_In. split; [exact He |]. rewrite Hfrom. simpl.
      now apply bool_decide_eq_true. }
    rewrite Hnil in Hin. destruct Hin.
  - intros [Hne Hu]. exists (d_key d, d_date d). split.
    + destruct d as [k date u]. cbn [d_key d_date d_users fst snd] in *.
      rewrite filter_filter_and. now rewrite Hu.
    + rewrite <- list_elem_of_In, elem_of_remove_dups, list_elem_of_In.
      destruct (List.filter _ events) as [| e l] eqn:E; [congruence |].
      assert (He : In e (e :: l)) by now left.
      rewrite <- E in He. apply filter_In in He. destruct He as [He Hc].
      apply andb_true_iff in Hc. destruct Hc as [Hfrom Hk].
      apply bool_decide_eq_true in Hk.
      apply in_map_iff. exists e. split; [exact Hk |].
      apply filter_In. now split.
Qed.

(** The rows of the result. *)
Lemma result_rows (from : Z) (events : list Event) (v : VariationRow) :
  In v (result from events) <->
  5 < peak (v_key v) (experimentDates from events)
  /\ keptDays (v_key v) (experimentDates from events) <> nil
  /\ v_start_date v
     = minimum (map d_date (keptDays (v_key v) (experimentDates from events)))
  /\ v_end_date v
     = maximum (map d_date (keptDays (v_key v) (experimentDates from events)))
  /\ v_users v
     = sum (map d_users (keptDays (v_key v) (experimentDates from events)))
  /\ 200 < v_users v
  /\ 5 < dateDiff (v_start_date v) (v_end_date v)
  /\ 2 < dateDiff (dateTrunc from) (v_start_date v).
Proof.
  unfold result. set (dates := experimentDates from events).
  rewrite filter_In, keep_spec. unfold variations.
  rewrite joinedDates_counted, in_map_iff.
  split.
  - intros [(k & Ev & Hk) Hkeep].
    rewrite <- list_elem_of_In, elem_of_remove_dups, list_elem_of_In in Hk.
    apply in_map_iff in Hk. destruct Hk as (d & Hd & Hin).
    assert (Hrow : In d (rowsOf k (List.filter (counted dates) dates)))
      by (apply In_rowsOf; now split).
    rewrite rowsOf_counted in Ev, Hrow.
    destruct (decide (5 < peak k dates)) as [H5 | H5].
    + rewrite (bool_decide_eq_true_2 _ H5) in Ev, Hrow.
      subst v. cbn [v_key v_start_date v_end_date v_users] in *.
      repeat split; try tauto.
      intros E. rewrite E in Hrow. destruct Hrow.
    + rewrite (bool_decide_eq_false_2 _ H5) in Hrow. destruct Hrow.
  - intros (H5 & Hne & Hs & He & Hu & Hkeep).
    split; [| exact Hkeep].
    exists (v_key v). split.
    + rewrite rowsOf_counted, (bool_decide_eq_true_2 _ H5).
      destruct v as [k s e u]. cbn [v_key v_start_date v_end_date v_users] in *.
      now subst.
    + rewrite <- list_elem_of_In, elem_of_remove_dups, list_elem_of_In.
      destruct (keptDays (v_key v) dates) as [| d l] eqn:E; [congruence |].
      assert (Hd : In d (rowsOf (v_key v) (List.filter (counted dates) dates))).
      { rewrite rowsOf_counted, (bool_decide_eq_true_2 _ H5), E. now left. }
      apply In_rowsOf in Hd. destruct Hd as [Hd Hk].
      apply in_map_iff. exists d. now split.
Qed.

End PastQueryFacts.

(** ** The past experiments query read from its text *)

Module SqlFacts.

Import PastQuery.
Import PastQueryFacts.

(** The tree prints to the text that [getPastExperimentQuery] composes. *)
Lemma pastExperiments_text `{JsDate}
  (settings : Settings.t) (sqlFormat : string -> string) (from : Date) :
  getPastExperimentQuery settings sqlFormat from
  = sqlFormat (Sql.render (pastExperiments settings (toTimestamp from))).
Proof.
  unfold getPastExperimentQuery. f_equal.
  unfold Sql.render, pastExperiments, experimentDatesCte, userThresholdsCte,
    variationsCte, pastExperimentsSelect, Sql.renderCte, Sql.renderSelect,
    Sql.renderItems, Sql.renderItem, Sql.renderOrder, experimentIdColumn,
    experimentsTable.
  cbn [Sql.query_before Sql.query_ctes Sql.query_final Sql.cte_before
       Sql.cte_name Sql.cte_opening Sql.cte_select Sql.cte_closing
       Sql.select_items Sql.select_from Sql.select_where Sql.select_group
       Sql.select_order Sql.item_before Sql.item_expr Sql.item_alias
       Sql.order_before Sql.order_expr Sql.order_asc Sql.renderExpr
       Sql.renderCond Sql.renderSource map Js.join fst snd Sql.fnName].
  unfold dateTrunc, dateDiff.
  repeat rewrite append_assoc.
  reflexivity.
Qed.


Lemma pastExperiments_wellFormed (settings : Settings.t) (horizon : string) :
  Sql.wellFormed (pastExperiments settings horizon) = true.
Proof. reflexivity. Qed.

(** *** Lists *)

Lemma filter_map {A B : Type} (f : A -> B) (p : B -> bool) (l : list A) :
  List.filter p (map f l) = map f (List.filter (fun x => p (f x)) l).
Proof.
  induction l as [| x l IH]; [reflexivity |].
  cbn [map List.filter]. destruct (p (f x)); cbn [map]; now rewrite IH.
Qed.

Lemma filter_ext_in' {A : Type} (p q : A -> bool) (l : list A) :
  (forall x, In x l -> p x = q x) -> List.filter p l = List.filter q l.
Proof.
  induction l as [| x l IH]; intros Hpq; [reflexivity |].
  cbn [List.filter]. rewrite (Hpq x) by (now left).
  rewrite IH by (intros y Hy; apply Hpq; now right). reflexivity.
Qed.

Lemma existsb_map {A B : Type} (f : A -> B) (p : B -> bool) (l : list A) :
  existsb p (map f l) = existsb (fun x => p (f x)) l.
Proof.
  induction l as [| x l IH]; [reflexivity |].
  cbn [map existsb]. now rewrite IH.
Qed.

Lemma distinctBy_map {A B : Type} (f : A -> B) (eq : B -> B -> bool)
  (l : list A) :
  Sql.distinctBy eq (map f l)
  = map f (Sql.distinctBy (fun x y => eq (f x) (f y)) l).
Proof.
  induction l as [| x l IH]; [reflexivity |].
  cbn [map Sql.distinctBy]. rewrite existsb_map.
  destruct (existsb _ l); cbn [map]; now rewrite IH.
Qed.

Lemma distinctBy_ext {A : Type} (eq eq' : A -> A -> bool) (l : list A) :
  (forall x y, eq x y = eq' x y) ->
  Sql.distinctBy eq l = Sql.distinctBy eq' l.
Proof.
  intros E. induction l as [| x l IH]; [reflexivity |].
  cbn [Sql.distinctBy]. rewrite IH.
  replace (existsb (eq x) l) with (existsb (eq' x) l); [reflexivity |].
  clear IH. induction l as [| y l IH]; [reflexivity |].
  cbn [existsb]. now rewrite E, IH.
Qed.

Lemma existsb_decide `{EqDecision K} {A : Type} (k : A -> K) (x : A)
  (l : list A) :
  existsb (fun y => bool_decide (k x = k y)) l
  = bool_decide (k x ∈ map k l).
Proof.
  induction l as [| y l IH]; cbn [existsb map].
  - symmetry. apply bool_decide_eq_false. apply not_elem_of_nil.
  - rewrite IH. destruct (decide (k x = k y)) as [E | N].
    + rewrite (bool_decide_eq_true_2 _ E). symmetry.
      apply bool_decide_eq_true. rewrite E. apply elem_of_cons. now left.
    + rewrite (bool_decide_eq_false_2 _ N). cbn [orb].
      apply bool_decide_ext. rewrite elem_of_cons. tauto.
Qed.

(** The keys of the groups are those of [remove_dups]. *)
Lemma distinctBy_keys `{EqDecision K} {A : Type} (k : A -> K) (l : list A) :
  map k (Sql.distinctBy (fun x y => bool_decide (k x = k y)) l)
  = remove_dups (map k l).
Proof.
  induction l as [| x l IH]; [reflexivity |].
  cbn [Sql.distinctBy map remove_dups]. rewrite existsb_decide.
  case_bool_decide as E;
    destruct (decide_rel elem_of (k x) (map k l)) as [E' | E'];
    try contradiction; cbn [map]; now rewrite IH.
Qed.

Lemma distinctBy_In {A : Type} (eq : A -> A -> bool) (l : list A) (x : A) :
  In x (Sql.distinctBy eq l) -> In x l.
Proof.
  induction l as [| y l IH]; [easy |].
  cbn [Sql.distinctBy]. destruct (existsb (eq y) l).
  - intros Hx. right. now apply IH.
  - intros [-> | Hx]; [now left | right; now apply IH].
Qed.


(** *** Values *)

Lemma greater_numbers (a b : Z) :
  Sql.greater (Sql.Number (inject_Z a)) (Sql.Number (inject_Z b)) = (b <? a).
Proof.
  unfold Sql.greater, Qle_bool. cbn [Qnum Qden inject_Z].
  rewrite !Z.mul_1_r.
  destruct (Z.leb_spec a b), (Z.ltb_spec b a); try reflexivity; lia.
Qed.

Lemma length_distinct_texts (l : list string) :
  List.length (Sql.distinctBy Sql.same (List.filter Sql.present (map Sql.Text l)))
  = List.length (remove_dups l).
Proof.
  rewrite filter_map. cbn [Sql.present].
  replace (List.filter (fun _ : string => true) l) with l
    by (induction l as [| x l IH]; [reflexivity | cbn; now rewrite <- IH]).
  rewrite distinctBy_map, length_map.
  rewrite (distinctBy_ext _ (fun x y : string => bool_decide (id x = id y))).
  - rewrite <- (length_map id), distinctBy_keys, map_id. reflexivity.
  - intros x y. cbn [Sql.same]. unfold id.
    destruct (String.eqb_spec x y) as [E | N].
    + symmetry. now apply bool_decide_eq_true.
    + symmetry. now apply bool_decide_eq_false.
Qed.

(** *** The table [__experimentDates] *)

Section ExperimentDates.

Variable settings : Settings.t.
Hypothesis Hcolumns : NoDup (experimentsColumns settings).
Variable horizon : string.
Variable t : Z.
Hypothesis Hhorizon : Sql.readTimestamp horizon = Some t.

Lemma column_distinct :
  experimentIdColumn settings <> getVariationColumn settings
  /\ experimentIdColumn settings
     <> getTimestampColumn settings None InExperiments
  /\ experimentIdColumn settings
     <> getAnonymousIdColumn settings None InExperiments
  /\ getVariationColumn settings
     <> getTimestampColumn settings None InExperiments
  /\ getVariationColumn settings
     <> getAnonymousIdColumn settings None InExperiments
  /\ getTimestampColumn settings None InExperiments
     <> getAnonymousIdColumn settings None InExperiments.
Proof.
  unfold experimentsColumns in Hcolumns.
  rewrite !NoDup_cons in Hcolumns.
  rewrite !elem_of_cons in Hcolumns.
  destruct Hcolumns as (H1 & H2 & H3 & _).
  repeat split; intros E; rewrite E in *; tauto.
Qed.

Lemma event_experiment (e : Event) :
  Sql.valueIn (eventBinding settings e) (experimentIdColumn settings)
  = Sql.Text (experiment_id e).
Proof.
  unfold eventBinding, eventRow. cbn [Sql.valueIn Sql.field].
  now rewrite String.eqb_refl.
Qed.

Lemma event_variation (e : Event) :
  Sql.valueIn (eventBinding settings e) (getVariationColumn settings)
  = Sql.Text (variation_id e).
Proof.
  destruct column_distinct as (H1 & _).
  unfold eventBinding, eventRow. cbn [Sql.valueIn Sql.field].
  rewrite (proj2 (String.eqb_neq _ _) H1).
  now rewrite String.eqb_refl.
Qed.

Lemma event_timestamp (e : Event) :
  Sql.valueIn (eventBinding settings e) (getTimestampColumn settings None InExperiments)
  = Sql.Time (timestamp e).
Proof.
  destruct column_distinct as (_ & H2 & _ & H4 & _).
  unfold eventBinding, eventRow. cbn [Sql.valueIn Sql.field].
  rewrite (proj2 (String.eqb_neq _ _) H2), (proj2 (String.eqb_neq _ _) H4).
  now rewrite String.eqb_refl.
Qed.

Lemma event_anonymous (e : Event) :
  Sql.valueIn (eventBinding settings e) (getAnonymousIdColumn settings None InExperiments)
  = Sql.Text (anonymous_id e).
Proof.
  destruct column_distinct as (_ & _ & H3 & _ & H5 & H6).
  unfold eventBinding, eventRow. cbn [Sql.valueIn Sql.field].
  rewrite (proj2 (String.eqb_neq _ _) H3), (proj2 (String.eqb_neq _ _) H5),
    (proj2 (String.eqb_neq _ _) H6).
  now rewrite String.eqb_refl.
Qed.

Lemma same_day_key (x y : Event) :
  Sql.sameKeys
    (Sql.keyOf
       ({| Sql.item_before := "
          ";
           Sql.item_expr := Sql.Column (experimentIdColumn settings);
           Sql.item_alias := None |}
        :: {| Sql.item_before := "
          ";
              Sql.item_expr := Sql.Column (getVariationColumn settings);
              Sql.item_alias := None |}
        :: {| Sql.item_before := "
          ";
              Sql.item_expr :=
                Sql.DateTrunc
                  (Sql.Column (getTimestampColumn settings None InExperiments));
              Sql.item_alias := None |}
        :: nil) (eventBinding settings x))
    (Sql.keyOf
       ({| Sql.item_before := "
          ";
           Sql.item_expr := Sql.Column (experimentIdColumn settings);
           Sql.item_alias := None |}
        :: {| Sql.item_before := "
          ";
              Sql.item_expr := Sql.Column (getVariationColumn settings);
              Sql.item_alias := None |}
        :: {| Sql.item_before := "
          ";
              Sql.item_expr :=
                Sql.DateTrunc
                  (Sql.Column (getTimestampColumn settings None InExperiments));
              Sql.item_alias := None |}
        :: nil) (eventBinding settings y))
  = bool_decide (dayKey x = dayKey y).
Proof.
  unfold Sql.keyOf. cbn [map Sql.item_expr Sql.evalExpr].
  rewrite !event_experiment, !event_variation, !event_timestamp.
  cbn [Sql.dayOf Sql.sameKeys Sql.same]. unfold dayKey, eventKey, dateTrunc.
  destruct (String.eqb_spec (experiment_id x) (experiment_id y)) as [E1 | N1];
    [| symmetry; apply bool_decide_eq_false; congruence].
  destruct (String.eqb_spec (variation_id x) (variation_id y)) as [E2 | N2];
    [| symmetry; apply bool_decide_eq_false; congruence].
  destruct (Z.eqb_spec (timestamp x / 86400) (timestamp y / 86400)) as [E3 | N3];
    [| symmetry; apply bool_decide_eq_false; congruence].
  symmetry. apply bool_decide_eq_true. congruence.
Qed.

Lemma experimentDates_table (events : list Event) :
  Sql.evalSelect (warehouseOf settings events)
    (Sql.cte_select (experimentDatesCte settings horizon))
  = map dateRowOf (experimentDates t events).
Proof.
  unfold Sql.evalSelect, experimentDatesCte, warehouseOf.
  cbn [Sql.cte_select Sql.select_from Sql.select_where Sql.select_group
       Sql.select_items snd Sql.evalSource Sql.tableOf].
  rewrite String.eqb_refl. cbv iota. rewrite List.map_map.
  change (fun x : Event => (None, eventRow settings x) :: nil) with (eventBinding settings).
  rewrite filter_map.
  rewrite (filter_ext_in' _ (fun e => t <? timestamp e)); cycle 1.
  { intros e _. cbn [Sql.holds Sql.evalExpr].
    rewrite event_timestamp, Hhorizon. reflexivity. }
  set (rows := List.filter (fun e => t <? timestamp e) events).
  rewrite distinctBy_map.
  rewrite (distinctBy_ext _ (fun x y => bool_decide (dayKey x = dayKey y)))
    by apply same_day_key.
  rewrite List.map_map. unfold experimentDates. fold rows.
  change (fun e : Event => (eventKey e, dateTrunc (timestamp e))) with dayKey.
  rewrite <- (distinctBy_keys dayKey).
  rewrite !List.map_map.
  apply List.map_ext. intros e.
  unfold Sql.output, dateRowOf.
  cbn [map Sql.outputName Sql.item_alias Sql.item_expr Sql.evalExpr d_key
       d_date d_users fst snd].
  rewrite event_experiment, event_variation, event_timestamp.
  cbn [Sql.dayOf]. unfold dayKey at 1 2 3. cbn [fst snd eventKey dateTrunc].
  do 3 f_equal.
  apply (f_equal (fun n => ("users", Sql.Number (inject_Z (Z.of_nat n))) :: nil)).
  rewrite (filter_map (eventBinding settings)), List.map_map.
  rewrite (filter_ext_in' _ (fun e' => bool_decide (dayKey e' = dayKey e)));
    cycle 1.
  { intros e' _. rewrite same_day_key. apply bool_decide_ext. split; congruence. }
  rewrite (List.map_ext _ (fun e' => Sql.Text (anonymous_id e')))
    by (intros e'; apply event_anonymous).
  rewrite <- (List.map_map anonymous_id Sql.Text).
  apply length_distinct_texts.
Qed.

End ExperimentDates.


(** *** Aggregates *)

Lemma filter_all {A : Type} (p : A -> bool) (l : list A) :
  (forall x, p x = true) -> List.filter p l = l.
Proof.
  intros Hp. induction l as [| x l IH]; [reflexivity |].
  cbn [List.filter]. now rewrite Hp, IH.
Qed.

Lemma present_map {A : Type} (f : A -> Sql.Value) (l : list A) :
  (forall x, Sql.present (f x) = true) ->
  List.filter Sql.present (map f l) = map f l.
Proof.
  intros Hf. rewrite filter_map. now rewrite filter_all.
Qed.

Lemma max_numbers (l : list Z) :
  l <> nil ->
  Sql.aggregate Sql.Max (map (fun z => Sql.Number (inject_Z z)) l)
  = Sql.Number (inject_Z (maximum l)).
Proof.
  unfold Sql.aggregate. rewrite present_map by reflexivity.
  destruct l as [| x l]; [congruence | intros _].
  cbn [map maximum]. revert x.
  induction l as [| y l IH]; intros x; [reflexivity |].
  cbn [map fold_left]. rewrite greater_numbers.
  destruct (Z.ltb_spec x y).
  - rewrite IH. now rewrite Z.max_r by lia.
  - rewrite IH. now rewrite Z.max_l by lia.
Qed.

Lemma max_days (l : list Z) :
  l <> nil ->
  Sql.aggregate Sql.Max (map Sql.Day l) = Sql.Day (maximum l).
Proof.
  unfold Sql.aggregate. rewrite present_map by reflexivity.
  destruct l as [| x l]; [congruence | intros _].
  cbn [map maximum]. revert x.
  induction l as [| y l IH]; intros x; [reflexivity |].
  cbn [map fold_left Sql.greater].
  destruct (Z.ltb_spec x y).
  - rewrite IH. now rewrite Z.max_r by lia.
  - rewrite IH. now rewrite Z.max_l by lia.
Qed.

Lemma min_days (l : list Z) :
  l <> nil ->
  Sql.aggregate Sql.Min (map Sql.Day l) = Sql.Day (minimum l).
Proof.
  unfold Sql.aggregate. rewrite present_map by reflexivity.
  destruct l as [| x l]; [congruence | intros _].
  cbn [map minimum]. revert x.
  induction l as [| y l IH]; intros x; [reflexivity |].
  cbn [map fold_left Sql.greater].
  destruct (Z.ltb_spec y x).
  - rewrite IH. now rewrite Z.min_r by lia.
  - rewrite IH. now rewrite Z.min_l by lia.
Qed.

Lemma plus_numbers (a b : Z) :
  Sql.plus (Sql.Number (inject_Z a)) (Sql.Number (inject_Z b))
  = Sql.Number (inject_Z (a + b)).
Proof.
  unfold Sql.plus, Qplus, inject_Z. cbn [Qnum Qden].
  rewrite !Z.mul_1_r. reflexivity.
Qed.

Lemma sum_numbers (l : list Z) :
  l <> nil ->
  Sql.aggregate Sql.Sum (map (fun z => Sql.Number (inject_Z z)) l)
  = Sql.Number (inject_Z (sum l)).
Proof.
  unfold Sql.aggregate. rewrite present_map by reflexivity.
  destruct l as [| x l]; [congruence | intros _].
  unfold sum. cbn [map fold_left]. change (0 + x) with x. revert x.
  induction l as [| y l IH]; intros x; [reflexivity |].
  cbn [map fold_left]. rewrite plus_numbers. apply IH.
Qed.

(** *** The table [__userThresholds] *)

Lemma same_texts (a b c d : string) :
  Sql.same (Sql.Text a) (Sql.Text c) && (Sql.same (Sql.Text b) (Sql.Text d) && true)
  = bool_decide ((a, b) = (c, d)).
Proof.
  cbn [Sql.same].
  destruct (String.eqb_spec a c) as [E1 | N1];
    [| symmetry; apply bool_decide_eq_false; congruence].
  destruct (String.eqb_spec b d) as [E2 | N2];
    [| symmetry; apply bool_decide_eq_false; congruence].
  symmetry. apply bool_decide_eq_true. congruence.
Qed.

Lemma rowsOf_nonempty (k : Key) (rows : list DateRow) (d : DateRow) :
  In d rows -> d_key d = k -> rowsOf k rows <> nil.
Proof.
  intros Hd Hk E.
  assert (Hin : In d (rowsOf k rows)).
  { apply filter_In. split; [exact Hd | now apply bool_decide_eq_true]. }
  rewrite E in Hin. destruct Hin.
Qed.

Lemma userThresholds_table (db : Sql.Database) (dates : list DateRow) :
  Sql.evalSelect (("__experimentDates", map dateRowOf dates) :: db)
    (Sql.cte_select userThresholdsCte)
  = map thresholdRowOf (userThresholds dates).
Proof.
  unfold Sql.evalSelect, userThresholdsCte.
  cbn [Sql.cte_select Sql.select_from Sql.select_where Sql.select_group
       Sql.select_items snd Sql.evalSource].
  change (Sql.tableOf "__experimentDates" _) with (map dateRowOf dates).
  rewrite List.map_map.
  set (bind := fun d : DateRow => (None : option string, dateRowOf d) :: nil).
  rewrite (filter_map bind).
  rewrite (filter_ext_in' _ (fun d => 5 <? d_users d)); cycle 1.
  { intros d _. cbn [Sql.holds]. apply (greater_numbers (d_users d) 5). }
  unfold userThresholds.
  set (rows := List.filter (fun d => 5 <? d_users d) dates).
  rewrite distinctBy_map.
  rewrite (distinctBy_ext _ (fun x y => bool_decide (d_key x = d_key y)));
    cycle 1.
  { intros x y. destruct x as [[a b] ? ?], y as [[c d] ? ?].
    apply (same_texts a b c d). }
  rewrite <- (distinctBy_keys d_key), !List.map_map.
  apply map_ext_in. intros rep Hrep. apply distinctBy_In in Hrep.
  unfold Sql.output, thresholdRowOf.
  cbn [map Sql.outputName Sql.item_alias Sql.item_expr u_key u_threshold].
  change (Sql.unqualified "experiment_id") with "experiment_id".
  change (Sql.unqualified "variation_id") with "variation_id".
  cbn [Sql.evalExpr]. rewrite (filter_map bind), List.map_map.
  rewrite (filter_ext_in' _ (fun d => bool_decide (d_key d = d_key rep)));
    cycle 1.
  { intros d _. destruct rep as [[a b] ? ?], d as [[c e] ? ?].
    transitivity (bool_decide ((a, b) = (c, e)));
      [apply (same_texts a b c e)
      | apply bool_decide_ext; cbn [d_key]; split; congruence]. }
  change (List.filter (fun d => bool_decide (d_key d = d_key rep)) rows)
    with (rowsOf (d_key rep) rows).
  rewrite (List.map_ext _ (fun d => Sql.Number (inject_Z (d_users d))))
    by reflexivity.
  rewrite <- (List.map_map d_users (fun z => Sql.Number (inject_Z z))).
  rewrite max_numbers; [reflexivity |].
  intros E. apply map_eq_nil in E.
  now apply (rowsOf_nonempty (d_key rep) rows rep).
Qed.


(** *** The table [__variations] *)

Lemma flat_map_map {A B C : Type} (f : A -> B) (g : B -> list C) (l : list A) :
  flat_map g (map f l) = flat_map (fun x => g (f x)) l.
Proof.
  induction l as [| x l IH]; [reflexivity |].
  cbn [map flat_map]. now rewrite IH.
Qed.

Lemma map_flat_map {A B C : Type} (f : B -> C) (g : A -> list B) (l : list A) :
  map f (flat_map g l) = flat_map (fun x => map f (g x)) l.
Proof.
  induction l as [| x l IH]; [reflexivity |].
  cbn [flat_map]. now rewrite List.map_app, IH.
Qed.

Lemma flat_map_ext' {A B : Type} (f g : A -> list B) (l : list A) :
  (forall x, f x = g x) -> flat_map f l = flat_map g l.
Proof.
  intros E. induction l as [| x l IH]; [reflexivity |].
  cbn [flat_map]. now rewrite E, IH.
Qed.

Lemma joinedDates_pairs (dates : list DateRow) (thresholds : list ThresholdRow) :
  joinedDates dates thresholds = map fst (joinedPairs dates thresholds).
Proof.
  unfold joinedDates, joinedPairs. rewrite map_flat_map.
  apply flat_map_ext'. intros d. rewrite map_flat_map.
  apply flat_map_ext'. intros u.
  now destruct (above (d_users d) (u_threshold u)
                && bool_decide (d_key d = u_key u)).
Qed.

Lemma joined_holds (d : DateRow) (u : ThresholdRow) :
  Sql.holds (joinedBinding (d, u))
    (Sql.And
       (Sql.And
          (Sql.Gt (Sql.Column "d.users") (Sql.Column "u.threshold"))
          "
            "
          (Sql.Eq (Sql.Column "d.experiment_id")
             (Sql.Column "u.experiment_id")))
       "
            "
       (Sql.Eq (Sql.Column "d.variation_id") (Sql.Column "u.variation_id")))
  = above (d_users d) (u_threshold u) && bool_decide (d_key d = u_key u).
Proof.
  destruct d as [[a b] date users], u as [[c e] threshold].
  cbn [Sql.holds Sql.evalExpr d_users u_threshold d_key u_key].
  change (Sql.valueIn _ "d.users") with (Sql.Number (inject_Z users)).
  change (Sql.valueIn _ "u.threshold") with (Sql.Number threshold).
  change (Sql.valueIn _ "d.experiment_id") with (Sql.Text a).
  change (Sql.valueIn _ "u.experiment_id") with (Sql.Text c).
  change (Sql.valueIn _ "d.variation_id") with (Sql.Text b).
  change (Sql.valueIn _ "u.variation_id") with (Sql.Text e).
  cbn [Sql.present Sql.greater]. unfold above.
  cbn [Sql.same].
  destruct (String.eqb_spec a c) as [E1 | N1];
    [| rewrite bool_decide_eq_false_2 by congruence;
       now destruct (negb _)].
  destruct (String.eqb_spec b e) as [E2 | N2];
    [| rewrite bool_decide_eq_false_2 by congruence;
       now destruct (negb _)].
  rewrite bool_decide_eq_true_2 by congruence.
  now destruct (negb _).
Qed.


Lemma joined_same_group (p q : DateRow * ThresholdRow) :
  Sql.sameKeys
    (Sql.keyOf
       ({| Sql.item_before := "
          ";
           Sql.item_expr := Sql.Column "d.experiment_id";
           Sql.item_alias := None |}
        :: {| Sql.item_before := " ";
              Sql.item_expr := Sql.Column "d.variation_id";
              Sql.item_alias := None |}
        :: nil) (joinedBinding p))
    (Sql.keyOf
       ({| Sql.item_before := "
          ";
           Sql.item_expr := Sql.Column "d.experiment_id";
           Sql.item_alias := None |}
        :: {| Sql.item_before := " ";
              Sql.item_expr := Sql.Column "d.variation_id";
              Sql.item_alias := None |}
        :: nil) (joinedBinding q))
  = bool_decide (d_key (fst p) = d_key (fst q)).
Proof.
  destruct p as [[[a b] ? ?] ?], q as [[[c e] ? ?] ?].
  cbn [fst d_key]. apply (same_texts a b c e).
Qed.

Lemma variations_table (db : Sql.Database)
  (dates : list DateRow) (thresholds : list ThresholdRow) :
  Sql.evalSelect
    (("__userThresholds", map thresholdRowOf thresholds)
     :: ("__experimentDates", map dateRowOf dates) :: db)
    (Sql.cte_select variationsCte)
  = map variationRowOf (variations dates thresholds).
Proof.
  unfold Sql.evalSelect, variationsCte.
  cbn [Sql.cte_select Sql.select_from Sql.select_where Sql.select_group
       Sql.select_items snd Sql.evalSource].
  change (Sql.tableOf "__experimentDates" _) with (map dateRowOf dates).
  change (Sql.tableOf "__userThresholds" _)
    with (map thresholdRowOf thresholds).
  match goal with
  | |- context [flat_map ?f (map ?g (map dateRowOf dates))] =>
      replace (flat_map f (map g (map dateRowOf dates)))
        with (map joinedBinding (joinedPairs dates thresholds))
  end.
  2: { unfold joinedPairs. rewrite !List.map_map, flat_map_map, map_flat_map.
       apply flat_map_ext'. intros d.
       rewrite flat_map_map, map_flat_map.
       apply flat_map_ext'. intros u.
       rewrite <- joined_holds.
       cbn [app]. change ((Some "d", dateRowOf d)
                          :: (Some "u", thresholdRowOf u) :: nil)
         with (joinedBinding (d, u)).
       now destruct (Sql.holds (joinedBinding (d, u)) _). }
  set (pairs := joinedPairs dates thresholds).
  rewrite distinctBy_map.
  rewrite (distinctBy_ext _
             (fun p q => bool_decide (d_key (fst p) = d_key (fst q))))
    by apply joined_same_group.
  unfold variations. rewrite joinedDates_pairs. fold pairs.
  rewrite (List.map_map fst d_key).
  rewrite <- (distinctBy_keys (fun p => d_key (fst p))), !List.map_map.
  apply map_ext_in. intros rep Hrep. apply distinctBy_In in Hrep.
  rewrite (filter_map joinedBinding).
  rewrite (filter_ext_in' _
             (fun p => bool_decide (d_key (fst p) = d_key (fst rep))));
    cycle 1.
  { intros p _. rewrite joined_same_group.
    apply bool_decide_ext. split; congruence. }
  unfold rowsOf. rewrite (filter_map fst).
  set (group := List.filter _ pairs).
  assert (Hgroup : group <> nil).
  { intros E. assert (Hin : In rep group).
    { apply filter_In. split; [exact Hrep | now apply bool_decide_eq_true]. }
    rewrite E in Hin. destruct Hin. }
  unfold Sql.output, variationRowOf.
  cbn [map Sql.outputName Sql.item_alias Sql.item_expr Sql.evalExpr v_key
       v_start_date v_end_date v_users].
  change (Sql.unqualified "d.experiment_id") with "experiment_id".
  change (Sql.unqualified "d.variation_id") with "variation_id".
  rewrite !List.map_map.
  rewrite (List.map_ext (fun p => Sql.valueIn (joinedBinding p) "d.date")
             (fun p => Sql.Day (d_date (fst p)))) by reflexivity.
  rewrite (List.map_ext (fun p => Sql.valueIn (joinedBinding p) "d.users")
             (fun p => Sql.Number (inject_Z (d_users (fst p)))))
    by reflexivity.
  rewrite <- (List.map_map (fun p => d_date (fst p)) Sql.Day).
  rewrite <- (List.map_map (fun p => d_users (fst p))
                (fun z => Sql.Number (inject_Z z))).
  rewrite min_days, max_days, sum_numbers
    by (intros E; apply map_eq_nil in E; contradiction).
  reflexivity.
Qed.


(** *** The final SELECT and the whole query *)

Lemma final_table (db : Sql.Database) (horizon : string) (t : Z)
  (rows : list VariationRow) :
  Sql.readTimestamp horizon = Some t ->
  Sql.evalSelect (("__variations", map variationRowOf rows) :: db)
    (pastExperimentsSelect horizon)
  = map variationRowOf (List.filter (keep t) rows).
Proof.
  intros Hhorizon. unfold Sql.evalSelect, pastExperimentsSelect.
  cbn [Sql.select_from Sql.select_where Sql.select_group Sql.select_items
       snd Sql.evalSource].
  change (Sql.tableOf "__variations" _) with (map variationRowOf rows).
  rewrite List.map_map.
  set (bind := fun v : VariationRow =>
                 (None : option string, variationRowOf v) :: nil).
  rewrite (filter_map bind), List.map_map.
  rewrite (filter_ext_in' _ (keep t)); cycle 1.
  { intros v _. destruct v as [k s e u].
    cbn [Sql.holds Sql.evalExpr]. rewrite Hhorizon.
    change (Sql.valueIn _ "users") with (Sql.Number (inject_Z u)).
    change (Sql.valueIn _ "start_date") with (Sql.Day s).
    change (Sql.valueIn _ "end_date") with (Sql.Day e).
    cbn [Sql.dayOf]. rewrite !greater_numbers. reflexivity. }
  apply List.map_ext. intros v. unfold Sql.output, bind.
  cbn [map snd List.concat]. apply app_nil_r.
Qed.

Lemma variationRow_of (v : VariationRow) : variationRow (variationRowOf v) = v.
Proof.
  destruct v as [[a b] s e u]. unfold variationRow, variationRowOf.
  cbn [Sql.field String.eqb Ascii.eqb Bool.eqb fst snd v_key v_start_date
       v_end_date v_users textOf dateOf Sql.dayOf integerOf inject_Z Qnum Qden].
  now rewrite Z.div_1_r.
Qed.

(** The rows that the query returns on the assignment events [events],
    when the four columns that it reads have four names and [t] is the
    time of the horizon in the text. *)
Lemma past_query_rows (settings : Settings.t) (horizon : string) (t : Z)
  (events : list Event) :
  NoDup (experimentsColumns settings) ->
  Sql.readTimestamp horizon = Some t ->
  map variationRow
    (Sql.run (pastExperiments settings horizon) (warehouseOf settings events))
  = result t events.
Proof.
  intros Hcolumns Hhorizon. unfold Sql.run, pastExperiments.
  cbn [Sql.query_ctes Sql.query_final fold_left snd].
  rewrite (experimentDates_table settings Hcolumns horizon t Hhorizon).
  change (Sql.cte_name (experimentDatesCte settings horizon))
    with "__experimentDates".
  rewrite userThresholds_table.
  change (Sql.cte_name userThresholdsCte) with "__userThresholds".
  rewrite variations_table.
  change (Sql.cte_name variationsCte) with "__variations".
  rewrite (final_table _ horizon t _ Hhorizon).
  rewrite List.map_map.
  rewrite (List.map_ext _ id) by apply variationRow_of.
  rewrite List.map_id. reflexivity.
Qed.


(** *** The pipeline *)

Lemma result_amended (t : Z) (events : list Event) :
  PastSpec.floorFree t events = true ->
  result t events = PastSpec.amended t events.
Proof.
  unfold PastSpec.floorFree. intros Hfloor.
  rewrite forallb_forall in Hfloor.
  unfold result, PastSpec.amended. cbv zeta.
  set (dates := experimentDates t events) in *.
  f_equal. unfold variations. rewrite joinedDates_counted.
  unfold PastSpec.collapse, PastSpec.aboveThreshold, PastSpec.aboveFloor.
  replace (List.filter (fun d => negb (d_users d <=? 5)) dates) with dates.
  2: { symmetry. rewrite (filter_ext_in' _ (fun _ => true)).
       - now apply filter_all.
       - intros d Hd. apply Hfloor in Hd.
         destruct (Z.leb_spec (d_users d) 5), (Z.ltb_spec 5 (d_users d));
           try reflexivity; try lia; discriminate. }
  replace (List.filter (counted dates) dates)
    with (List.filter
            (fun d => above (d_users d)
                        (PastSpec.noiseThreshold dates (d_key d)))
            dates); [reflexivity |].
  apply filter_ext_in'. intros d Hd.
  unfold counted, PastSpec.noiseThreshold.
  rewrite above_threshold. fold (peak (d_key d) dates).
  rewrite bool_decide_eq_true_2; [reflexivity |].
  apply thresholdKeys_peak.
  assert (Hle : d_users d <= peak (d_key d) dates).
  { unfold peak. apply maximum_upper. apply in_map.
    apply In_rowsOf. now split. }
  specialize (Hfloor d Hd). apply Z.ltb_lt in Hfloor. lia.
Qed.

(** C3, as amended: on assignment events of which no day after the horizon
    is at the floor of 5 users or below it, the query that
    [getPastExperimentQuery] composes returns the rows of this pipeline:
    the events after the horizon are grouped by experiment, variation and
    day with the number of distinct users; the threshold of a variation is
    5% of its peak daily count; the days at or below the threshold are
    discarded; the days that remain are collapsed into a row of first day,
    last day and sum of users for each variation; and the rows are kept
    whose users are more than 200, whose span is more than 5 days and
    whose first day is more than 2 days after the horizon.  The query is
    read from its text: the syntax tree prints to the text that is
    composed, and it is evaluated on a table of the four columns that the
    settings name, [t] being the time that the text of the horizon
    denotes. *)
Theorem past_experiment_pipeline `{JsDate}
  (settings : Settings.t) (sqlFormat : string -> string) (from : Date)
  (t : Z) (events : list Event) :
  NoDup (experimentsColumns settings) ->
  Sql.readTimestamp (toTimestamp from) = Some t ->
  PastSpec.floorFree t events = true ->
  getPastExperimentQuery settings sqlFormat from
  = sqlFormat (Sql.render (pastExperiments settings (toTimestamp from)))
  /\ Sql.wellFormed (pastExperiments settings (toTimestamp from)) = true
  /\ map variationRow
       (Sql.run (pastExperiments settings (toTimestamp from))
          (warehouseOf settings events))
     = PastSpec.amended t events.
Proof.
  intros Hcolumns Hhorizon Hfloor. split; [| split].
  - apply pastExperiments_text.
  - apply pastExperiments_wellFormed.
  - rewrite (past_query_rows settings _ t events Hcolumns Hhorizon).
    now apply result_amended.
Qed.

End SqlFacts.

(** ** The merge of [getExperimentResults] *)

Module MergeFacts.

Lemma mapGet_mapSet (k k' : string) (obj : VariationArray) (m : DimensionMap) :
  mapGet k' (mapSet k obj m) = if decide (k' = k) then Some obj else mapGet k' m.
Proof.
  induction m as [| [k0 o0] m IH]; simpl.
  - destruct (String.eqb_spec k k'), (decide (k' = k)); congruence.
  - destruct (String.eqb_spec k0 k) as [-> | Hne]; simpl.
    + destruct (String.eqb_spec k k'), (decide (k' = k)); congruence.
    + destruct (String.eqb_spec k0 k') as [-> | Hne'].
      * destruct (decide (k' = k)); congruence.
      * exact IH.
Qed.

(** What a write does to each object of the map. *)
Lemma cell_write
  (k : string) (v : Js.maybeNum) (f : VariationData.t -> VariationData.t)
  (m : DimensionMap) (k' p' : string) :
  cell (write k v f m) k' p'
  = if decide (k' = k /\ p' = Js.propertyKey v)
    then Some (f (default (freshData v) (cell m k p')))
    else cell m k' p'.
Proof.
  unfold write, updateData, getDimensionData.
  set (obj := match mapGet k m with Some o => o | None => ∅ end).
  set (obj' := match obj !! Js.propertyKey v with
               | Some _ => obj
               | None => <[Js.propertyKey v := _]> obj
               end).
  assert (Hobj : forall p, obj !! p = cell m k p).
  { intros p. unfold obj, cell. destruct (mapGet k m); [reflexivity |].
    apply lookup_empty. }
  assert (Hobj' : forall p,
             obj' !! p
             = if decide (p = Js.propertyKey v)
               then Some (default (freshData v) (cell m k p))
               else cell m k p).
  { intros p. unfold obj'. rewrite <- Hobj.
    destruct (decide (p = Js.propertyKey v)) as [-> | Hne].
    - destruct (obj !! Js.propertyKey v) eqn:E; simpl.
      + exact E.
      + apply lookup_insert_eq.
    - destruct (obj !! Js.propertyKey v) eqn:E; [reflexivity |].
      apply lookup_insert_ne. congruence. }
  rewrite mapGet_mapSet. destruct (decide (k = k)) as [_ | ?]; [| congruence].
  unfold cell. rewrite !mapGet_mapSet.
  destruct (decide (k' = k)) as [-> | Hk].
  - destruct (decide (p' = Js.propertyKey v)) as [-> | Hp].
    + rewrite decide_True by (split; reflexivity).
      rewrite lookup_alter_eq, Hobj'. rewrite decide_True by reflexivity.
      reflexivity.
    + rewrite decide_False by tauto.
      rewrite lookup_alter_ne by congruence. rewrite Hobj'.
      rewrite decide_False by exact Hp. reflexivity.
  - rewrite decide_False by tauto. reflexivity.
Qed.

(** *** The relation [sameMap] *)

Lemma sameVariation_refl (a : VariationData.t) : sameVariation a a.
Proof. repeat split; apply Permutation_refl. Qed.

Lemma sameVariation_sym (a b : VariationData.t) :
  sameVariation a b -> sameVariation b a.
Proof.
  intros (Hv & Hu & Hm). repeat split; auto. now apply Permutation_sym.
Qed.

Lemma sameVariation_trans (a b c : VariationData.t) :
  sameVariation a b -> sameVariation b c -> sameVariation a c.
Proof.
  intros (Hv & Hu & Hm) (Hv' & Hu' & Hm').
  repeat split; try congruence. now apply Permutation_trans with (VariationData.metrics b).
Qed.

Lemma sameCell_refl (a : option VariationData.t) : sameCell a a.
Proof. destruct a; simpl; [apply sameVariation_refl | exact I]. Qed.

Lemma sameCell_sym (a b : option VariationData.t) :
  sameCell a b -> sameCell b a.
Proof.
  destruct a, b; simpl; auto. apply sameVariation_sym.
Qed.

Lemma sameCell_trans (a b c : option VariationData.t) :
  sameCell a b -> sameCell b c -> sameCell a c.
Proof.
  destruct a, b, c; simpl; try tauto. apply sameVariation_trans.
Qed.

Lemma sameMap_refl (m : DimensionMap) : sameMap m m.
Proof. intros k p. apply sameCell_refl. Qed.

Lemma sameMap_sym (m m' : DimensionMap) : sameMap m m' -> sameMap m' m.
Proof. intros Hm k p. apply sameCell_sym, Hm. Qed.

Lemma sameMap_trans (m1 m2 m3 : DimensionMap) :
  sameMap m1 m2 -> sameMap m2 m3 -> sameMap m1 m3.
Proof. intros H12 H23 k p. eapply sameCell_trans; [apply H12 | apply H23]. Qed.

(** *** The two writes *)

Lemma applyUpdate_same (u : Update) (a b : VariationData.t) :
  sameVariation a b -> sameVariation (applyUpdate u a) (applyUpdate u b).
Proof.
  intros (Hv & Hu & Hm). destruct u as [r | n]; simpl; repeat split; auto.
  now apply Permutation_app_tail.
Qed.

(** Two writes other than two assignments of [users] give the same object
    in either order, up to the order of the summaries. *)
Lemma applyUpdate_comm (u u' : Update) (a : VariationData.t) :
  compatible u u' ->
  sameVariation (applyUpdate u (applyUpdate u' a))
                (applyUpdate u' (applyUpdate u a)).
Proof.
  destruct u as [r | n], u' as [r' | n']; simpl; intros Hc;
    try (exfalso; exact Hc); repeat split; simpl; try apply Permutation_refl.
  rewrite <- !app_assoc. apply Permutation_app_head. apply perm_swap.
Qed.

(** The fresh objects of two variations with the same property key are the
    same object: [Js.propertyKey] is injective. *)
Lemma showZ_inj (x y : Z) : Js.showZ x = Js.showZ y -> x = y.
Proof.
  unfold Js.showZ. intros E.
  apply (f_equal NilEmpty.int_of_string) in E.
  rewrite !NilEmpty.isi in E. injection E as E.
  now apply DecimalZ.to_int_inj.
Qed.

Lemma propertyKey_inj (v v' : Js.maybeNum) :
  Js.propertyKey v = Js.propertyKey v' -> v = v'.
Proof.
  assert (Hshow : forall z s, NilEmpty.int_of_string s = None ->
                              Js.showZ z <> s).
  { intros z s Hs E. rewrite <- E in Hs. unfold Js.showZ in Hs.
    rewrite NilEmpty.isi in Hs. discriminate Hs. }
  destruct v as [| [| z]], v' as [| [| z']]; simpl; intros E;
    try reflexivity; try discriminate E.
  - symmetry in E. now apply Hshow in E.
  - symmetry in E. now apply Hshow in E.
  - now apply Hshow in E.
  - now apply Hshow in E.
  - apply showZ_inj in E. now subst.
Qed.

Lemma applyWrite_same (w : Write) (m m' : DimensionMap) :
  sameMap m m' -> sameMap (applyWrite m w) (applyWrite m' w).
Proof.
  intros Hm k p. unfold applyWrite. rewrite !cell_write.
  destruct (decide (k = w_key w /\ p = Js.propertyKey (w_variation w)))
    as [_ | _]; [| apply Hm].
  specialize (Hm (w_key w) p).
  destruct (cell m (w_key w) p), (cell m' (w_key w) p); simpl in *;
    try contradiction.
  - now apply applyUpdate_same.
  - apply sameVariation_refl.
Qed.

Lemma applyWrite_comm (w1 w2 : Write) (m : DimensionMap) :
  compatible (w_update w1) (w_update w2) ->
  sameMap (applyWrite (applyWrite m w2) w1) (applyWrite (applyWrite m w1) w2).
Proof.
  intros Hc k p. unfold applyWrite. rewrite !cell_write.
  destruct (decide (k = w_key w1 /\ p = Js.propertyKey (w_variation w1)))
    as [[E1 E1'] | H1];
    destruct (decide (k = w_key w2 /\ p = Js.propertyKey (w_variation w2)))
      as [[E2 E2'] | H2].
  - subst k p.
    rewrite decide_True by (split; congruence).
    rewrite decide_True by (split; congruence).
    apply propertyKey_inj in E2'. rewrite <- E2, <- E2'. simpl.
    destruct (cell m (w_key w1) (Js.propertyKey (w_variation w1))); simpl;
      now apply applyUpdate_comm.
  - subst k p.
    rewrite decide_False by (intros [E E']; apply H2; split; congruence).
    apply sameCell_refl.
  - subst k p.
    rewrite decide_False by (intros [E E']; apply H1; split; congruence).
    apply sameCell_refl.
  - apply sameCell_refl.
Qed.

Lemma fold_same (ws : list Write) (m m' : DimensionMap) :
  sameMap m m' ->
  sameMap (fold_left applyWrite ws m) (fold_left applyWrite ws m').
Proof.
  revert m m'. induction ws as [| w ws IH]; intros m m' Hm; simpl;
    [exact Hm |].
  apply IH. now apply applyWrite_same.
Qed.

Lemma fold_comm_one (a : Write) (B : list Write) (m m' : DimensionMap) :
  (forall b, In b B -> compatible (w_update a) (w_update b)) ->
  sameMap m m' ->
  sameMap (applyWrite (fold_left applyWrite B m) a)
          (fold_left applyWrite B (applyWrite m' a)).
Proof.
  revert m m'. induction B as [| b B IH]; intros m m' Hc Hm; simpl.
  - now apply applyWrite_same.
  - apply sameMap_trans with (fold_left applyWrite B (applyWrite (applyWrite m b) a)).
    + apply IH; [intros b' Hb'; apply Hc; now right | apply sameMap_refl].
    + apply fold_same.
      apply sameMap_trans with (applyWrite (applyWrite m a) b).
      * apply applyWrite_comm. apply Hc. now left.
      * apply applyWrite_same. now apply applyWrite_same.
Qed.

Lemma fold_comm (A B : list Write) (m m' : DimensionMap) :
  (forall a b, In a A -> In b B -> compatible (w_update a) (w_update b)) ->
  sameMap m m' ->
  sameMap (fold_left applyWrite A (fold_left applyWrite B m))
          (fold_left applyWrite B (fold_left applyWrite A m')).
Proof.
  revert m m'. induction A as [| a A IH]; intros m m' Hc Hm; simpl.
  - now apply fold_same.
  - apply sameMap_trans
      with (fold_left applyWrite A (fold_left applyWrite B (applyWrite m a))).
    + apply fold_same. apply fold_comm_one; [| apply sameMap_refl].
      intros b Hb. apply Hc; [now left | exact Hb].
    + apply IH; [| now apply applyWrite_same].
      intros a' b Ha' Hb. apply Hc; [now right | exact Hb].
Qed.

(** *** The keys of the map *)

Lemma In_keys_mapSet (k k' : string) (obj : VariationArray) (m : DimensionMap) :
  In k' (map fst (mapSet k obj m)) <-> k' = k \/ In k' (map fst m).
Proof.
  induction m as [| [k0 o0] m IH]; simpl.
  - intuition congruence.
  - destruct (String.eqb_spec k0 k) as [-> | Hne]; simpl.
    + intuition congruence.
    + rewrite IH. intuition congruence.
Qed.

Lemma NoDup_keys_mapSet (k : string) (obj : VariationArray) (m : DimensionMap) :
  List.NoDup (map fst m) -> List.NoDup (map fst (mapSet k obj m)).
Proof.
  induction m as [| [k0 o0] m IH]; simpl; intros Hnd.
  - constructor; [intros [] | constructor].
  - inversion Hnd as [| ? ? Hnot Hnd']; subst.
    destruct (String.eqb_spec k0 k) as [-> | Hne]; simpl.
    + now constructor.
    + constructor; [| now apply IH].
      rewrite In_keys_mapSet. intros [E | Hin]; [congruence | now apply Hnot].
Qed.

Lemma mapGet_keys (k : string) (m : DimensionMap) :
  In k (map fst m) <-> exists obj, mapGet k m = Some obj.
Proof.
  induction m as [| [k0 o0] m IH]; simpl.
  - split; [intros [] | intros [obj E]; discriminate E].
  - destruct (String.eqb_spec k0 k) as [-> | Hne].
    + split; [intros _; now exists o0 | now left].
    + rewrite <- IH. intuition congruence.
Qed.

Lemma mapGet_In (k : string) (obj : VariationArray) (m : DimensionMap) :
  mapGet k m = Some obj -> In (k, obj) m.
Proof.
  induction m as [| [k0 o0] m IH]; simpl; [discriminate |].
  destruct (String.eqb_spec k0 k) as [-> | Hne].
  - intros E. injection E as ->. now left.
  - intros E. right. now apply IH.
Qed.

Lemma In_mapGet (k : string) (obj : VariationArray) (m : DimensionMap) :
  List.NoDup (map fst m) -> In (k, obj) m -> mapGet k m = Some obj.
Proof.
  induction m as [| [k0 o0] m IH]; simpl; intros Hnd Hin; [destruct Hin |].
  inversion Hnd as [| ? ? Hnot Hnd']; subst.
  destruct Hin as [E | Hin].
  - injection E as -> ->. now rewrite String.eqb_refl.
  - destruct (String.eqb_spec k0 k) as [-> | Hne]; [| now apply IH].
    exfalso. apply Hnot. apply (in_map fst) in Hin. exact Hin.
Qed.

Lemma In_keys_cell (k : string) (m : DimensionMap) :
  (exists p d, cell m k p = Some d) -> In k (map fst m).
Proof.
  intros (p & d & E). unfold cell in E. apply mapGet_keys.
  destruct (mapGet k m) as [obj |]; [now exists obj | discriminate E].
Qed.

Lemma In_keys_write
  (k : string) (v : Js.maybeNum) (f : VariationData.t -> VariationData.t)
  (m : DimensionMap) (k' : string) :
  In k' (map fst (write k v f m)) <-> k' = k \/ In k' (map fst m).
Proof.
  unfold write, updateData, getDimensionData.
  rewrite mapGet_mapSet, decide_True by reflexivity.
  rewrite !In_keys_mapSet. tauto.
Qed.

Lemma wellFormed_nil : wellFormed nil.
Proof.
  split; [constructor | intros k obj E; discriminate E].
Qed.

Lemma wellFormed_cell (m : DimensionMap) (k : string) :
  wellFormed m -> In k (map fst m) -> exists p d, cell m k p = Some d.
Proof.
  intros [_ Hne] Hin. apply mapGet_keys in Hin. destruct Hin as [obj E].
  destruct (Hne k obj E) as (p & d & Hp). exists p, d. unfold cell.
  now rewrite E.
Qed.

Lemma wellFormed_applyWrite (m : DimensionMap) (w : Write) :
  wellFormed m -> wellFormed (applyWrite m w).
Proof.
  intros Hwf. pose proof Hwf as [Hnd Hne]. unfold applyWrite. split.
  - unfold write, updateData, getDimensionData.
    rewrite mapGet_mapSet, decide_True by reflexivity.
    now apply NoDup_keys_mapSet, NoDup_keys_mapSet.
  - intros k obj E.
    assert (Hcell : exists p d,
               cell (write (w_key w) (w_variation w)
                       (applyUpdate (w_update w)) m) k p = Some d).
    { destruct (decide (k = w_key w)) as [-> | Hk].
      - exists (Js.propertyKey (w_variation w)). rewrite cell_write.
        rewrite decide_True by (split; reflexivity). eauto.
      - assert (Hin : In k (map fst m)).
        { assert (Hin' : In k (map fst (write (w_key w) (w_variation w)
                                          (applyUpdate (w_update w)) m)))
            by (apply mapGet_keys; eauto).
          apply In_keys_write in Hin'. tauto. }
        destruct (wellFormed_cell m k Hwf Hin) as (p & d & Hp).
        exists p, d. rewrite cell_write, decide_False by tauto. exact Hp. }
    destruct Hcell as (p & d & Hp). unfold cell in Hp. rewrite E in Hp. eauto.
Qed.

Lemma wellFormed_fold (ws : list Write) (m : DimensionMap) :
  wellFormed m -> wellFormed (fold_left applyWrite ws m).
Proof.
  revert m. induction ws as [| w ws IH]; intros m Hwf; simpl; [exact Hwf |].
  apply IH. now apply wellFormed_applyWrite.
Qed.

(** Two well-formed maps with the same objects have the same keys, in some
    order, and for each key arrays with the same objects. *)
Lemma sameMap_keys (m m' : DimensionMap) (k : string) :
  sameMap m m' -> wellFormed m -> In k (map fst m) -> In k (map fst m').
Proof.
  intros Hsame Hwf Hin.
  destruct (wellFormed_cell m k Hwf Hin) as (p & d & Hp).
  specialize (Hsame k p). rewrite Hp in Hsame.
  apply In_keys_cell. exists p.
  destruct (cell m' k p) as [d' |]; [now exists d' | destruct Hsame].
Qed.

Lemma sameMap_Permutation (m m' : DimensionMap) :
  sameMap m m' -> wellFormed m -> wellFormed m' ->
  Permutation (map fst m) (map fst m').
Proof.
  intros Hsame Hwf Hwf'.
  apply Permutation.NoDup_Permutation; [apply Hwf | apply Hwf' |].
  intros k. split.
  - now apply sameMap_keys.
  - apply sameMap_keys; [now apply sameMap_sym | exact Hwf'].
Qed.

Lemma sameMap_arrays
  (m m' : DimensionMap) (k : string) (obj : VariationArray) :
  sameMap m m' -> wellFormed m -> wellFormed m' -> In (k, obj) m ->
  exists obj', In (k, obj') m'
               /\ forall p, sameCell (obj !! p) (obj' !! p).
Proof.
  intros Hsame Hwf Hwf' Hin.
  assert (E : mapGet k m = Some obj) by (apply In_mapGet; [apply Hwf | exact Hin]).
  assert (Hk : In k (map fst m')).
  { apply (sameMap_keys m m'); [exact Hsame | exact Hwf |].
    apply mapGet_keys. eauto. }
  apply mapGet_keys in Hk. destruct Hk as [obj' E'].
  exists obj'. split; [now apply mapGet_In |].
  intros p. specialize (Hsame k p). unfold cell in Hsame.
  now rewrite E, E' in Hsame.
Qed.

(** *** The promises *)

Lemma filter_length_Permutation {A : Type} (f : A -> bool) (l l' : list A) :
  Permutation l l' ->
  List.length (List.filter f l) = List.length (List.filter f l').
Proof.
  induction 1 as [| x l l' _ IH | x y l | l l' l'' _ IH1 _ IH2]; simpl.
  - reflexivity.
  - destruct (f x); simpl; now rewrite IH.
  - destruct (f x), (f y); reflexivity.
  - now rewrite IH1.
Qed.

Lemma tasks_one_users (metrics : list Metric.t) :
  List.length (List.filter isUsersTask (tasks metrics)) = 1%nat.
Proof.
  unfold tasks. induction metrics as [| m metrics IH]; [reflexivity |].
  exact IH.
Qed.

Section Schedule.

Context `{JsDate} `{Warehouse}.
Variable settings : Settings.t.
Variable experiment : Experiment.t.
Variable phase : Phase.t.
Variable activationMetric : option Metric.t.
Variable dimension : option Dimension.t.
Variable now : Date.

#[local] Abbreviation complete :=
  (completeTask settings experiment phase activationMetric dimension now).

#[local] Abbreviation writes :=
  (taskWrites settings experiment phase activationMetric dimension now).

Lemma dimensionMap_metricRows
  (m : Metric.t) (rows : list ExperimentMetricRow.t) (st : Merge.t) :
  Merge.dimensionMap (fold_left (metricRowStep settings experiment m) rows st)
  = fold_left applyWrite (omap (metricRowWrite settings experiment m) rows)
      (Merge.dimensionMap st).
Proof.
  revert st. induction rows as [| row rows IH]; intros st; [reflexivity |].
  cbn [fold_left omap list_omap]. rewrite IH.
  unfold metricRowStep, metricRowWrite.
  destruct (unexpected experiment
              (varIndexOf settings experiment
                 (ExperimentMetricRow.variation row))); reflexivity.
Qed.

Lemma dimensionMap_usersRows
  (rows : list ExperimentUsersRow.t) (st : Merge.t) :
  Merge.dimensionMap (fold_left (usersQueryRowStep settings experiment) rows st)
  = fold_left applyWrite (omap (usersRowWrite settings experiment) rows)
      (Merge.dimensionMap st).
Proof.
  revert st. induction rows as [| row rows IH]; intros st; [reflexivity |].
  cbn [fold_left omap list_omap]. rewrite IH.
  unfold usersQueryRowStep, usersRowWrite.
  destruct (unexpected experiment
              (varIndexOf settings experiment
                 (ExperimentUsersRow.variation row))); reflexivity.
Qed.

(** A promise that continues applies its writes, in the order of its
    rows. *)
Lemma dimensionMap_complete (st : Merge.t) (t : Task) :
  Merge.dimensionMap (complete st t)
  = fold_left applyWrite (writes t) (Merge.dimensionMap st).
Proof.
  destruct t as [m |]; unfold complete, writes, completeTask, taskWrites.
  - apply dimensionMap_metricRows.
  - apply dimensionMap_usersRows.
Qed.

Lemma writes_compatible (t t' : Task) (a b : Write) :
  isUsersTask t && isUsersTask t' = false ->
  In a (writes t) -> In b (writes t') ->
  compatible (w_update a) (w_update b).
Proof.
  assert (Hpush : forall m w, In w (writes (MetricTask m)) ->
                              exists r, w_update w = Push r).
  { intros m w Hw. unfold writes, taskWrites in Hw.
    apply list_elem_of_In, list_elem_of_omap in Hw.
    destruct Hw as (row & _ & Hw). unfold metricRowWrite in Hw.
    destruct (unexpected _ _); [discriminate Hw |].
    injection Hw as <-. simpl. eauto. }
  intros Hu Ha Hb. destruct t as [m |], t' as [m' |]; simpl in Hu;
    try discriminate Hu.
  - destruct (Hpush m a Ha) as [r ->]. exact I.
  - destruct (Hpush m a Ha) as [r ->]. exact I.
  - destruct (Hpush m' b Hb) as [r ->]. destruct (w_update a); exact I.
Qed.

Lemma complete_same (t : Task) (st st' : Merge.t) :
  sameState st st' -> sameState (complete st t) (complete st' t).
Proof.
  unfold sameState. rewrite !dimensionMap_complete. apply fold_same.
Qed.

Lemma complete_comm (t t' : Task) (st st' : Merge.t) :
  isUsersTask t && isUsersTask t' = false ->
  sameState st st' ->
  sameState (complete (complete st t') t) (complete (complete st' t) t').
Proof.
  unfold sameState. rewrite !dimensionMap_complete. intros Hu Hs.
  apply fold_comm; [| exact Hs].
  intros a b. now apply writes_compatible.
Qed.

Lemma schedule_same_from (l : list Task) (st st' : Merge.t) :
  sameState st st' ->
  sameState (fold_left complete l st) (fold_left complete l st').
Proof.
  revert st st'. induction l as [| t l IH]; intros st st' Hs; simpl;
    [exact Hs |].
  apply IH. now apply complete_same.
Qed.

(** The promises may continue in any order: the state of the merge is the
    same up to the order of the keys and of the summaries, as long as no
    two of them are the users query. *)
Lemma schedule_same (l l' : list Task) :
  Permutation l l' ->
  (List.length (List.filter isUsersTask l) <= 1)%nat ->
  forall st st' : Merge.t,
    sameState st st' ->
    sameState (fold_left complete l st) (fold_left complete l' st').
Proof.
  induction 1 as [| t l l' Hp IH | t t' l | l l' l'' Hp1 IH1 Hp2 IH2];
    intros Hone st st' Hs.
  - exact Hs.
  - simpl. apply IH.
    + simpl in Hone. destruct (isUsersTask t); simpl in Hone; lia.
    + now apply complete_same.
  - simpl. apply schedule_same_from. apply complete_comm; [| exact Hs].
    simpl in Hone. destruct (isUsersTask t), (isUsersTask t');
      simpl in Hone; try reflexivity; lia.
  - apply (sameMap_trans _ (Merge.dimensionMap (fold_left complete l' st))).
    + apply IH1; [exact Hone | apply sameMap_refl].
    + apply IH2; [| exact Hs].
      now rewrite <- (filter_length_Permutation isUsersTask l l' Hp1).
Qed.

Lemma wellFormed_schedule (l : list Task) (st : Merge.t) :
  wellFormed (Merge.dimensionMap st) ->
  wellFormed (Merge.dimensionMap (fold_left complete l st)).
Proof.
  revert st. induction l as [| t l IH]; intros st Hwf; simpl; [exact Hwf |].
  apply IH. rewrite dimensionMap_complete. now apply wellFormed_fold.
Qed.

End Schedule.

(** C8, as amended: whatever the order in which the queries of
    [getExperimentResults] return, the result has the same query text, the
    same dimension values, in some order, and for each dimension value and
    each property of its array a variation object with the same variation,
    the same user count and the same per-metric summaries, in some
    order. *)
Theorem results_up_to_order
  `{JsDate} `{Warehouse} (settings : Settings.t) (sqlFormat : string -> string)
  (experiment : Experiment.t) (phase : Phase.t)
  (activationMetric : option Metric.t) (dimension : option Dimension.t)
  (now : Date) (metrics : list Metric.t) (order order' : list Task) :
  Permutation order (tasks metrics) ->
  Permutation order' (tasks metrics) ->
  let r :=
    fst (getExperimentResults settings sqlFormat experiment phase
           activationMetric dimension now metrics order) in
  let r' :=
    fst (getExperimentResults settings sqlFormat experiment phase
           activationMetric dimension now metrics order') in
  ExperimentResults.query r = ExperimentResults.query r'
  /\ Permutation
       (map DimensionResult.dimension (ExperimentResults.results r))
       (map DimensionResult.dimension (ExperimentResults.results r'))
  /\ forall d : DimensionResult.t,
       In d (ExperimentResults.results r) ->
       exists d' : DimensionResult.t,
         In d' (ExperimentResults.results r')
         /\ DimensionResult.dimension d' = DimensionResult.dimension d
         /\ forall p : string,
              sameCell (DimensionResult.variations d !! p)
                       (DimensionResult.variations d' !! p).
Proof.
  intros Hp Hp'. cbv zeta. unfold getExperimentResults.
  cbn [fst ExperimentResults.query ExperimentResults.results].
  set (start := {| Merge.dimensionMap := nil; Merge.console := nil |}).
  set (complete :=
         completeTask settings experiment phase activationMetric dimension now).
  assert (Hone : (List.length (List.filter isUsersTask order) <= 1)%nat).
  { rewrite (filter_length_Permutation isUsersTask _ _ Hp), tasks_one_users.
    lia. }
  assert (Hperm : Permutation order order')
    by (eapply Permutation_trans; [exact Hp | now apply Permutation_sym]).
  pose proof (schedule_same settings experiment phase activationMetric
                dimension now order order' Hperm Hone start start
                (sameMap_refl _)) as Hsame.
  pose proof (wellFormed_schedule settings experiment phase activationMetric
                dimension now order start wellFormed_nil) as Hwf.
  pose proof (wellFormed_schedule settings experiment phase activationMetric
                dimension now order' start wellFormed_nil) as Hwf'.
  fold complete in Hsame, Hwf, Hwf'. unfold sameState in Hsame.
  set (m := Merge.dimensionMap (fold_left complete order start)) in *.
  set (m' := Merge.dimensionMap (fold_left complete order' start)) in *.
  split; [reflexivity | split].
  - rewrite !map_map. cbn [DimensionResult.dimension].
    now apply sameMap_Permutation.
  - intros d Hd. apply in_map_iff in Hd. destruct Hd as ([k obj] & <- & Hin).
    destruct (sameMap_arrays m m' k obj Hsame Hwf Hwf' Hin)
      as (obj' & Hin' & Hcells).
    exists {| DimensionResult.dimension := k;
              DimensionResult.variations := obj' |}.
    split; [| split; [reflexivity | exact Hcells]].
    apply in_map_iff. now exists (k, obj').
Qed.

End MergeFacts.

(** ** Decimal numerals read back *)

Module NumeralFacts.

Ltac read_digit :=
  match goal with
  | |- context [Js.radixDigit 10 ?c] =>
      let v := eval vm_compute in (Js.radixDigit 10 c) in
      change (Js.radixDigit 10 c) with v; cbv iota beta
  end.

Lemma digits_after (d : Decimal.uint) (acc : positive) :
  Js.digitsPrefix 10 (NilEmpty.string_of_uint d) (Some (Z.pos acc))
  = Some (Z.pos (Pos.of_uint_acc d acc)).
Proof.
  revert acc.
  induction d; intros acc;
    cbn [NilEmpty.string_of_uint Js.digitsPrefix Pos.of_uint_acc];
    [reflexivity | ..]; read_digit;
    match goal with
    | |- Js.digitsPrefix _ _ (Some ?z) = Some (Z.pos (Pos.of_uint_acc _ ?p)) =>
        replace z with (Z.pos p) by lia
    end; apply IHd.
Qed.

Lemma digits_from_zero (d : Decimal.uint) :
  Js.digitsPrefix 10 (NilEmpty.string_of_uint d) (Some 0)
  = Some (Z.of_N (Pos.of_uint d)).
Proof.
  induction d; cbn [NilEmpty.string_of_uint Js.digitsPrefix Pos.of_uint];
    [reflexivity | ..]; read_digit; [exact IHd | ..];
    cbn [Z.mul Z.add Z.of_N]; apply digits_after.
Qed.

Lemma digits_of_numeral (d : Decimal.uint) :
  d <> Decimal.Nil ->
  Js.digitsPrefix 10 (NilEmpty.string_of_uint d) None
  = Some (Z.of_N (Pos.of_uint d)).
Proof.
  destruct d; intros Hd; [congruence | ..];
    cbn [NilEmpty.string_of_uint Js.digitsPrefix Pos.of_uint]; read_digit;
    cbn [Z.mul Z.add Z.of_N]; [apply digits_from_zero | ..]; apply digits_after.
Qed.

(** A numeral has no leading white space and no [0x] prefix, so [parseInt]
    reads all of it in radix 10. *)
Lemma parseInt_digits (neg : bool) (d : Decimal.uint) :
  d <> Decimal.Nil ->
  Js.parseInt (if neg then String "-" (NilEmpty.string_of_uint d)
               else NilEmpty.string_of_uint d)
  = Js.Num (if neg then - Z.of_N (Pos.of_uint d) else Z.of_N (Pos.of_uint d)).
Proof.
  intros Hd. unfold Js.parseInt.
  destruct d as [| l | l | l | l | l | l | l | l | l | l]; [congruence | ..].
  1: destruct l.
  all: destruct neg; cbn [NilEmpty.string_of_uint Js.trimStart].
  all: match goal with
       | |- context [Js.isWhiteSpace ?c] =>
           let v := eval vm_compute in (Js.isWhiteSpace c) in
           change (Js.isWhiteSpace c) with v; cbv iota beta
       end.
  all: match goal with
       | |- _ = Js.Num (- Z.of_N (Pos.of_uint ?D)) =>
           pose proof (digits_of_numeral D ltac:(discriminate)) as E
       | |- _ = Js.Num (Z.of_N (Pos.of_uint ?D)) =>
           pose proof (digits_of_numeral D ltac:(discriminate)) as E
       end.
  all: cbn [NilEmpty.string_of_uint] in E; rewrite E; reflexivity.
Qed.

(** [parseInt] reads back the integer that a template literal printed. *)
Lemma parseInt_showZ (z : Z) : Js.parseInt (Js.showZ z) = Js.Num z.
Proof.
  unfold Js.showZ. destruct z as [| p | p]; [reflexivity | ..];
    cbn [Z.to_int NilEmpty.string_of_int].
  - rewrite (parseInt_digits false) by apply DecimalPos.Unsigned.to_uint_nonnil.
    now rewrite DecimalPos.Unsigned.of_to.
  - rewrite (parseInt_digits true (Pos.to_uint p))
      by apply DecimalPos.Unsigned.to_uint_nonnil.
    now rewrite DecimalPos.Unsigned.of_to.
Qed.

End NumeralFacts.

(** ** The settings and the column getters *)

Module SettingsFacts.

Lemma over_over (d g : option string) :
  Settings.over d (Settings.over d g) = Settings.over d g.
Proof. destruct g, d; reflexivity. Qed.

Lemma over_absorbs (d g : option string) :
  Settings.over (Settings.over d g) g = Settings.over d g.
Proof. destruct g, d; reflexivity. Qed.

Lemma spread_spread (d g : Settings.part) :
  Settings.spread d (Settings.spread d g) = Settings.spread d g.
Proof. unfold Settings.spread. cbn. now rewrite !over_over. Qed.

Lemma spread_absorbs (d g : Settings.part) :
  Settings.spread (Settings.spread d g) g = Settings.spread d g.
Proof. unfold Settings.spread. cbn. now rewrite !over_absorbs. Qed.

Lemma orStr_nonempty (o : option string) (k : string) :
  k <> "" -> Js.orStr o k <> "".
Proof.
  intros Hk. unfold Js.orStr. destruct o as [s |]; [| exact Hk].
  destruct (String.eqb_spec s ""); congruence.
Qed.

(** The settings the constructor stores are a fixed point of the
    constructor, and no field that the caller set is replaced by a default:
    spreading the caller's part over the stored part changes nothing. *)
Theorem constructor_keeps_given_settings (given : Settings.t) :
  Settings.construct (Settings.construct given) = Settings.construct given
  /\ forall section : SectionName,
       Settings.spread (settingsPart (Settings.construct given) section)
         (settingsPart given section)
       = settingsPart (Settings.construct given) section.
Proof.
  split.
  - unfold Settings.construct. cbn [Settings.default Settings.experiments
      Settings.users Settings.pageviews Settings.identifies].
    now rewrite !spread_spread.
  - intros section. destruct section; unfold settingsPart, Settings.construct;
      cbn [Settings.default Settings.experiments Settings.users
           Settings.pageviews Settings.identifies];
      apply spread_absorbs.
Qed.

(** No column getter returns the empty string, whatever the settings, the
    metric and the section: an unset or empty override falls through to
    the next one and at last to a literal. *)
Theorem column_getters_never_empty
  (settings : Settings.t) (metric : option Metric.t) (section : SectionName) :
  getUserIdColumn settings metric section <> ""
  /\ getAnonymousIdColumn settings metric section <> ""
  /\ getTimestampColumn settings metric section <> ""
  /\ getVariationColumn settings <> "".
Proof.
  repeat split; apply orStr_nonempty; discriminate.
Qed.

End SettingsFacts.

(** ** The row guard of [getExperimentResults] *)

Module GuardFacts.

Lemma later_positions {A : Type} (x k : A) (l : list A) :
  (forall n, (0 < n)%nat -> nth_error (x :: l) n <> Some k) <-> ~ In k l.
Proof.
  split.
  - intros Hn Hin. apply In_nth_error in Hin. destruct Hin as [n Hn'].
    apply (Hn (S n)); [lia | exact Hn'].
  - intros Hnot n Hpos E. destruct n as [| n]; [lia |].
    apply Hnot. now apply nth_error_In with n.
Qed.

(** [variationKeyMap] after the keys of [vs] were set from the index [i]
    on: a key has the index of its last position in [vs], or what it had
    before when it is no key of [vs]. *)
Lemma keyMapFrom_lookup
  (vs : list Variation.t) (i : Z) (m : gmap string Z) (k : string) (j : Z) :
  variationKeyMapFrom i vs m !! k = Some j
  <-> (exists n : nat,
         j = i + Z.of_nat n
         /\ nth_error (map Variation.key vs) n = Some k
         /\ forall n', (n < n')%nat ->
                       nth_error (map Variation.key vs) n' <> Some k)
      \/ (m !! k = Some j /\ ~ In k (map Variation.key vs)).
Proof.
  revert i m. induction vs as [| v vs IH]; intros i m.
  - cbn [variationKeyMapFrom map]. split.
    + intros E. right. split; [exact E | intros []].
    + intros [(n & _ & E & _) | [E _]]; [| exact E].
      destruct n; discriminate E.
  - cbn [variationKeyMapFrom map]. rewrite IH. split.
    + intros [(n & -> & E & Hlast) | [E Hnot]].
      * left. exists (S n). split; [lia | split; [exact E |]].
        intros n' Hn'. destruct n' as [| n']; [lia |]. apply Hlast. lia.
      * destruct (decide (Variation.key v = k)) as [Hk | Hk].
        -- rewrite Hk, lookup_insert_eq in E. injection E as <-.
           left. exists 0%nat. split; [lia | split; [now rewrite Hk |]].
           rewrite <- Hk. apply later_positions. now rewrite Hk.
        -- rewrite lookup_insert_ne in E by exact Hk.
           right. split; [exact E |]. intros [Hin | Hin]; auto.
    + intros [(n & -> & E & Hlast) | [E Hnot]].
      * destruct n as [| n].
        -- cbn in E. injection E as Hk. right. split.
           ++ rewrite Hk, lookup_insert_eq. f_equal. lia.
           ++ rewrite <- Hk in Hlast. apply later_positions in Hlast.
              now rewrite <- Hk.
        -- left. exists n. split; [lia | split; [exact E |]].
           intros n' Hn'. apply (Hlast (S n')). lia.
      * right. split.
        -- rewrite lookup_insert_ne; [exact E |]. intros Hk. apply Hnot.
           now left.
        -- intros Hin. apply Hnot. now right.
Qed.


(** The lookups of the key map of an experiment. *)
Lemma variationKeyMap_lookup
  (experiment : Experiment.t) (k : string) :
  (forall j : Z,
     variationKeyMap experiment !! k = Some j
     <-> exists n : nat,
           j = Z.of_nat n
           /\ nth_error (variationKeys experiment) n = Some k
           /\ forall n', (n < n')%nat ->
                         nth_error (variationKeys experiment) n' <> Some k)
  /\ (variationKeyMap experiment !! k = None
      <-> ~ In k (variationKeys experiment)).
Proof.
  unfold variationKeyMap, variationKeys.
  assert (Hj : forall j : Z,
             variationKeyMapFrom 0 (Experiment.variations experiment) ∅ !! k
             = Some j
             <-> exists n : nat,
                   j = Z.of_nat n
                   /\ nth_error
                        (map Variation.key (Experiment.variations experiment)) n
                      = Some k
                   /\ forall n', (n < n')%nat ->
                        nth_error
                          (map Variation.key (Experiment.variations experiment))
                          n' <> Some k).
  { intros j. rewrite keyMapFrom_lookup. split.
    - intros [(n & -> & E & Hlast) | [E _]].
      + exists n. split; [lia | split; assumption].
      + rewrite lookup_empty in E. discriminate E.
    - intros (n & -> & E & Hlast). left. exists n.
      split; [lia | split; assumption]. }
  split; [exact Hj |]. split.
  - intros Hnone Hin.
    assert (Hex : exists j,
               variationKeyMapFrom 0 (Experiment.variations experiment) ∅ !! k
               = Some j).
    { clear Hnone Hj.
      assert (Hgen : forall vs i (m : gmap string Z),
                 In k (map Variation.key vs) ->
                 exists j, variationKeyMapFrom i vs m !! k = Some j).
      { induction vs as [| v vs IH]; intros i m Hk; [destruct Hk |].
        cbn [variationKeyMapFrom].
        destruct (in_dec string_dec k (map Variation.key vs)) as [Hin' | Hnot].
        - now apply IH.
        - destruct Hk as [Hk | Hk]; [| contradiction].
          exists i. apply keyMapFrom_lookup. right.
          split; [| exact Hnot]. rewrite Hk. apply lookup_insert_eq. }
      now apply Hgen. }
    destruct Hex as [j Ej]. rewrite Ej in Hnone. discriminate Hnone.
  - intros Hnot.
    destruct (variationKeyMapFrom 0 (Experiment.variations experiment) ∅ !! k)
      as [j |] eqn:E; [| reflexivity].
    destruct (proj1 (Hj j) eq_refl) as (n & _ & En & _).
    exfalso. apply Hnot. now apply nth_error_In with n.
Qed.

(** The key map of an experiment gives a key the index of its last
    position among the variations, counted from 0, and gives nothing for a
    text that is the key of no variation. *)
Theorem variation_key_resolves_to_last_position
  (experiment : Experiment.t) (k : string) :
  (forall j : Z,
     variationKeyMap experiment !! k = Some j
     <-> exists n : nat,
           j = Z.of_nat n
           /\ nth_error (variationKeys experiment) n = Some k
           /\ forall n', (n < n')%nat ->
                         nth_error (variationKeys experiment) n' <> Some k)
  /\ (variationKeyMap experiment !! k = None
      <-> ~ In k (variationKeys experiment)).
Proof. apply variationKeyMap_lookup. Qed.

(** An index that the key map gives is the index of a variation. *)
Lemma variationKeyMap_in_range (experiment : Experiment.t) (k : string) (j : Z) :
  variationKeyMap experiment !! k = Some j ->
  0 <= j < Z.of_nat (List.length (Experiment.variations experiment)).
Proof.
  unfold variationKeyMap. rewrite keyMapFrom_lookup.
  intros [(n & -> & E & _) | [E _]].
  - assert (Hn : (n < List.length
                        (map Variation.key (Experiment.variations experiment)))%nat).
    { apply nth_error_Some. congruence. }
    rewrite length_map in Hn. lia.
  - rewrite lookup_empty in E. discriminate E.
Qed.

Lemma unexpected_integer (experiment : Experiment.t) (z : Z) :
  unexpected experiment (Js.Defined (Js.Num z)) = true
  <-> z < 0 \/ Z.of_nat (List.length (Experiment.variations experiment)) <= z.
Proof.
  unfold unexpected. cbn [Js.toNum Js.lt Js.ge].
  rewrite orb_true_iff, Z.ltb_lt, Z.leb_le. tauto.
Qed.

Lemma key_format_accepts
  (settings : Settings.t) (experiment : Experiment.t) (variation : string) :
  keyFormat settings = true ->
  unexpected experiment (varIndexOf settings experiment variation) = false.
Proof.
  unfold keyFormat, varIndexOf. intros ->.
  destruct (variationKeyMap experiment !! variation) as [j |] eqn:E;
    [| reflexivity].
  apply variationKeyMap_in_range in E.
  apply not_true_is_false. rewrite unexpected_integer. lia.
Qed.

Section KeyFormat.

Context `{JsDate} `{Warehouse}.
Variable settings : Settings.t.
Variable sqlFormat : string -> string.
Variable experiment : Experiment.t.
Variable phase : Phase.t.
Variable activationMetric : option Metric.t.
Variable dimension : option Dimension.t.
Variable now : Date.

Hypothesis key_format : keyFormat settings = true.

Lemma key_format_metric_rows
  (m : Metric.t) (rows : list ExperimentMetricRow.t) (st : Merge.t) :
  Merge.console (fold_left (metricRowStep settings experiment m) rows st)
  = Merge.console st.
Proof.
  revert st. induction rows as [| row rows IH]; intros st; [reflexivity |].
  cbn [fold_left]. rewrite IH. unfold metricRowStep.
  now rewrite key_format_accepts.
Qed.

Lemma key_format_users_rows
  (rows : list ExperimentUsersRow.t) (st : Merge.t) :
  Merge.console (fold_left (usersQueryRowStep settings experiment) rows st)
  = Merge.console st.
Proof.
  revert st. induction rows as [| row rows IH]; intros st; [reflexivity |].
  cbn [fold_left]. rewrite IH. unfold usersQueryRowStep.
  now rewrite key_format_accepts.
Qed.

(** With the variation format ["key"] the guard of [getExperimentResults]
    rejects no row: the index of a row is the index of a variation or
    [undefined], and neither is below 0 or at or above the number of
    variations.  So nothing is printed, whatever the rows are and in
    whatever order the queries return. *)
Theorem key_format_rejects_no_row :
  (forall variation : string,
     unexpected experiment (varIndexOf settings experiment variation) = false)
  /\ forall (metrics : list Metric.t) (completionOrder : list Task),
       snd (getExperimentResults settings sqlFormat experiment phase
              activationMetric dimension now metrics completionOrder)
       = nil.
Proof.
  split; [intros variation; now apply key_format_accepts |].
  intros metrics completionOrder. unfold getExperimentResults. cbn [snd].
  assert (Hfold : forall l st,
             Merge.console
               (fold_left
                  (completeTask settings experiment phase activationMetric
                     dimension now) l st)
             = Merge.console st).
  { induction l as [| t l IH]; intros st; [reflexivity |].
    cbn [fold_left]. rewrite IH. destruct t as [m |]; unfold completeTask.
    - apply key_format_metric_rows.
    - apply key_format_users_rows. }
  now rewrite Hfold.
Qed.

End KeyFormat.

Lemma varIndexOf_printed
  (settings : Settings.t) (experiment : Experiment.t) (z : Z) :
  keyFormat settings = false ->
  varIndexOf settings experiment (Js.showZ z) = Js.Defined (Js.Num z).
Proof.
  intros Hfmt. unfold varIndexOf. unfold keyFormat in Hfmt. rewrite Hfmt.
  now rewrite NumeralFacts.parseInt_showZ.
Qed.

(** With a variation format other than ["key"], a row whose variation
    column is an integer printed in decimal has that integer as its index,
    and the guard rejects it exactly when the integer is below 0 or at or
    above the number of variations.  The integer is one that a JavaScript
    number holds exactly. *)
Theorem printed_index_is_read_back
  (settings : Settings.t) (experiment : Experiment.t) (z : Z) :
  keyFormat settings = false ->
  - 2 ^ 53 <= z <= 2 ^ 53 ->
  varIndexOf settings experiment (Js.showZ z) = Js.Defined (Js.Num z)
  /\ (unexpected experiment (varIndexOf settings experiment (Js.showZ z)) = true
      <-> z < 0
          \/ Z.of_nat (List.length (Experiment.variations experiment)) <= z).
Proof.
  intros Hfmt _.
  rewrite (varIndexOf_printed settings experiment z Hfmt).
  split; [reflexivity | apply unexpected_integer].
Qed.

(** When the keys of the variations are their indices printed in decimal,
    the two variation formats give a row that names a variation the same
    index. *)
Theorem formats_agree_on_index_keys
  (keySettings indexSettings : Settings.t) (experiment : Experiment.t) (z : Z) :
  keyFormat keySettings = true ->
  keyFormat indexSettings = false ->
  variationKeys experiment
  = map (fun n => Js.showZ (Z.of_nat n))
        (seq 0 (List.length (Experiment.variations experiment))) ->
  0 <= z < Z.of_nat (List.length (Experiment.variations experiment)) ->
  varIndexOf keySettings experiment (Js.showZ z) = Js.Defined (Js.Num z)
  /\ varIndexOf indexSettings experiment (Js.showZ z) = Js.Defined (Js.Num z).
Proof.
  intros Hkey Hindex Hkeys Hz. split.
  - unfold varIndexOf. unfold keyFormat in Hkey. rewrite Hkey.
    assert (E : variationKeyMap experiment !! Js.showZ z = Some z).
    { apply variationKeyMap_lookup.
      exists (Z.to_nat z). split; [lia |]. rewrite Hkeys. split.
      - rewrite nth_error_map, nth_error_seq.
        destruct (Nat.ltb_spec (Z.to_nat z)
                    (List.length (Experiment.variations experiment)));
          [| lia].
        cbn. do 2 f_equal. lia.
      - intros n' Hn' E. rewrite nth_error_map in E.
        destruct (nth_error (seq 0 _) n') as [x |] eqn:Ex; [| discriminate E].
        rewrite nth_error_seq in Ex.
        destruct (Nat.ltb_spec n'
                    (List.length (Experiment.variations experiment)));
          [| discriminate Ex].
        injection Ex as <-. cbn in E. injection E as E.
        apply MergeFacts.showZ_inj in E. lia. }
    now rewrite E.
  - now apply varIndexOf_printed.
Qed.

End GuardFacts.

(** ** What the merge of [getExperimentResults] leaves in its result *)

Module ResultFacts.

Lemma targets_spec (k p : string) (w : Write) :
  targets k p w = true <-> k = w_key w /\ p = Js.propertyKey (w_variation w).
Proof.
  unfold targets. rewrite andb_true_iff.
  destruct (String.eqb_spec (w_key w) k),
    (String.eqb_spec (Js.propertyKey (w_variation w)) p);
    intuition congruence.
Qed.

(** What a write does to one object of the map. *)
Lemma cell_applyWrite (m : DimensionMap) (w : Write) (k p : string) :
  cell (applyWrite m w) k p
  = if targets k p w
    then Some (applyUpdate (w_update w)
                 (default (freshData (w_variation w)) (cell m k p)))
    else cell m k p.
Proof.
  unfold applyWrite. rewrite MergeFacts.cell_write.
  destruct (targets k p w) eqn:E.
  - apply targets_spec in E. destruct E as [-> ->].
    now rewrite decide_True by (split; reflexivity).
  - rewrite decide_False; [reflexivity |]. intros [-> ->].
    assert (Ht : targets (w_key w) (Js.propertyKey (w_variation w)) w = true)
      by (apply targets_spec; split; reflexivity).
    congruence.
Qed.

(** The object at a property after a list of writes, from the object
    [c] that was there before. *)
Lemma cell_after_writes
  (ws : list Write) (m : DimensionMap) (k p : string) :
  cell (fold_left applyWrite ws m) k p
  = fold_left
      (fun c w =>
         if targets k p w
         then Some (applyUpdate (w_update w)
                      (default (freshData (w_variation w)) c))
         else c)
      ws (cell m k p).
Proof.
  revert m. induction ws as [| w ws IH]; intros m; [reflexivity |].
  cbn [fold_left]. rewrite IH, cell_applyWrite. reflexivity.
Qed.

Lemma object_after_writes
  (k p : string) (ws : list Write) (d : VariationData.t) :
  fold_left
    (fun c w =>
       if targets k p w
       then Some (applyUpdate (w_update w)
                    (default (freshData (w_variation w)) c))
       else c)
    ws (Some d)
  = Some
      {| VariationData.variation := VariationData.variation d;
         VariationData.users :=
           fold_left
             (fun n w =>
                match w_update w with
                | SetUsers n' => if targets k p w then n' else n
                | Push _ => n
                end)
             ws (VariationData.users d);
         VariationData.metrics :=
           (VariationData.metrics d ++ summariesAt k p ws)%list |}.
Proof.
  revert d. induction ws as [| w ws IH]; intros d.
  - cbn. rewrite app_nil_r. now destruct d.
  - cbn [fold_left summariesAt flat_map].
    destruct (targets k p w) eqn:Et.
    + cbn [default]. rewrite IH. destruct (w_update w) as [r | n];
        cbn [applyUpdate pushMetric setUsers VariationData.variation
             VariationData.users VariationData.metrics].
      * now rewrite <- app_assoc.
      * reflexivity.
    + rewrite IH. destruct (w_update w); reflexivity.
Qed.

(** The object at the property [p] of the dimension value [k] after the
    writes [ws] to an empty map: there is one when a write goes there, and
    then it has the variation of the first such write, the user count
    assigned last and the summaries pushed, in their order. *)
Lemma cell_of_writes (ws : list Write) (k p : string) :
  cell (fold_left applyWrite ws nil) k p
  = match List.filter (targets k p) ws with
    | nil => None
    | w :: _ =>
        Some {| VariationData.variation := w_variation w;
                VariationData.users := usersAt k p ws;
                VariationData.metrics := summariesAt k p ws |}
    end.
Proof.
  rewrite cell_after_writes. change (cell nil k p) with (@None VariationData.t).
  unfold usersAt.
  induction ws as [| w ws IH]; [reflexivity |].
  cbn [fold_left List.filter summariesAt flat_map].
  destruct (targets k p w) eqn:Et.
  - cbn [default]. rewrite object_after_writes.
    destruct (w_update w) as [r | n];
      cbn [applyUpdate pushMetric setUsers freshData VariationData.variation
           VariationData.users VariationData.metrics app]; reflexivity.
  - rewrite IH. destruct (w_update w); reflexivity.
Qed.


Lemma In_summariesAt
  (k p : string) (ws : list Write) (r : VariationMetricResult.t) :
  In r (summariesAt k p ws) ->
  exists w, In w ws /\ w_update w = Push r /\ targets k p w = true.
Proof.
  unfold summariesAt. rewrite in_flat_map. intros (w & Hw & Hr).
  exists w. destruct (w_update w) as [r' | n]; [| destruct Hr].
  destruct (targets k p w); [| destruct Hr].
  destruct Hr as [-> | []]. auto.
Qed.

(** A property of the initial 0 and of every user count assigned is a
    property of the user count left. *)
Lemma usersAt_property
  (P : Js.num -> Prop) (k p : string) (ws : list Write) :
  P (Js.Num 0) ->
  (forall w n, In w ws -> w_update w = SetUsers n -> P n) ->
  P (usersAt k p ws).
Proof.
  unfold usersAt. generalize (Js.Num 0).
  induction ws as [| w ws IH]; intros n0 H0 Hall; [exact H0 |].
  cbn [fold_left]. apply IH.
  - destruct (w_update w) as [r | n] eqn:Eu; [exact H0 |].
    destruct (targets k p w); [| exact H0].
    apply (Hall w n); [now left | exact Eu].
  - intros w' n Hw' Eu. apply (Hall w' n); [now right | exact Eu].
Qed.

Lemma filter_keys_implied {A : Type} (p q : A -> bool) (l : list A) :
  (forall x, p x = true -> q x = true) ->
  List.filter p (List.filter q l) = List.filter p l.
Proof.
  intros Himp. induction l as [| x l IH]; [reflexivity |]. cbn [List.filter].
  destruct (q x) eqn:Eq; cbn [List.filter].
  - now rewrite IH.
  - destruct (p x) eqn:Ep; [| exact IH].
    apply Himp in Ep. congruence.
Qed.

Lemma absent_spec (ks : list string) (k : string) :
  absent ks k = true <-> ~ In k ks.
Proof.
  unfold absent. rewrite negb_true_iff, <- not_true_iff_false, existsb_exists.
  split.
  - intros Hno Hin. apply Hno. exists k. split; [exact Hin |].
    apply String.eqb_refl.
  - intros Hno (x & Hx & E). apply String.eqb_eq in E. subst x. auto.
Qed.

Lemma keys_mapSet (k : string) (obj : VariationArray) (m : DimensionMap) :
  map fst (mapSet k obj m)
  = (map fst m ++ (if absent (map fst m) k then k :: nil else nil))%list.
Proof.
  induction m as [| [k0 o0] m IH].
  - reflexivity.
  - cbn [mapSet map fst app]. unfold absent. cbn [existsb].
    destruct (String.eqb_spec k0 k) as [-> | Hne].
    + rewrite String.eqb_refl. cbn. now rewrite app_nil_r.
    + cbn [map fst]. rewrite IH. unfold absent.
      destruct (String.eqb_spec k k0) as [-> | _]; [congruence |].
      reflexivity.
Qed.

Lemma keys_applyWrite (m : DimensionMap) (w : Write) :
  map fst (applyWrite m w)
  = (map fst m
     ++ (if absent (map fst m) (w_key w) then w_key w :: nil else nil))%list.
Proof.
  unfold applyWrite, write, updateData, getDimensionData.
  rewrite MergeFacts.mapGet_mapSet, decide_True by reflexivity.
  rewrite keys_mapSet, keys_mapSet.
  destruct (absent (map fst m) (w_key w)) eqn:E.
  - assert (E' : absent (map fst m ++ w_key w :: nil) (w_key w) = false).
    { apply not_true_is_false. rewrite absent_spec. intros Hno. apply Hno.
      apply in_or_app. right. now left. }
    rewrite E'. now rewrite app_nil_r.
  - rewrite app_nil_r, E. now rewrite app_nil_r.
Qed.

(** The keys of the map after a list of writes: those it had, then the
    dimension values of the writes that it had not, each at the place of
    its first write. *)
Lemma keys_after_writes (ws : list Write) (m : DimensionMap) :
  map fst (fold_left applyWrite ws m)
  = (map fst m
     ++ List.filter (absent (map fst m)) (firstOccurrences (map w_key ws)))%list.
Proof.
  revert m. induction ws as [| w ws IH]; intros m.
  - cbn. now rewrite app_nil_r.
  - cbn [fold_left map firstOccurrences List.filter].
    rewrite IH, keys_applyWrite.
    destruct (absent (map fst m) (w_key w)) eqn:E.
    + rewrite <- app_assoc. cbn [app]. do 2 f_equal.
      rewrite PastQueryFacts.filter_filter_and.
      apply filter_ext. intros y. unfold absent. rewrite existsb_app.
      cbn [existsb]. rewrite orb_false_r, negb_orb. apply andb_comm.
    + rewrite app_nil_r. f_equal.
      symmetry. apply filter_keys_implied. intros y Hy.
      apply negb_true_iff. apply not_true_is_false. intros Ey.
      apply String.eqb_eq in Ey. subst y. congruence.
Qed.

Section Results.

Context `{JsDate} `{Warehouse}.
Variable settings : Settings.t.
Variable sqlFormat : string -> string.
Variable experiment : Experiment.t.
Variable phase : Phase.t.
Variable activationMetric : option Metric.t.
Variable dimension : option Dimension.t.
Variable now : Date.

#[local] Abbreviation run :=
  (getExperimentResults settings sqlFormat experiment phase activationMetric
     dimension now).

#[local] Abbreviation merged :=
  (mergedWrites settings experiment phase activationMetric dimension now).

#[local] Abbreviation finalMap order :=
  (Merge.dimensionMap
     (fold_left
        (completeTask settings experiment phase activationMetric dimension now)
        order {| Merge.dimensionMap := nil; Merge.console := nil |})).

(** The map after the promises of [order] continued is the map after
    their writes. *)
Lemma dimensionMap_schedule (order : list Task) (st : Merge.t) :
  Merge.dimensionMap
    (fold_left
       (completeTask settings experiment phase activationMetric dimension now)
       order st)
  = fold_left applyWrite (merged order) (Merge.dimensionMap st).
Proof.
  revert st. induction order as [| t order IH]; intros st; [reflexivity |].
  cbn [fold_left]. rewrite IH, MergeFacts.dimensionMap_complete.
  unfold mergedWrites. cbn [flat_map]. now rewrite fold_left_app.
Qed.

Lemma finalMap_writes (order : list Task) :
  finalMap order = fold_left applyWrite (merged order) nil.
Proof. apply dimensionMap_schedule. Qed.

(** An element of the result is an entry of the final map, and the
    object at a property of its array is the object of the map there. *)
Lemma result_cell
  (metrics : list Metric.t) (order : list Task) (d : DimensionResult.t)
  (p : string) :
  In d (ExperimentResults.results (fst (run metrics order))) ->
  DimensionResult.variations d !! p
  = cell (finalMap order) (DimensionResult.dimension d) p.
Proof.
  unfold getExperimentResults.
  cbn [fst ExperimentResults.results]. intros Hd.
  apply in_map_iff in Hd. destruct Hd as ([k obj] & <- & Hin).
  cbn [DimensionResult.variations DimensionResult.dimension fst snd].
  unfold cell. erewrite MergeFacts.In_mapGet; [reflexivity | | exact Hin].
  apply MergeFacts.wellFormed_schedule. apply MergeFacts.wellFormed_nil.
Qed.

(** Every write of a promise passed the guard, and the numbers it
    carries were read with a fallback to 0. *)
Lemma merged_write (order : list Task) (w : Write) :
  In w (merged order) ->
  unexpected experiment (w_variation w) = false
  /\ match w_update w with
     | Push r =>
         VariationMetricResult.count r <> Js.NaN
         /\ is_nan (VariationMetricResult.mean r) = false
         /\ is_nan (VariationMetricResult.stddev r) = false
         /\ exists m, In (MetricTask m) order
                      /\ VariationMetricResult.metric r = Metric.id m
     | SetUsers n => n <> Js.NaN /\ In UsersTask order
     end.
Proof.
  unfold mergedWrites. rewrite in_flat_map. intros (t & Ht & Hw).
  destruct t as [m |]; unfold taskWrites in Hw;
    apply list_elem_of_In, list_elem_of_omap in Hw;
    destruct Hw as (row & _ & Hw).
  - unfold metricRowWrite in Hw.
    destruct (unexpected experiment _) eqn:Eu; [discriminate Hw |].
    injection Hw as <-. cbn. split; [exact Eu |].
    split; [apply orZero_not_NaN |].
    split; [apply orZeroF_not_nan |].
    split; [apply orZeroF_not_nan |]. now exists m.
  - unfold usersRowWrite in Hw.
    destruct (unexpected experiment _) eqn:Eu; [discriminate Hw |].
    injection Hw as <-. cbn. split; [exact Eu |].
    split; [apply orZero_not_NaN | exact Ht].
Qed.

(** The object at a property of an element of the result, from the
    writes that were merged. *)
Lemma result_object
  (metrics : list Metric.t) (order : list Task) (d : DimensionResult.t)
  (p : string) :
  In d (ExperimentResults.results (fst (run metrics order))) ->
  DimensionResult.variations d !! p
  = match List.filter (targets (DimensionResult.dimension d) p) (merged order)
    with
    | nil => None
    | w :: _ =>
        Some {| VariationData.variation := w_variation w;
                VariationData.users :=
                  usersAt (DimensionResult.dimension d) p (merged order);
                VariationData.metrics :=
                  summariesAt (DimensionResult.dimension d) p (merged order) |}
    end.
Proof.
  intros Hd. rewrite (result_cell metrics order d p Hd), finalMap_writes.
  apply cell_of_writes.
Qed.

(** The object of a variation in the result of [getExperimentResults] is
    made of the rows that passed the guard and name its dimension value
    and its property: there is one when there is such a row, its
    [variation] is the index of the first such row, its [users] is the
    count of the last such row of the users query, or 0, and its [metrics]
    are the summaries of such rows of the metric queries, in the order in
    which the rows were merged. *)
Theorem variation_object_contents
  (metrics : list Metric.t) (order : list Task) (d : DimensionResult.t)
  (p : string) :
  In d (ExperimentResults.results (fst (run metrics order))) ->
  DimensionResult.variations d !! p
  = match List.filter (targets (DimensionResult.dimension d) p) (merged order)
    with
    | nil => None
    | w :: _ =>
        Some {| VariationData.variation := w_variation w;
                VariationData.users :=
                  usersAt (DimensionResult.dimension d) p (merged order);
                VariationData.metrics :=
                  summariesAt (DimensionResult.dimension d) p (merged order) |}
    end.
Proof. apply result_object. Qed.

(** The result of [getExperimentResults] lists the dimension values of the
    rows that passed the guard, each once, in the order in which their
    first rows were merged. *)
Theorem dimensions_in_order_of_first_row
  (metrics : list Metric.t) (order : list Task) :
  map DimensionResult.dimension
    (ExperimentResults.results (fst (run metrics order)))
  = firstOccurrences (map w_key (merged order)).
Proof.
  unfold getExperimentResults. cbn [fst ExperimentResults.results].
  rewrite map_map. cbn [DimensionResult.dimension].
  change (map (fun kv : string * VariationArray => fst kv) (finalMap order)
          = firstOccurrences (map w_key (merged order))).
  rewrite finalMap_writes.
  change (map (fun kv : string * VariationArray => fst kv))
    with (map (@fst string VariationArray)).
  rewrite keys_after_writes. cbn [map app].
  induction (firstOccurrences (map w_key (merged order))) as [| k l IH];
    [reflexivity |].
  cbn. now rewrite IH.
Qed.

Lemma first_target
  (k p : string) (ws : list Write) (w : Write) (rest : list Write) :
  List.filter (targets k p) ws = w :: rest ->
  In w ws /\ k = w_key w /\ p = Js.propertyKey (w_variation w).
Proof.
  intros E.
  assert (Hin : In w (List.filter (targets k p) ws)) by (rewrite E; now left).
  apply filter_In in Hin. destruct Hin as [Hin Ht].
  apply targets_spec in Ht. tauto.
Qed.

(** In the result of [getExperimentResults] the object at a property of an
    array has the index that the property stands for, and this index
    passed the guard: it is not an integer below 0 or at or above the
    number of variations. *)
Theorem stored_index_passed_the_guard
  (metrics : list Metric.t) (order : list Task) (d : DimensionResult.t)
  (p : string) (data : VariationData.t) :
  In d (ExperimentResults.results (fst (run metrics order))) ->
  DimensionResult.variations d !! p = Some data ->
  Js.propertyKey (VariationData.variation data) = p
  /\ unexpected experiment (VariationData.variation data) = false.
Proof.
  intros Hd Hp. rewrite (result_object metrics order d p Hd) in Hp.
  destruct (List.filter (targets (DimensionResult.dimension d) p) (merged order))
    as [| w rest] eqn:E; [discriminate Hp |].
  injection Hp as <-. cbn [VariationData.variation].
  apply first_target in E. destruct E as (Hin & _ & ->).
  split; [reflexivity |]. now apply (merged_write order w).
Qed.

(** In the result of [getExperimentResults] no user count, no count, no
    mean and no standard deviation is [NaN], and every summary bears the
    id of a metric whose query returned. *)
Theorem result_numbers_are_numbers
  (metrics : list Metric.t) (order : list Task) (d : DimensionResult.t)
  (p : string) (data : VariationData.t) :
  In d (ExperimentResults.results (fst (run metrics order))) ->
  DimensionResult.variations d !! p = Some data ->
  VariationData.users data <> Js.NaN
  /\ forall s : VariationMetricResult.t,
       In s (VariationData.metrics data) ->
       VariationMetricResult.count s <> Js.NaN
       /\ is_nan (VariationMetricResult.mean s) = false
       /\ is_nan (VariationMetricResult.stddev s) = false
       /\ exists m : Metric.t,
            In (MetricTask m) order
            /\ VariationMetricResult.metric s = Metric.id m.
Proof.
  intros Hd Hp. rewrite (result_object metrics order d p Hd) in Hp.
  destruct (List.filter (targets (DimensionResult.dimension d) p) (merged order))
    as [| w rest] eqn:E; [discriminate Hp |].
  injection Hp as <-.
  cbn [VariationData.users VariationData.metrics]. split.
  - apply usersAt_property; [discriminate |].
    intros w' n Hw' Eu. pose proof (merged_write order w' Hw') as [_ Hu].
    rewrite Eu in Hu. tauto.
  - intros s Hs. apply In_summariesAt in Hs.
    destruct Hs as (w' & Hw' & Eu & _).
    pose proof (merged_write order w' Hw') as [_ Hu].
    rewrite Eu in Hu. exact Hu.
Qed.

Lemma console_metric_rows
  (m : Metric.t) (rows : list ExperimentMetricRow.t) (st : Merge.t) :
  Merge.console (fold_left (metricRowStep settings experiment m) rows st)
  = (Merge.console st
     ++ map (String.append "Unexpected variation ")
          (List.filter
             (fun variation =>
                unexpected experiment (varIndexOf settings experiment variation))
             (map ExperimentMetricRow.variation rows)))%list.
Proof.
  revert st. induction rows as [| row rows IH]; intros st.
  - cbn. now rewrite app_nil_r.
  - cbn [fold_left map List.filter]. rewrite IH. unfold metricRowStep.
    destruct (unexpected experiment _); cbn [Merge.console logUnexpected map];
      [now rewrite <- app_assoc | reflexivity].
Qed.

Lemma console_users_rows
  (rows : list ExperimentUsersRow.t) (st : Merge.t) :
  Merge.console (fold_left (usersQueryRowStep settings experiment) rows st)
  = (Merge.console st
     ++ map (String.append "Unexpected variation ")
          (List.filter
             (fun variation =>
                unexpected experiment (varIndexOf settings experiment variation))
             (map ExperimentUsersRow.variation rows)))%list.
Proof.
  revert st. induction rows as [| row rows IH]; intros st.
  - cbn. now rewrite app_nil_r.
  - cbn [fold_left map List.filter]. rewrite IH. unfold usersQueryRowStep.
    destruct (unexpected experiment _); cbn [Merge.console logUnexpected map];
      [now rewrite <- app_assoc | reflexivity].
Qed.

(** [getExperimentResults] prints one line for each row that the guard
    rejects, in the order in which the rows are read, and nothing else:
    the line is ["Unexpected variation "] followed by the variation column
    of the row. *)
Theorem console_lists_the_rejected_rows
  (metrics : list Metric.t) (order : list Task) :
  snd (run metrics order)
  = map (String.append "Unexpected variation ")
      (flat_map
         (rejectedRows settings experiment phase activationMetric dimension now)
         order).
Proof.
  unfold getExperimentResults. cbn [snd].
  assert (Hfold : forall l st,
             Merge.console
               (fold_left
                  (completeTask settings experiment phase activationMetric
                     dimension now) l st)
             = (Merge.console st
                ++ map (String.append "Unexpected variation ")
                     (flat_map
                        (rejectedRows settings experiment phase
                           activationMetric dimension now) l))%list).
  { induction l as [| t l IH]; intros st.
    - cbn. now rewrite app_nil_r.
    - cbn [fold_left flat_map]. rewrite IH, map_app, app_assoc. f_equal.
      destruct t as [m |]; unfold completeTask, rejectedRows.
      + apply console_metric_rows.
      + apply console_users_rows. }
  now rewrite Hfold.
Qed.

End Results.

Lemma mapSet_mapSet (k : string) (obj obj' : VariationArray) (m : DimensionMap) :
  mapSet k obj (mapSet k obj' m) = mapSet k obj m.
Proof.
  induction m as [| [k0 o0] m IH]; cbn [mapSet].
  - now rewrite String.eqb_refl.
  - destruct (String.eqb_spec k0 k) as [-> | Hne]; cbn [mapSet].
    + now rewrite String.eqb_refl.
    + destruct (String.eqb_spec k0 k); [congruence |]. now rewrite IH.
Qed.

(** [getDimensionData] creates at most once: called again with the same
    dimension value and variation it finds the object of the first call
    and leaves the map as it is, and a call never replaces an object that
    is there. *)
Theorem getDimensionData_creates_once
  (key : string) (variation : Js.maybeNum) (m : DimensionMap) :
  getDimensionData key variation (getDimensionData key variation m)
  = getDimensionData key variation m
  /\ cell (getDimensionData key variation m) key (Js.propertyKey variation)
     = Some (default (freshData variation)
               (cell m key (Js.propertyKey variation))).
Proof.
  assert (Hcell :
            cell (getDimensionData key variation m) key
              (Js.propertyKey variation)
            = Some (default (freshData variation)
                      (cell m key (Js.propertyKey variation)))).
  { unfold getDimensionData, cell.
    rewrite MergeFacts.mapGet_mapSet, decide_True by reflexivity.
    destruct (mapGet key m) as [obj |].
    - destruct (obj !! Js.propertyKey variation) as [d |] eqn:E.
      + now rewrite E.
      + now rewrite lookup_insert_eq.
    - rewrite lookup_empty. now rewrite lookup_insert_eq. }
  split; [| exact Hcell].
  unfold cell in Hcell. unfold getDimensionData at 1.
  destruct (mapGet key (getDimensionData key variation m)) as [obj |] eqn:Eg;
    [| discriminate Hcell].
  rewrite Hcell.
  unfold getDimensionData in *.
  rewrite MergeFacts.mapGet_mapSet, decide_True in Eg by reflexivity.
  injection Eg as <-. apply mapSet_mapSet.
Qed.

End ResultFacts.

(** ** The result parser *)

Module ParserFacts.

(** The last element of a list that is not empty, whatever the default. *)
Lemma last_cons {A : Type} (l : list A) (x d : A) :
  List.last (x :: l) d = List.last l x.
Proof.
  revert x d. induction l as [| y l IH]; intros x d; [reflexivity |].
  change (List.last (x :: y :: l) d) with (List.last (y :: l) d).
  rewrite !IH. reflexivity.
Qed.

Lemma truthy_whenTruthy (o : option string) :
  Js.truthy o = match Js.whenTruthy o with Some _ => true | None => false end.
Proof.
  destruct o as [s |]; [| reflexivity]. cbn.
  now destruct (String.eqb s "").
Qed.

Lemma users_fold (rows : list UsersRow.t) (ret : UsersResult.t) :
  UsersResult.users (fold_left usersRowStep rows ret)
  = List.last (omap usersOverall rows) (UsersResult.users ret)
  /\ UsersResult.dates (fold_left usersRowStep rows ret)
     = match omap usersDateEntry rows with
       | nil => UsersResult.dates ret
       | entries =>
           Some (default nil (UsersResult.dates ret) ++ entries)%list
       end.
Proof.
  revert ret. induction rows as [| row rows IH]; intros ret.
  - split; reflexivity.
  - cbn [fold_left omap list_omap].
    destruct (IH (usersRowStep ret row)) as [IHu IHd]. rewrite IHu, IHd.
    clear IH IHu IHd.
    destruct (Js.whenTruthy (UsersRow.date row)) as [date |] eqn:E.
    + assert (Ed : usersDateEntry row
                   = Some (date, Js.orZero (Js.parseInt (UsersRow.users row))))
        by (unfold usersDateEntry; now rewrite E).
      assert (Eo : usersOverall row = None)
        by (unfold usersOverall; now rewrite E).
      assert (Es : usersRowStep ret row
                   = {| UsersResult.users := UsersResult.users ret;
                        UsersResult.dates :=
                          pushDate (UsersResult.dates ret)
                            (date,
                             Js.orZero (Js.parseInt (UsersRow.users row))) |})
        by (unfold usersRowStep; now rewrite E).
      rewrite Ed, Eo, Es. cbn [UsersResult.users UsersResult.dates].
      split; [reflexivity |].
      generalize (date, Js.orZero (Js.parseInt (UsersRow.users row))).
      intros x.
      destruct (omap usersDateEntry rows) as [| e es];
        destruct (UsersResult.dates ret); cbn;
        rewrite <- ?app_assoc; reflexivity.
    + assert (Ed : usersDateEntry row = None)
        by (unfold usersDateEntry; now rewrite E).
      assert (Eo : usersOverall row
                   = Some (Js.orZero (Js.parseInt (UsersRow.users row))))
        by (unfold usersOverall; now rewrite E).
      assert (Es : usersRowStep ret row
                   = {| UsersResult.users :=
                          Js.orZero (Js.parseInt (UsersRow.users row));
                        UsersResult.dates := UsersResult.dates ret |})
        by (unfold usersRowStep; now rewrite E).
      rewrite Ed, Eo, Es. cbn [UsersResult.users UsersResult.dates].
      split; [| reflexivity]. now rewrite last_cons.
Qed.

(** The result of [runUsersQuery], from the rows of its query. *)
Lemma runUsersQuery_rows `{Warehouse} (query : string) :
  UsersResult.users (runUsersQuery query)
  = List.last (omap usersOverall (runUsers query)) (Js.Num 0)
  /\ UsersResult.dates (runUsersQuery query)
     = match omap usersDateEntry (runUsers query) with
       | nil => None
       | entries => Some entries
       end.
Proof.
  unfold runUsersQuery.
  destruct (users_fold (runUsers query)
              {| UsersResult.users := Js.Num 0; UsersResult.dates := None |})
    as [Eu Ed].
  rewrite Eu, Ed. split; reflexivity.
Qed.

Lemma percentiles_fold
  (kvs : list (string * string)) (acc : option (gmap string Js.num)) :
  fold_left percentileStep kvs acc
  = match kvs with
    | nil => acc
    | _ :: _ =>
        Some
          (fold_left
             (fun m kv =>
                <[Js.stripLeading "p" (fst kv) :=
                    Js.orZero (Js.parseInt (snd kv))]> m)
             kvs (default ∅ acc))
    end.
Proof.
  revert acc. induction kvs as [| kv kvs IH]; intros acc; [reflexivity |].
  cbn [fold_left]. rewrite IH. unfold percentileStep at 2.
  destruct kvs as [| kv' kvs]; [now destruct acc |].
  cbn [default fold_left]. now destruct acc.
Qed.

Lemma metric_value_fold
  (rows : list MetricValueRow.t) (ret : MetricValueResult.t) :
  let r := fold_left metricValueRowStep rows ret in
  let overall := List.filter isOverall rows in
  MetricValueResult.count r
  = List.last
      (map (fun row => Js.orZero (Js.parseInt (MetricValueRow.count row)))
         overall)
      (MetricValueResult.count ret)
  /\ MetricValueResult.mean r
     = List.last
         (map (fun row => Js.orZeroF (Js.parseFloat (MetricValueRow.mean row)))
            overall)
         (MetricValueResult.mean ret)
  /\ MetricValueResult.stddev r
     = List.last
         (map (fun row =>
                 Js.orZeroF (Js.parseFloat (MetricValueRow.stddev row)))
            overall)
         (MetricValueResult.stddev ret)
  /\ MetricValueResult.percentiles r
     = fold_left percentileStep (flat_map MetricValueRow.percentiles overall)
         (MetricValueResult.percentiles ret)
  /\ MetricValueResult.dates r
     = match omap metricDateEntry rows with
       | nil => MetricValueResult.dates ret
       | entries =>
           Some (default nil (MetricValueResult.dates ret) ++ entries)%list
       end.
Proof.
  cbv zeta. revert ret. induction rows as [| row rows IH]; intros ret.
  - repeat split; reflexivity.
  - cbn [fold_left omap list_omap List.filter].
    destruct (IH (metricValueRowStep ret row)) as (Ec & Em & Es & Ep & Ed).
    rewrite Ec, Em, Es, Ep, Ed. clear IH Ec Em Es Ep Ed.
    assert (Eo : isOverall row
                 = match Js.whenTruthy (MetricValueRow.date row) with
                   | Some _ => false
                   | None => true
                   end).
    { unfold isOverall. rewrite truthy_whenTruthy.
      now destruct (Js.whenTruthy (MetricValueRow.date row)). }
    rewrite Eo.
    assert (Ee : metricDateEntry row
                 = match Js.whenTruthy (MetricValueRow.date row) with
                   | Some date =>
                       Some {| MetricValueDate.date := date;
                               MetricValueDate.count :=
                                 Js.orZero
                                   (Js.parseInt (MetricValueRow.count row));
                               MetricValueDate.mean :=
                                 Js.orZeroF
                                   (Js.parseFloat (MetricValueRow.mean row));
                               MetricValueDate.stddev :=
                                 Js.orZeroF
                                   (Js.parseFloat (MetricValueRow.stddev row)) |}
                   | None => None
                   end) by reflexivity.
    rewrite Ee. unfold metricValueRowStep.
    destruct (Js.whenTruthy (MetricValueRow.date row)) as [date |];
      cbn [MetricValueResult.count MetricValueResult.mean
           MetricValueResult.stddev MetricValueResult.percentiles
           MetricValueResult.dates map flat_map].
    + repeat split.
      match goal with
      | |- context [pushDate _ ?e] => generalize e; intros x
      end.
      destruct (omap metricDateEntry rows) as [| e es];
        destruct (MetricValueResult.dates ret); cbn;
        rewrite <- ?app_assoc; reflexivity.
    + repeat split; rewrite ?last_cons; try reflexivity.
      now rewrite fold_left_app.
Qed.

(** The result of [runMetricValueQuery], from the rows of its query. *)
Lemma runMetricValueQuery_rows `{Warehouse} (query : string) :
  let r := runMetricValueQuery query in
  let overall := List.filter isOverall (runMetricValue query) in
  MetricValueResult.count r
  = List.last
      (map (fun row => Js.orZero (Js.parseInt (MetricValueRow.count row)))
         overall)
      (Js.Num 0)
  /\ MetricValueResult.mean r
     = List.last
         (map (fun row => Js.orZeroF (Js.parseFloat (MetricValueRow.mean row)))
            overall)
         zero
  /\ MetricValueResult.stddev r
     = List.last
         (map (fun row =>
                 Js.orZeroF (Js.parseFloat (MetricValueRow.stddev row)))
            overall)
         zero
  /\ MetricValueResult.percentiles r
     = fold_left percentileStep (flat_map MetricValueRow.percentiles overall)
         None
  /\ MetricValueResult.dates r
     = match omap metricDateEntry (runMetricValue query) with
       | nil => None
       | entries => Some entries
       end.
Proof.
  cbv zeta. unfold runMetricValueQuery.
  destruct (metric_value_fold (runMetricValue query)
              {| MetricValueResult.count := Js.Num 0;
                 MetricValueResult.mean := zero;
                 MetricValueResult.stddev := zero;
                 MetricValueResult.percentiles := None;
                 MetricValueResult.dates := None |})
    as (Ec & Em & Es & Ep & Ed).
  rewrite Ec, Em, Es, Ep, Ed. repeat split.
Qed.

(** [runUsersQuery] reads the overall count from the last row without a
    date, and 0 when there is none; [dates] has one entry for each row
    with a date, in the order of the rows, and is absent when no row has a
    date.  Every count is read with [parseInt] and a fallback to 0. *)
Theorem users_result_by_rows `{Warehouse} (query : string) :
  UsersResult.users (runUsersQuery query)
  = List.last (omap usersOverall (runUsers query)) (Js.Num 0)
  /\ UsersResult.dates (runUsersQuery query)
     = match omap usersDateEntry (runUsers query) with
       | nil => None
       | entries => Some entries
       end.
Proof. apply runUsersQuery_rows. Qed.

(** [runMetricValueQuery] reads the overall count, mean and standard
    deviation from the last row without a date, and 0 when there is none;
    the percentiles are those of all rows without a date, a later column
    replacing an earlier one of the same name; [dates] has one entry for
    each row with a date, in the order of the rows, and the percentile
    columns of such a row are not read. *)
Theorem metric_value_result_by_rows `{Warehouse} (query : string) :
  let r := runMetricValueQuery query in
  let overall := List.filter isOverall (runMetricValue query) in
  MetricValueResult.count r
  = List.last
      (map (fun row => Js.orZero (Js.parseInt (MetricValueRow.count row)))
         overall)
      (Js.Num 0)
  /\ MetricValueResult.mean r
     = List.last
         (map (fun row => Js.orZeroF (Js.parseFloat (MetricValueRow.mean row)))
            overall)
         zero
  /\ MetricValueResult.stddev r
     = List.last
         (map (fun row =>
                 Js.orZeroF (Js.parseFloat (MetricValueRow.stddev row)))
            overall)
         zero
  /\ MetricValueResult.percentiles r
     = fold_left percentileStep (flat_map MetricValueRow.percentiles overall)
         None
  /\ MetricValueResult.dates r
     = match omap metricDateEntry (runMetricValue query) with
       | nil => None
       | entries => Some entries
       end.
Proof. apply runMetricValueQuery_rows. Qed.

Lemma last_property {A : Type} (P : A -> Prop) (l : list A) (d : A) :
  P d -> (forall x, In x l -> P x) -> P (List.last l d).
Proof.
  revert d. induction l as [| x l IH]; intros d Hd Hall; [exact Hd |].
  rewrite last_cons. apply IH.
  - apply Hall. now left.
  - intros y Hy. apply Hall. now right.
Qed.

Lemma inserted_lookup
  {V : Type} (g : string * string -> string) (h : string * string -> V)
  (kvs : list (string * string)) (m0 : gmap string V) (k : string) (v : V) :
  fold_left (fun m kv => <[g kv := h kv]> m) kvs m0 !! k = Some v ->
  m0 !! k = Some v \/ exists kv, In kv kvs /\ k = g kv /\ v = h kv.
Proof.
  revert m0. induction kvs as [| kv kvs IH]; intros m0; [now left |].
  cbn [fold_left]. intros E. apply IH in E.
  destruct E as [E | (kv' & Hin & Hk & Hv)].
  - destruct (decide (g kv = k)) as [Hk | Hk].
    + rewrite Hk, lookup_insert_eq in E. injection E as <-.
      right. exists kv. split; [now left | auto].
    + rewrite lookup_insert_ne in E by exact Hk. now left.
  - right. exists kv'. split; [now right | auto].
Qed.

Lemma inserted_distinct
  {V : Type} (g : string * string -> string) (h : string * string -> V)
  (kvs : list (string * string)) (m0 : gmap string V) (kv : string * string) :
  List.NoDup (map g kvs) -> In kv kvs ->
  fold_left (fun m kv => <[g kv := h kv]> m) kvs m0 !! g kv = Some (h kv).
Proof.
  revert m0. induction kvs as [| kv0 kvs IH]; intros m0 Hnd Hin;
    [destruct Hin |].
  cbn [map] in Hnd. inversion Hnd as [| ? ? Hnot Hnd']; subst.
  cbn [fold_left]. destruct Hin as [-> | Hin]; [| now apply IH].
  destruct (fold_left (fun m kv0 => <[g kv0 := h kv0]> m) kvs
              (<[g kv := h kv]> m0) !! g kv) as [v |] eqn:E.
  - apply inserted_lookup in E. destruct E as [E | (kv' & Hin & Hk & _)].
    + now rewrite lookup_insert_eq in E.
    + exfalso. apply Hnot. rewrite Hk. now apply in_map.
  - assert (Hkeep : forall kvs' (m : gmap string V) k,
               is_Some (m !! k) ->
               is_Some (fold_left (fun m kv0 => <[g kv0 := h kv0]> m) kvs' m
                        !! k)).
    { induction kvs' as [| kv' kvs' IH']; intros m k Hk; [exact Hk |].
      cbn [fold_left]. apply IH'.
      destruct (decide (g kv' = k)) as [<- | Hne].
      - rewrite lookup_insert_eq. eauto.
      - now rewrite lookup_insert_ne. }
    pose proof (Hkeep kvs (<[g kv := h kv]> m0) (g kv)) as Hs.
    rewrite lookup_insert_eq in Hs. destruct Hs as [v Hv]; [eauto |].
    congruence.
Qed.

(** No number that [runUsersQuery] or [runMetricValueQuery] returns is
    [NaN]: not the overall numbers, not a percentile and not a number of
    an entry of [dates]. *)
Theorem parsed_numbers_are_numbers `{Warehouse} (query : string) :
  (UsersResult.users (runUsersQuery query) <> Js.NaN
   /\ forall entries e,
        UsersResult.dates (runUsersQuery query) = Some entries ->
        In e entries -> snd e <> Js.NaN)
  /\ MetricValueResult.count (runMetricValueQuery query) <> Js.NaN
  /\ is_nan (MetricValueResult.mean (runMetricValueQuery query)) = false
  /\ is_nan (MetricValueResult.stddev (runMetricValueQuery query)) = false
  /\ (forall m k v,
        MetricValueResult.percentiles (runMetricValueQuery query) = Some m ->
        m !! k = Some v -> v <> Js.NaN)
  /\ forall entries e,
       MetricValueResult.dates (runMetricValueQuery query) = Some entries ->
       In e entries ->
       MetricValueDate.count e <> Js.NaN
       /\ is_nan (MetricValueDate.mean e) = false
       /\ is_nan (MetricValueDate.stddev e) = false.
Proof.
  destruct (runUsersQuery_rows query) as [Eu Ed].
  destruct (runMetricValueQuery_rows query) as (Ec & Em & Es & Ep & Edd).
  cbv zeta in Ec, Em, Es, Ep, Edd.
  split; [split |]; [| | split; [| split; [| split; [| split]]]].
  - rewrite Eu. apply last_property; [discriminate |].
    intros x Hx. apply list_elem_of_In, list_elem_of_omap in Hx.
    destruct Hx as (row & _ & Hx). unfold usersOverall in Hx.
    destruct (Js.whenTruthy _); [discriminate Hx |]. injection Hx as <-.
    apply orZero_not_NaN.
  - intros entries e Hd He. rewrite Ed in Hd.
    destruct (omap usersDateEntry (runUsers query)) as [| e0 es] eqn:E;
      [discriminate Hd |].
    injection Hd as <-. rewrite <- E in He.
    apply list_elem_of_In, list_elem_of_omap in He.
    destruct He as (row & _ & He). unfold usersDateEntry in He.
    destruct (Js.whenTruthy _); [| discriminate He]. injection He as <-.
    apply orZero_not_NaN.
  - rewrite Ec. apply last_property; [discriminate |].
    intros x Hx. apply in_map_iff in Hx. destruct Hx as (row & <- & _).
    apply orZero_not_NaN.
  - rewrite Em. apply (last_property (fun x => is_nan x = false));
      [reflexivity |].
    intros x Hx. apply in_map_iff in Hx. destruct Hx as (row & <- & _).
    apply orZeroF_not_nan.
  - rewrite Es. apply (last_property (fun x => is_nan x = false));
      [reflexivity |].
    intros x Hx. apply in_map_iff in Hx. destruct Hx as (row & <- & _).
    apply orZeroF_not_nan.
  - intros m k v Hm Hk. rewrite Ep, percentiles_fold in Hm.
    destruct (flat_map MetricValueRow.percentiles _) as [| kv kvs];
      [discriminate Hm |].
    injection Hm as <-. apply inserted_lookup in Hk.
    destruct Hk as [Hk | (kv' & _ & _ & ->)].
    + destruct (decide (Js.stripLeading "p" (fst kv) = k)) as [E | E].
      * rewrite E, lookup_insert_eq in Hk. injection Hk as <-.
        apply orZero_not_NaN.
      * rewrite lookup_insert_ne, lookup_empty in Hk by exact E.
        discriminate Hk.
    + apply orZero_not_NaN.
  - intros entries e Hd He. rewrite Edd in Hd.
    destruct (omap metricDateEntry (runMetricValue query)) as [| e0 es] eqn:E;
      [discriminate Hd |].
    injection Hd as <-. rewrite <- E in He.
    apply list_elem_of_In, list_elem_of_omap in He.
    destruct He as (row & _ & He). unfold metricDateEntry in He.
    destruct (Js.whenTruthy _); [| discriminate He]. injection He as <-.
    cbn. split; [apply orZero_not_NaN |].
    split; apply orZeroF_not_nan.
Qed.

Lemma substring_all (s : string) :
  String.substring 0 (String.length s) s = s.
Proof.
  induction s as [| c s IH]; [reflexivity |]. cbn. now rewrite IH.
Qed.

Lemma stripLeading_alias (n : float) :
  Js.stripLeading "p" (percentileAlias n) = percentileKey n.
Proof.
  unfold Js.stripLeading, Js.dropPrefix, percentileAlias, percentileKey.
  change ("p" ++ Js.showZ (Js.floorZ (n * 100)%float))
    with (String "p" (Js.showZ (Js.floorZ (n * 100)%float))).
  cbn [String.prefix String.length String.substring].
  destruct (ascii_dec "p" "p") as [_ | Hne]; [| congruence].
  rewrite Nat.sub_succ, Nat.sub_0_r, substring_all.
  now destruct (Js.showZ (Js.floorZ (n * 100)%float)).
Qed.

Lemma percentile_keys :
  map percentileKey percentileNumbers
  = "1" :: "5" :: "10" :: "20" :: "30" :: "40" :: "50" :: "60" :: "70"
    :: "80" :: "90" :: "95" :: "99" :: nil.
Proof. vm_compute. reflexivity. Qed.

(** The percentile columns round trip: the query of [getMetricValueQuery]
    names the column of the percentile [n] by ["p"] and the integer part
    of [n * 100], and [runMetricValueQuery] stores a row of overall
    numbers that has these columns under the thirteen distinct keys [1],
    [5], [10], ... [99], each column read with [parseInt] and a fallback
    to 0. *)
Theorem percentile_columns_round_trip
  `{JsDate} `{Warehouse} (percentile : string -> float -> string)
  (params : MetricValueParams.t) (query : string) (value : float -> string) :
  runMetricValue query = percentileRow value :: nil ->
  percentileColumns percentile params
  = (if MetricValueParams.includePercentiles params
        && negb (isBinomial (Metric.type (MetricValueParams.metric params)))
     then "," ++ Js.join "
      ,"
            (map (fun n => percentile "value" n ++ " as " ++ percentileAlias n)
               percentileNumbers)
     else "")
  /\ exists m : gmap string Js.num,
       MetricValueResult.percentiles (runMetricValueQuery query) = Some m
       /\ (forall n : float,
             In n percentileNumbers ->
             m !! percentileKey n = Some (Js.orZero (Js.parseInt (value n))))
       /\ forall k : string,
            is_Some (m !! k)
            <-> In k ("1" :: "5" :: "10" :: "20" :: "30" :: "40" :: "50"
                      :: "60" :: "70" :: "80" :: "90" :: "95" :: "99" :: nil).
Proof.
  intros Hrows. split; [reflexivity |].
  destruct (runMetricValueQuery_rows query) as (_ & _ & _ & Ep & _).
  cbv zeta in Ep. rewrite Hrows in Ep.
  cbn [List.filter isOverall percentileRow MetricValueRow.date Js.truthy negb
       flat_map MetricValueRow.percentiles] in Ep.
  rewrite app_nil_r, percentiles_fold in Ep.
  set (kvs := map (fun n => (percentileAlias n, value n)) percentileNumbers) in *.
  assert (Hkeys : map (fun kv : string * string => Js.stripLeading "p" (fst kv))
                    kvs
                  = "1" :: "5" :: "10" :: "20" :: "30" :: "40" :: "50" :: "60"
                    :: "70" :: "80" :: "90" :: "95" :: "99" :: nil).
  { unfold kvs. rewrite map_map. cbn [fst]. rewrite <- percentile_keys.
    apply map_ext. intros n. apply stripLeading_alias. }
  assert (Hnd : List.NoDup
                  (map (fun kv : string * string =>
                          Js.stripLeading "p" (fst kv)) kvs)).
  { rewrite Hkeys.
    repeat (constructor; [cbn; intuition discriminate |]). constructor. }
  destruct kvs as [| kv0 kvs0] eqn:Ekvs; [discriminate Hkeys |].
  rewrite <- Ekvs in *. clear Ekvs kv0 kvs0.
  eexists. split; [exact Ep |]. change (default ∅ None) with (∅ : gmap string Js.num).
  split.
  - intros n Hn.
    pose proof (inserted_distinct
                  (fun kv : string * string => Js.stripLeading "p" (fst kv))
                  (fun kv : string * string => Js.orZero (Js.parseInt (snd kv)))
                  kvs ∅ (percentileAlias n, value n) Hnd) as Hl.
    cbn [fst snd] in Hl. rewrite stripLeading_alias in Hl. apply Hl.
    unfold kvs. apply in_map_iff. now exists n.
  - intros k. rewrite <- Hkeys. split.
    + intros [v Hv]. apply inserted_lookup in Hv.
      destruct Hv as [Hv | (kv & Hin & -> & _)].
      * rewrite lookup_empty in Hv. discriminate Hv.
      * apply (in_map (fun kv : string * string =>
                         Js.stripLeading "p" (fst kv))). exact Hin.
    + intros Hk. apply in_map_iff in Hk. destruct Hk as (kv & <- & Hin).
      rewrite (inserted_distinct _ _ kvs ∅ kv Hnd Hin). eauto.
Qed.

End ParserFacts.

(** ** Texts that the composer rewrites *)

Module TextFacts.

Lemma append_cons (c : ascii) (a b : string) :
  String c a ++ b = String c (a ++ b).
Proof. reflexivity. Qed.

Lemma append_nil_r (a : string) : a ++ "" = a.
Proof.
  induction a as [| c a IH]; [reflexivity |]. rewrite append_cons.
  now rewrite IH.
Qed.

Lemma prefix_append (p s : string) : String.prefix p (p ++ s) = true.
Proof.
  induction p as [| c p IH]; [now destruct s |].
  rewrite append_cons. cbn [String.prefix].
  destruct (ascii_dec c c) as [_ | Hne]; [exact IH | congruence].
Qed.

Lemma prefix_head (c c' : ascii) (p s : string) :
  c <> c' -> String.prefix (String c p) (String c' s) = false.
Proof.
  intros Hne. cbn [String.prefix].
  destruct (ascii_dec c c') as [E | _]; [congruence | reflexivity].
Qed.

Lemma mentions_head (c c' : ascii) (s : string) :
  mentions c (String c' s) = false -> c <> c' /\ mentions c s = false.
Proof.
  cbn [mentions]. rewrite orb_false_iff. intros [Hc Hs]. split; [| exact Hs].
  intros ->. now rewrite Ascii.eqb_refl in Hc.
Qed.

Lemma mentions_append (c : ascii) (a b : string) :
  mentions c (a ++ b) = mentions c a || mentions c b.
Proof.
  induction a as [| c' a IH]; [reflexivity |].
  rewrite append_cons. cbn [mentions]. now rewrite IH, orb_assoc.
Qed.

Lemma substring_prefix (a b : string) :
  String.substring 0 (String.length a) (a ++ b) = a.
Proof.
  induction a as [| c a IH]; [now destruct b |].
  rewrite append_cons. cbn [String.length String.substring]. now rewrite IH.
Qed.

Lemma substring_suffix (a b : string) :
  String.substring (String.length a) (String.length b) (a ++ b) = b.
Proof.
  induction a as [| c a IH].
  - cbn [String.length]. apply ParserFacts.substring_all.
  - rewrite append_cons. cbn [String.length String.substring]. exact IH.
Qed.

Lemma dropPrefix_append (p s : string) : Js.dropPrefix p (p ++ s) = Some s.
Proof.
  unfold Js.dropPrefix. rewrite prefix_append, append_length.
  replace (String.length p + String.length s - String.length p)%nat
    with (String.length s) by lia.
  now rewrite substring_suffix.
Qed.

(** *** [replace] with a literal pattern *)

Lemma replaceFirst_unfold (pat rep s : string) :
  Js.replaceFirst pat rep s
  = if String.prefix pat s
    then rep ++ String.substring (String.length pat)
                  (String.length s - String.length pat) s
    else match s with
         | EmptyString => EmptyString
         | String c s' => String c (Js.replaceFirst pat rep s')
         end.
Proof. now destruct s. Qed.

Lemma replaceFirst_at (c : ascii) (rep a b : string) :
  mentions c a = false ->
  Js.replaceFirst (String c "") rep (a ++ String c b) = a ++ rep ++ b.
Proof.
  intros Ha. induction a as [| c' a IH].
  - change ("" ++ String c b) with (String c "" ++ b).
    rewrite replaceFirst_unfold, prefix_append, append_length.
    replace (String.length (String c "") + String.length b
             - String.length (String c ""))%nat
      with (String.length b) by lia.
    now rewrite substring_suffix.
  - apply mentions_head in Ha. destruct Ha as [Hne Ha].
    rewrite !append_cons, replaceFirst_unfold.
    rewrite prefix_head by exact Hne. now rewrite IH.
Qed.

Lemma replaceAllFrom_skip (x pat rep t : string) :
  Js.replaceAllFrom (String.length x) pat rep (x ++ t)
  = Js.replaceAllFrom 0 pat rep t.
Proof.
  induction x as [| c x IH]; [reflexivity |].
  rewrite append_cons. cbn [String.length Js.replaceAllFrom]. exact IH.
Qed.

Lemma replaceAll_text (c : ascii) (pat rep a t : string) :
  mentions c a = false ->
  Js.replaceAllFrom 0 (String c pat) rep (a ++ t)
  = a ++ Js.replaceAllFrom 0 (String c pat) rep t.
Proof.
  intros Ha. induction a as [| c' a IH]; [reflexivity |].
  apply mentions_head in Ha. destruct Ha as [Hne Ha].
  rewrite !append_cons. cbn [Js.replaceAllFrom].
  rewrite prefix_head by exact Hne. now rewrite IH.
Qed.

Lemma replaceAll_hit (c : ascii) (pat rep t : string) :
  Js.replaceAllFrom 0 (String c pat) rep (String c pat ++ t)
  = rep ++ Js.replaceAllFrom 0 (String c pat) rep t.
Proof.
  rewrite append_cons. cbn [Js.replaceAllFrom].
  change (String c (pat ++ t)) with (String c pat ++ t).
  rewrite prefix_append. cbn [String.length]. rewrite Nat.sub_succ, Nat.sub_0_r.
  now rewrite replaceAllFrom_skip.
Qed.

Lemma includes_append (pat a b : string) :
  Js.includes pat (a ++ pat ++ b) = true.
Proof.
  induction a as [| c a IH].
  - change ("" ++ pat ++ b) with (pat ++ b).
    destruct (pat ++ b) eqn:E; cbn [Js.includes]; rewrite <- E;
      now rewrite prefix_append.
  - rewrite append_cons. cbn [Js.includes]. rewrite IH. apply orb_true_r.
Qed.

Lemma includes_absent (c : ascii) (pat s : string) :
  mentions c s = false -> Js.includes (String c pat) s = false.
Proof.
  induction s as [| c' s IH]; intros Hs; [reflexivity |].
  apply mentions_head in Hs. destruct Hs as [Hne Hs].
  cbn [Js.includes]. rewrite prefix_head by exact Hne. now apply IH.
Qed.

Lemma join_cons (sep x y : string) (rest : list string) :
  Js.join sep (x :: y :: rest) = x ++ sep ++ Js.join sep (y :: rest).
Proof. reflexivity. Qed.

Lemma replaceAll_join (c : ascii) (pat rep : string) (parts : list string) :
  parts <> nil ->
  Forall (fun s => mentions c s = false) parts ->
  Js.replaceAll (String c pat) rep (Js.join (String c pat) parts)
  = Js.join rep parts.
Proof.
  unfold Js.replaceAll. induction parts as [| x parts IH]; [congruence |].
  intros _ Hall. inversion Hall as [| ? ? Hx Hrest]; subst.
  destruct parts as [| y parts].
  - cbn [Js.join]. rewrite <- (append_nil_r x) at 1.
    rewrite replaceAll_text by exact Hx. cbn [Js.replaceAllFrom].
    apply append_nil_r.
  - rewrite !join_cons. rewrite replaceAll_text by exact Hx.
    rewrite replaceAll_hit. rewrite IH; [reflexivity | discriminate | exact Hrest].
Qed.

(** *** [replace] with the pattern of a placeholder *)

Lemma append_one (pre : string) (c : ascii) (x : string) :
  (pre ++ String c "") ++ x = pre ++ String c x.
Proof. now rewrite append_assoc. Qed.

Lemma substitution_plain (rep matched pre post : string) :
  mentions "$" rep = false -> Js.substitution rep matched pre post = rep.
Proof.
  induction rep as [| c rep IH]; intros Hrep; [reflexivity |].
  apply mentions_head in Hrep. destruct Hrep as [Hne Hrep].
  cbn [Js.substitution].
  destruct (Ascii.eqb_spec c "$") as [E | _]; [congruence |].
  now rewrite IH.
Qed.

Lemma replacePlaceholderFrom_skip (x name rep pre t : string) :
  Js.replacePlaceholderFrom (String.length x) name rep pre (x ++ t)
  = Js.replacePlaceholderFrom 0 name rep (pre ++ x) t.
Proof.
  revert pre. induction x as [| c x IH]; intros pre.
  - now rewrite append_nil_r.
  - rewrite append_cons. cbn [String.length Js.replacePlaceholderFrom].
    now rewrite IH, append_one.
Qed.

Lemma matchPlaceholder_head (name : string) (c : ascii) (s : string) :
  c <> "{"%char -> Js.matchPlaceholder name (String c s) = None.
Proof.
  intros Hc. unfold Js.matchPlaceholder, Js.dropPrefix.
  rewrite prefix_head by congruence. reflexivity.
Qed.

Lemma matchPlaceholder_second (name s : string) :
  match s with
  | String c _ => c <> "{"%char
  | EmptyString => True
  end ->
  Js.matchPlaceholder name (String "{" s) = None.
Proof.
  intros Hs. unfold Js.matchPlaceholder, Js.dropPrefix.
  cbn [String.prefix].
  destruct (ascii_dec "{" "{") as [_ | Hne]; [| congruence].
  destruct s as [| c s]; [reflexivity |].
  rewrite prefix_head by congruence. reflexivity.
Qed.

Lemma replacePlaceholderFrom_none
  (name rep pre : string) (c : ascii) (s : string) :
  Js.matchPlaceholder name (String c s) = None ->
  Js.replacePlaceholderFrom 0 name rep pre (String c s)
  = String c (Js.replacePlaceholderFrom 0 name rep (pre ++ String c "") s).
Proof. intros E. cbn [Js.replacePlaceholderFrom]. now rewrite E. Qed.

Lemma replacePlaceholder_text (name rep pre a t : string) :
  mentions "{" a = false ->
  Js.replacePlaceholderFrom 0 name rep pre (a ++ t)
  = a ++ Js.replacePlaceholderFrom 0 name rep (pre ++ a) t.
Proof.
  intros Ha. revert pre. induction a as [| c a IH]; intros pre.
  - now rewrite append_nil_r.
  - apply mentions_head in Ha. destruct Ha as [Hne Ha].
    rewrite !append_cons. cbn [Js.replacePlaceholderFrom].
    rewrite matchPlaceholder_head by congruence.
    now rewrite (IH Ha), append_one.
Qed.

Lemma skipSpaces_blank (b s : string) :
  blank b = true ->
  match s with
  | String c _ => Js.isWhiteSpace c = false
  | EmptyString => True
  end ->
  Js.skipSpaces (b ++ s) = (String.length b, s).
Proof.
  intros Hb Hs. induction b as [| c b IH].
  - change ("" ++ s) with s. destruct s as [| c s]; [reflexivity |].
    cbn [Js.skipSpaces]. now rewrite Hs.
  - cbn [blank] in Hb. apply andb_true_iff in Hb. destruct Hb as [Hc Hb].
    rewrite append_cons. cbn [Js.skipSpaces String.length].
    rewrite Hc, IH by exact Hb. reflexivity.
Qed.

Lemma blank_mentions (c : ascii) (b : string) :
  Js.isWhiteSpace c = false -> blank b = true -> mentions c b = false.
Proof.
  intros Hc. induction b as [| c' b IH]; intros Hb; [reflexivity |].
  cbn [blank] in Hb. apply andb_true_iff in Hb. destruct Hb as [Hc' Hb].
  cbn [mentions]. rewrite IH by exact Hb. rewrite orb_false_r.
  destruct (Ascii.eqb_spec c' c) as [-> | _]; [congruence | reflexivity].
Qed.

Lemma name_starts (h : Placeholder) (rest : string) :
  match placeholderName h ++ rest with
  | String c _ => Js.isWhiteSpace c = false /\ c <> "{"%char
  | EmptyString => False
  end.
Proof. destruct h; split; (reflexivity || discriminate). Qed.

Lemma matchPlaceholder_hole (h : Placeholder) (before after t : string) :
  blank before = true -> blank after = true ->
  Js.matchPlaceholder (placeholderName h)
    (renderPiece (Hole h before after) ++ t)
  = Some (String.length (renderPiece (Hole h before after))).
Proof.
  intros Hb Ha. unfold Js.matchPlaceholder, renderPiece.
  rewrite !append_assoc, dropPrefix_append.
  rewrite skipSpaces_blank; [| exact Hb |].
  2:{ pose proof (name_starts h (after ++ "}}" ++ t)) as Hn.
      destruct (placeholderName h ++ after ++ "}}" ++ t); tauto. }
  rewrite dropPrefix_append.
  rewrite skipSpaces_blank; [| exact Ha | reflexivity].
  rewrite prefix_append. rewrite !append_length. f_equal.
  cbn [String.length]. lia.
Qed.

Lemma matchPlaceholder_other
  (h h' : Placeholder) (before after t : string) :
  samePlaceholder h h' = false -> blank before = true ->
  Js.matchPlaceholder (placeholderName h)
    (renderPiece (Hole h' before after) ++ t)
  = None.
Proof.
  intros Hh Hb. unfold Js.matchPlaceholder, renderPiece.
  rewrite !append_assoc, dropPrefix_append.
  rewrite skipSpaces_blank; [| exact Hb |].
  2:{ pose proof (name_starts h' (after ++ "}}" ++ t)) as Hn.
      destruct (placeholderName h' ++ after ++ "}}" ++ t); tauto. }
  generalize (after ++ "}}" ++ t). intros r.
  destruct h, h'; try discriminate Hh; vm_compute; reflexivity.
Qed.

Lemma replacePlaceholder_hole
  (h : Placeholder) (rep pre before after t : string) :
  mentions "$" rep = false ->
  blank before = true -> blank after = true ->
  Js.replacePlaceholderFrom 0 (placeholderName h) rep pre
    (renderPiece (Hole h before after) ++ t)
  = rep
    ++ Js.replacePlaceholderFrom 0 (placeholderName h) rep
         (pre ++ renderPiece (Hole h before after)) t.
Proof.
  intros Hrep Hb Ha.
  pose proof (matchPlaceholder_hole h before after t Hb Ha) as Hm.
  remember (renderPiece (Hole h before after)) as x eqn:Ex.
  destruct x as [| c x]; [discriminate Ex |].
  rewrite append_cons in *. cbn [Js.replacePlaceholderFrom].
  rewrite Hm. rewrite substitution_plain by exact Hrep.
  cbn [String.length]. rewrite Nat.sub_succ, Nat.sub_0_r.
  now rewrite replacePlaceholderFrom_skip, append_one.
Qed.

Lemma replacePlaceholder_other
  (h h' : Placeholder) (rep pre before after t : string) :
  samePlaceholder h h' = false ->
  blank before = true -> blank after = true ->
  Js.replacePlaceholderFrom 0 (placeholderName h) rep pre
    (renderPiece (Hole h' before after) ++ t)
  = renderPiece (Hole h' before after)
    ++ Js.replacePlaceholderFrom 0 (placeholderName h) rep
         (pre ++ renderPiece (Hole h' before after)) t.
Proof.
  intros Hh Hb Ha.
  pose proof (matchPlaceholder_other h h' before after t Hh Hb) as Hm.
  unfold renderPiece in *.
  set (body := before ++ placeholderName h' ++ after ++ "}}") in *.
  assert (Hbody : mentions "{" body = false).
  { unfold body. rewrite !mentions_append.
    rewrite (blank_mentions "{" before), (blank_mentions "{" after)
      by (reflexivity || assumption).
    now destruct h'. }
  assert (Hstart : match body ++ t with
                   | String c _ => c <> "{"%char
                   | EmptyString => True
                   end).
  { unfold body. rewrite !append_assoc.
    destruct before as [| c b].
    - change ("" ++ ?x) with x.
      pose proof (name_starts h' (after ++ "}}" ++ t)) as Hn.
      destruct (placeholderName h' ++ after ++ "}}" ++ t); tauto.
    - rewrite append_cons. cbn [blank] in Hb.
      apply andb_true_iff in Hb. destruct Hb as [Hc _].
      intros ->. discriminate Hc. }
  change ("{{" ++ body) with (String "{" (String "{" body)) in *.
  rewrite !append_cons in *.
  rewrite replacePlaceholderFrom_none by exact Hm.
  rewrite replacePlaceholderFrom_none
    by (apply matchPlaceholder_second; exact Hstart).
  rewrite replacePlaceholder_text by exact Hbody.
  now rewrite !append_one.
Qed.

Lemma renderPieces_cons (x : Piece) (l : list Piece) :
  renderPieces (x :: l) = renderPiece x ++ renderPieces l.
Proof. reflexivity. Qed.

(** One pass of [replace] over a template fills the placeholders of the
    pattern and leaves the rest, when the replacement text has no
    dollar. *)
Lemma replacePlaceholder_pieces
  (h : Placeholder) (rep : string) (l : list Piece) :
  mentions "$" rep = false ->
  forallb wellFormedPiece l = true ->
  Js.replacePlaceholder (placeholderName h) rep (renderPieces l)
  = renderPieces (map (fillOne h rep) l).
Proof.
  intros Hrep. unfold Js.replacePlaceholder. generalize "" as pre.
  induction l as [| x l IH]; intros pre Hl; [reflexivity |].
  cbn [forallb] in Hl. apply andb_true_iff in Hl. destruct Hl as [Hx Hl].
  cbn [map]. rewrite !renderPieces_cons.
  destruct x as [s | h' before after]; cbn [fillOne].
  - cbn [wellFormedPiece] in Hx. apply negb_true_iff in Hx.
    cbn [renderPiece]. rewrite replacePlaceholder_text by exact Hx.
    now rewrite IH.
  - cbn [wellFormedPiece] in Hx. apply andb_true_iff in Hx.
    destruct Hx as [Hb Ha].
    destruct (samePlaceholder h h') eqn:Eh.
    + assert (h' = h) by (destruct h, h'; (reflexivity || discriminate Eh)).
      subst h'. rewrite replacePlaceholder_hole by assumption.
      cbn [renderPiece]. now rewrite IH.
    + rewrite replacePlaceholder_other by assumption. now rewrite IH.
Qed.

Lemma fillOne_wellFormed (h : Placeholder) (rep : string) (l : list Piece) :
  mentions "{" rep = false ->
  forallb wellFormedPiece l = true ->
  forallb wellFormedPiece (map (fillOne h rep) l) = true.
Proof.
  intros Hrep. induction l as [| x l IH]; intros Hl; [reflexivity |].
  cbn [forallb] in Hl. apply andb_true_iff in Hl. destruct Hl as [Hx Hl].
  cbn [map forallb]. rewrite IH by exact Hl. rewrite andb_true_r.
  destruct x as [s | h' before after]; cbn [fillOne]; [exact Hx |].
  destruct (samePlaceholder h h'); [| exact Hx].
  cbn [wellFormedPiece]. now rewrite Hrep.
Qed.

Lemma three_passes_fill (value : Placeholder -> string) (l : list Piece) :
  renderPieces
    (map (fillOne ExperimentKey (value ExperimentKey))
       (map (fillOne DateEnd (value DateEnd))
          (map (fillOne DateStart (value DateStart)) l)))
  = fillPieces value l.
Proof.
  induction l as [| x l IH]; [reflexivity |].
  cbn [map]. rewrite renderPieces_cons, IH.
  destruct x as [s | [| |] before after]; reflexivity.
Qed.

End TextFacts.

(** ** More properties of the composer *)

Module ComposerFacts.

(** [getMetricColumn] qualifies the column with the alias, except for a
    duration metric whose column has the placeholder [{alias}]: there
    every placeholder is replaced by the alias and nothing else changes.
    The column is taken as texts without brace joined by the placeholder,
    and the alias has no [$], which [replace] would read as a pattern. *)
Theorem metric_column_alias (metric : Metric.t) (alias : string) :
  (Metric.type metric <> duration
   \/ mentions "{" (Metric.column metric) = false ->
   getMetricColumn metric alias = alias ++ "." ++ Metric.column metric)
  /\ forall parts : list string,
       Metric.type metric = duration ->
       Metric.column metric = Js.join "{alias}" parts ->
       (2 <= List.length parts)%nat ->
       Forall (fun s => mentions "{" s = false) parts ->
       mentions "$" alias = false ->
       getMetricColumn metric alias = Js.join alias parts.
Proof.
  split.
  - intros Hplain. unfold getMetricColumn.
    destruct (Metric.type metric); try reflexivity.
    destruct Hplain as [Hty | Hcol]; [congruence |].
    now rewrite (TextFacts.includes_absent "{" "alias}") by exact Hcol.
  - intros parts Hty Hcol Hlen Hparts _. unfold getMetricColumn.
    rewrite Hty, Hcol.
    destruct parts as [| x [| y rest]]; cbn [List.length] in Hlen; try lia.
    rewrite TextFacts.join_cons at 1. rewrite TextFacts.includes_append.
    apply TextFacts.replaceAll_join; [discriminate | exact Hparts].
Qed.

(** The cap is applied unless it is falsy.  A negative cap also gives
    [LEAST(cap, a)], with the cap printed as a template literal prints a
    number, so that every per-user value of the metric is at most the
    number that the text of the cap denotes; a cap that is [NaN] is not
    applied. *)
Theorem negative_cap_is_applied (metric : Metric.t) (col : string) :
  Metric.type metric <> binomial ->
  ((Metric.cap metric <? 0)%float = true ->
   getAggregateMetricSqlValue metric col
   = "LEAST(" ++ Js.showNumber (Metric.cap metric) ++ ", "
     ++ Aggregate.render (Aggregate.ofMetric metric col) ++ ")"
   /\ forall (c value : Q) (values : list Q),
        Js.numberQ (Metric.cap metric) = Some c ->
        exists v : Q,
          Aggregate.eval (value :: values)
            (Aggregate.Least (Metric.cap metric)
               (Aggregate.ofMetric metric col))
          = Some v
          /\ (v <= c)%Q)
  /\ (PrimFloat.is_nan (Metric.cap metric) = true ->
      getAggregateMetricSqlValue metric col
      = Aggregate.render (Aggregate.ofMetric metric col)).
Proof.
  intros Hty. split.
  - intros Hcap. split.
    + rewrite aggregate_capped by (try apply negative_truthy; assumption).
      reflexivity.
    + intros c value values Hc.
      destruct (aggregate_value metric col value values Hty) as [v Hv].
      exists (Qmin c v). split.
      * now apply least_value.
      * apply Q.le_min_l.
  - intros Hnan. apply aggregate_uncapped.
    unfold Js.falsyNumber. rewrite Hnan. reflexivity.
Qed.

(** [toTimestamp] prints the day and the time of day of an ISO text
    between quotes, with a space for the [T] and without the
    milliseconds and the zone: of [YYYY-MM-DDTHH:mm:ss.sssZ] it makes
    ['YYYY-MM-DD HH:mm:ss']. *)
Theorem timestamp_of_iso_text `{JsDate} (date : Date) (day time rest : string) :
  toISOString date = day ++ "T" ++ time ++ rest ->
  String.length day = 10%nat ->
  String.length time = 8%nat ->
  mentions "T" day = false ->
  toTimestamp date = "'" ++ day ++ " " ++ time ++ "'".
Proof.
  intros Hiso Hday Htime HT. unfold toTimestamp, Js.substr0. rewrite Hiso.
  replace (day ++ "T" ++ time ++ rest) with ((day ++ "T" ++ time) ++ rest)
    by (now rewrite !append_assoc).
  replace 19%nat with (String.length (day ++ "T" ++ time))
    by (rewrite !append_length, Hday, Htime; reflexivity).
  rewrite TextFacts.substring_prefix.
  change ("T" ++ time) with (String "T" time).
  rewrite (TextFacts.replaceFirst_at "T" " " day time HT).
  now rewrite !append_assoc.
Qed.

Section Overrides.

Context `{JsDate}.
Variable settings : Settings.t.
Variable experiment : Experiment.t.
Variable phase : Phase.t.
Variable activationMetric : option Metric.t.
Variable dimension : option Dimension.t.
Variable now : Date.

Lemma substituteOverride_pieces (pieces : list Piece) :
  forallb wellFormedPiece pieces = true ->
  (forall h, mentions "$" (overrideValue experiment phase now h) = false) ->
  mentions "{" (overrideValue experiment phase now DateStart) = false ->
  mentions "{" (overrideValue experiment phase now DateEnd) = false ->
  substituteOverride (renderPieces pieces) experiment phase now
  = fillPieces (overrideValue experiment phase now) pieces.
Proof.
  intros Hwf Hdollar Hstart Hend. unfold substituteOverride.
  change (toTimestamp (Phase.dateStarted phase))
    with (overrideValue experiment phase now DateStart).
  change (toTimestamp
            match Phase.dateEnded phase with
            | Some d => d
            | None => now
            end)
    with (overrideValue experiment phase now DateEnd).
  change ("'" ++ Experiment.trackingKey experiment ++ "'")
    with (overrideValue experiment phase now ExperimentKey).
  rewrite (TextFacts.replacePlaceholder_pieces DateStart)
    by (apply Hdollar || exact Hwf).
  rewrite (TextFacts.replacePlaceholder_pieces DateEnd)
    by (apply Hdollar || now apply TextFacts.fillOne_wellFormed).
  rewrite (TextFacts.replacePlaceholder_pieces ExperimentKey)
    by (apply Hdollar
        || now apply TextFacts.fillOne_wellFormed, TextFacts.fillOne_wellFormed).
  apply TextFacts.three_passes_fill.
Qed.

(** An SQL override is a template: when the entry of [sqlOverride] is made
    of texts without opening brace and of the placeholders [{{dateStart}}],
    [{{dateEnd}}] and [{{experimentKey}}], with any white space around the
    names, then [getExperimentUsersSql] and [getExperimentMetricSql]
    return the texts as they are with, for every placeholder, the start of
    the phase, its end or else the present time, and the tracking key
    between quotes; nothing of the settings, the dimension or the
    activation metric enters the query.  This is for values without [$],
    which [replace] reads as the start of a pattern: the tracking key and
    the two timestamps have none, and the two timestamps have no brace. *)
Theorem override_is_a_filled_template (pieces : list Piece) :
  forallb wellFormedPiece pieces = true ->
  (forall h, mentions "$" (overrideValue experiment phase now h) = false) ->
  mentions "{" (overrideValue experiment phase now DateStart) = false ->
  mentions "{" (overrideValue experiment phase now DateEnd) = false ->
  (Experiment.sqlOverride experiment !! "users" = Some (renderPieces pieces) ->
   getExperimentUsersSql settings experiment phase activationMetric dimension
     now
   = fillPieces (overrideValue experiment phase now) pieces)
  /\ forall metric : Metric.t,
       Experiment.sqlOverride experiment !! Metric.id metric
       = Some (renderPieces pieces) ->
       getExperimentMetricSql settings metric experiment phase
         activationMetric dimension now
       = fillPieces (overrideValue experiment phase now) pieces.
Proof.
  intros Hwf Hdollar Hstart Hend. split.
  - intros E. unfold getExperimentUsersSql. rewrite E.
    now apply substituteOverride_pieces.
  - intros metric E. unfold getExperimentMetricSql. rewrite E.
    now apply substituteOverride_pieces.
Qed.

End Overrides.

Section UrlPattern.

Context `{JsDate}.
Variable settings : Settings.t.
Variable percentile : string -> float -> string.
Variable sqlFormat : string -> string.

Lemma pageUsers_matchesAll (params : QueryParams.t) (userId : bool) :
  matchesAll (QueryParams.urlRegex params) = true ->
  getPageUsersCTE settings params userId
  = getPageUsersCTE settings (withUrlRegex params None) userId.
Proof.
  intros Hall. unfold getPageUsersCTE, withUrlRegex.
  cbn [QueryParams.urlRegex QueryParams.from QueryParams.to
       QueryParams.conversionWindow].
  destruct (QueryParams.urlRegex params) as [r |]; [| reflexivity].
  cbn [matchesAll] in Hall. unfold Js.truthy.
  destruct (String.eqb r ""); [reflexivity |].
  cbn [orb] in Hall. rewrite Hall. reflexivity.
Qed.

(** A URL pattern that is absent, empty or [.*] restricts nothing: the
    users query and the metric value query are those of no pattern, with
    no predicate on the URL column. *)
Theorem match_all_pattern_adds_no_filter
  (params : QueryParams.t) (metric : Metric.t) (includePercentiles : bool) :
  matchesAll (QueryParams.urlRegex params) = true ->
  getUsersQuery settings sqlFormat params
  = getUsersQuery settings sqlFormat (withUrlRegex params None)
  /\ getMetricValueQuery settings percentile sqlFormat
       {| MetricValueParams.base := params;
          MetricValueParams.metric := metric;
          MetricValueParams.includePercentiles := includePercentiles |}
     = getMetricValueQuery settings percentile sqlFormat
         {| MetricValueParams.base := withUrlRegex params None;
            MetricValueParams.metric := metric;
            MetricValueParams.includePercentiles := includePercentiles |}.
Proof.
  intros Hall. split.
  - unfold getUsersQuery. rewrite (pageUsers_matchesAll params _ Hall).
    reflexivity.
  - unfold getMetricValueQuery, getMetricValueQueryText, metricValueQueryWith.
    cbn [MetricValueParams.base MetricValueParams.metric].
    rewrite (pageUsers_matchesAll params _ Hall). reflexivity.
Qed.

End UrlPattern.

End ComposerFacts.

(** ** Impact estimation and the past experiments query *)

Module EstimationFacts.

(** A segment whose SQL is empty is no segment: [getImpactEstimation]
    composes the queries of a call without segment, whatever the name of
    the segment, and so returns the same result. *)
Theorem segment_without_sql_is_ignored
  `{JsDate} `{Warehouse} (settings : Settings.t)
  (percentile : string -> float -> string) (sqlFormat : string -> string)
  (now : Date) (urlRegex : string) (metric : Metric.t) (name : string) :
  getImpactEstimation settings percentile sqlFormat now urlRegex metric
    (Some {| Segment.name := name; Segment.sql := "" |})
  = getImpactEstimation settings percentile sqlFormat now urlRegex metric None.
Proof.
  unfold getImpactEstimation, usersSql, valueSql, metricSql, segmentSql,
    segmentNameOf, impactParams.
  cbn [Segment.sql Segment.name Js.truthy String.eqb negb].
  unfold getUsersQuery, getMetricValueQuery, getMetricValueQueryText,
    metricValueQueryWith.
  cbn [MetricValueParams.base QueryParams.segmentQuery
       QueryParams.segmentName Js.truthy].
  reflexivity.
Qed.

(** A product with [NaN] is [NaN], which [|| 0] turns into 0. *)
Lemma orZeroF_nan_product (y : float) : Js.orZeroF (nan * y)%float = zero.
Proof.
  assert (E : is_nan (nan * y)%float = true).
  { unfold is_nan. rewrite FloatAxioms.eqb_spec, FloatAxioms.mul_spec.
    change (Prim2SF nan) with S754_nan. reflexivity. }
  unfold Js.orZeroF. now rewrite E.
Qed.

(** When the three queries of [getImpactEstimation] return rows whose
    counts no number can be read from, the estimate is 0 throughout, as for
    queries that return no row: a count that is [NaN] falls back to 0, and
    so does its product with the mean. *)
Theorem impact_of_unparsable_results
  `{JsDate} `{Warehouse} (settings : Settings.t)
  (percentile : string -> float -> string) (sqlFormat : string -> string)
  (now : Date) (urlRegex : string) (metric : Metric.t)
  (segment : option Segment.t)
  (u : UsersRow.t) (us : list UsersRow.t)
  (m v : MetricValueRow.t) (ms vs : list MetricValueRow.t) :
  runUsers (usersSql settings sqlFormat now urlRegex metric segment) = u :: us ->
  runMetricValue (metricSql settings percentile sqlFormat now metric)
  = m :: ms ->
  runMetricValue
    (valueSql settings percentile sqlFormat now urlRegex metric segment)
  = v :: vs ->
  Js.parseInt (UsersRow.users u) = Js.NaN ->
  Js.parseInt (MetricValueRow.count m) = Js.NaN ->
  Js.parseInt (MetricValueRow.count v) = Js.NaN ->
  let r :=
    getImpactEstimation settings percentile sqlFormat now urlRegex metric
      segment in
  ImpactEstimationResult.users r = zero
  /\ ImpactEstimationResult.value r = zero
  /\ ImpactEstimationResult.metricTotal r = zero.
Proof.
  intros Hu Hm Hv Eu Em Ev. cbv zeta. unfold getImpactEstimation.
  rewrite Hu, Hm, Hv.
  cbn [ImpactEstimationResult.users ImpactEstimationResult.value
       ImpactEstimationResult.metricTotal].
  rewrite Eu, Em, Ev. cbn [Js.orZero Js.toFloat].
  rewrite !orZeroF_nan_product. repeat split; vm_compute; reflexivity.
Qed.

Lemma result_keys_distinct (from : Z) (events : list PastQuery.Event) :
  List.NoDup (map PastQuery.v_key (PastQuery.result from events)).
Proof.
  unfold PastQuery.result, PastQuery.variations.
  set (rows := PastQuery.joinedDates _ _).
  rewrite <- PastQueryFacts.map_filter_comm.
  rewrite map_map. cbn [PastQuery.v_key]. rewrite map_id.
  apply List.NoDup_filter. apply NoDup_ListNoDup, NoDup_remove_dups.
Qed.

(** The past experiments query returns at most one row for an experiment
    and a variation: the text that [getPastExperimentQuery] composes is
    the text of the syntax tree, and the rows of the tree on a table of
    assignment events have distinct pairs of [experiment_id] and
    [variation_id], when the four columns that the query reads have four
    names and the text of the horizon denotes a time. *)
Theorem one_row_per_variation `{JsDate}
  (settings : Settings.t) (sqlFormat : string -> string) (from : Date)
  (t : Z) (events : list PastQuery.Event) :
  NoDup (experimentsColumns settings) ->
  Sql.readTimestamp (toTimestamp from) = Some t ->
  getPastExperimentQuery settings sqlFormat from
  = sqlFormat (Sql.render (pastExperiments settings (toTimestamp from)))
  /\ List.NoDup
       (map PastQuery.v_key
          (map variationRow
             (Sql.run (pastExperiments settings (toTimestamp from))
                (warehouseOf settings events)))).
Proof.
  intros Hcolumns Hhorizon. split.
  - apply SqlFacts.pastExperiments_text.
  - rewrite (SqlFacts.past_query_rows settings _ t events Hcolumns Hhorizon).
    apply result_keys_distinct.
Qed.

End EstimationFacts.

(** ** The stored settings and the caller's settings *)

Module DefaultsFacts.

Lemma orStr_over (k : string) (g : option string) :
  Js.orStr (Settings.over (Some k) g) k = Js.orStr g k.
Proof.
  destruct g as [s |]; cbn; [reflexivity |]. now destruct (String.eqb k "").
Qed.

Lemma over_none (g : option string) : Settings.over None g = g.
Proof. now destruct g. Qed.

Section Stored.

Variable given : Settings.t.

#[local] Abbreviation stored := (Settings.construct given).

Lemma orOpt_default_user (a : option string) (g : option string) :
  Js.orStr (orOpt a (Settings.over (Some "user_id") g)) "user_id"
  = Js.orStr (orOpt a g) "user_id".
Proof.
  unfold orOpt. destruct (Js.truthy a); [reflexivity |]. apply orStr_over.
Qed.

Lemma stored_userIdColumn (metric : option Metric.t) (section : SectionName) :
  getUserIdColumn stored metric section = getUserIdColumn given metric section.
Proof.
  unfold getUserIdColumn.
  set (o := match metric with Some m => Metric.userIdColumn m | None => None end).
  destruct section; unfold settingsPart, Settings.construct, Settings.spread;
    cbn [Settings.default Settings.experiments Settings.users
         Settings.pageviews Settings.identifies Settings.userIdColumn];
    rewrite ?over_none; unfold orOpt;
    destruct (Js.truthy o); try reflexivity;
    destruct (Settings.userIdColumn _) as [s |] eqn:E; cbn;
    try destruct (String.eqb s ""); cbn; try reflexivity;
    destruct (Settings.userIdColumn (Settings.default given)) as [s' |];
    cbn; try destruct (String.eqb s' ""); reflexivity.
Qed.

Lemma stored_anonymousIdColumn
  (metric : option Metric.t) (section : SectionName) :
  getAnonymousIdColumn stored metric section
  = getAnonymousIdColumn given metric section.
Proof.
  unfold getAnonymousIdColumn.
  destruct section; unfold settingsPart, Settings.construct, Settings.spread;
    cbn [Settings.default Settings.experiments Settings.users
         Settings.pageviews Settings.identifies Settings.anonymousIdColumn];
    rewrite ?over_none; reflexivity.
Qed.

Lemma stored_timestampColumn
  (metric : option Metric.t) (section : SectionName) :
  getTimestampColumn stored metric section
  = getTimestampColumn given metric section.
Proof.
  unfold getTimestampColumn.
  set (o := match metric with
            | Some m => Metric.timestampColumn m
            | None => None
            end).
  destruct section; unfold settingsPart, Settings.construct, Settings.spread;
    cbn [Settings.default Settings.experiments Settings.users
         Settings.pageviews Settings.identifies Settings.timestampColumn];
    rewrite ?over_none; unfold orOpt;
    destruct (Js.truthy o); try reflexivity;
    destruct (Settings.timestampColumn _) as [s |] eqn:E; cbn;
    try destruct (String.eqb s ""); cbn; try reflexivity;
    destruct (Settings.timestampColumn (Settings.default given)) as [s' |];
    cbn; try destruct (String.eqb s' ""); reflexivity.
Qed.

Lemma stored_variationColumn :
  getVariationColumn stored = getVariationColumn given.
Proof. unfold getVariationColumn. cbn. apply orStr_over. Qed.

Lemma stored_identifies_table :
  Js.orStr (Settings.table (Settings.identifies stored)) "identifies"
  = Js.orStr (Settings.table (Settings.identifies given)) "identifies".
Proof. cbn. apply orStr_over. Qed.

Lemma stored_pages_table :
  Js.orStr (Settings.table (Settings.pageviews stored)) "pages"
  = Js.orStr (Settings.table (Settings.pageviews given)) "pages".
Proof. cbn. apply orStr_over. Qed.

Lemma stored_urlColumn :
  Js.orStr (Settings.urlColumn (Settings.pageviews stored)) "path"
  = Js.orStr (Settings.urlColumn (Settings.pageviews given)) "path".
Proof. cbn. apply orStr_over. Qed.

Lemma stored_experiments_table :
  Js.orStr (Settings.table (Settings.experiments stored)) "experiment_viewed"
  = Js.orStr (Settings.table (Settings.experiments given)) "experiment_viewed".
Proof. cbn. apply orStr_over. Qed.

Lemma stored_experimentIdColumn :
  Js.orStr (Settings.experimentIdColumn (Settings.experiments stored))
    "experiment_id"
  = Js.orStr (Settings.experimentIdColumn (Settings.experiments given))
      "experiment_id".
Proof. cbn. apply orStr_over. Qed.

Lemma stored_keyFormat : keyFormat stored = keyFormat given.
Proof.
  unfold keyFormat. cbn.
  now destruct (Settings.variationFormat (Settings.experiments given)).
Qed.

Lemma stored_identifiesJoin (column : string) (userId : bool) :
  getIdentifiesJoinSql stored column userId
  = getIdentifiesJoinSql given column userId.
Proof.
  unfold getIdentifiesJoinSql.
  now rewrite stored_userIdColumn, stored_anonymousIdColumn,
    stored_identifies_table.
Qed.

Lemma stored_metricCTE (metric : Metric.t) (days : float) (userId : bool) :
  getMetricCTE stored metric days userId = getMetricCTE given metric days userId.
Proof.
  unfold getMetricCTE, metricUserIdColAndJoin.
  now rewrite !stored_userIdColumn, !stored_anonymousIdColumn,
    !stored_timestampColumn, !stored_identifiesJoin.
Qed.

Lemma stored_segmentCTE (sql : string) (name : option string) (userId : bool) :
  getSegmentCTE stored sql name userId = getSegmentCTE given sql name userId.
Proof. unfold getSegmentCTE. now rewrite stored_identifiesJoin. Qed.

Lemma stored_dimensionCTE (dimension : Dimension.t) (userId : bool) :
  getDimensionCTE stored dimension userId
  = getDimensionCTE given dimension userId.
Proof. unfold getDimensionCTE. now rewrite stored_identifiesJoin. Qed.

Section Dated.

Context `{JsDate}.

Lemma stored_pageUsersCTE (params : QueryParams.t) (userId : bool) :
  getPageUsersCTE stored params userId = getPageUsersCTE given params userId.
Proof.
  unfold getPageUsersCTE.
  now rewrite !stored_userIdColumn, !stored_anonymousIdColumn,
    !stored_timestampColumn, stored_pages_table, stored_urlColumn.
Qed.

Lemma stored_experimentCTE
  (experiment : Experiment.t) (phase : Phase.t) (userId : bool) :
  getExperimentCTE stored experiment phase userId
  = getExperimentCTE given experiment phase userId.
Proof.
  unfold getExperimentCTE, experimentUserIdColAndJoin.
  now rewrite !stored_userIdColumn, !stored_anonymousIdColumn,
    !stored_timestampColumn, !stored_identifiesJoin, stored_variationColumn,
    stored_experiments_table, stored_experimentIdColumn.
Qed.

Lemma stored_usersQuery (sqlFormat : string -> string) (params : QueryParams.t) :
  getUsersQuery stored sqlFormat params = getUsersQuery given sqlFormat params.
Proof.
  unfold getUsersQuery.
  rewrite stored_pageUsersCTE.
  destruct (QueryParams.segmentQuery params) as [q |]; [| reflexivity].
  now rewrite stored_segmentCTE.
Qed.

Lemma stored_metricValueQuery
  (percentile : string -> float -> string) (sqlFormat : string -> string)
  (params : MetricValueParams.t) :
  getMetricValueQuery stored percentile sqlFormat params
  = getMetricValueQuery given percentile sqlFormat params.
Proof.
  unfold getMetricValueQuery, getMetricValueQueryText, metricValueQueryWith.
  rewrite stored_pageUsersCTE, stored_metricCTE.
  destruct (QueryParams.segmentQuery (MetricValueParams.base params)) as [q |];
    [| reflexivity].
  now rewrite stored_segmentCTE.
Qed.

Lemma stored_pastExperimentQuery (sqlFormat : string -> string) (from : Date) :
  getPastExperimentQuery stored sqlFormat from
  = getPastExperimentQuery given sqlFormat from.
Proof.
  unfold getPastExperimentQuery.
  now rewrite ?stored_userIdColumn, ?stored_anonymousIdColumn,
    ?stored_timestampColumn, ?stored_variationColumn,
    ?stored_experiments_table, ?stored_experimentIdColumn.
Qed.

Lemma stored_experimentUsersSql
  (experiment : Experiment.t) (phase : Phase.t)
  (activationMetric : option Metric.t) (dimension : option Dimension.t)
  (now : Date) :
  getExperimentUsersSql stored experiment phase activationMetric dimension now
  = getExperimentUsersSql given experiment phase activationMetric dimension now.
Proof.
  unfold getExperimentUsersSql.
  destruct (Experiment.sqlOverride experiment !! "users"); [reflexivity |].
  rewrite stored_experimentCTE.
  destruct dimension as [d |], activationMetric as [a |];
    rewrite ?stored_dimensionCTE, ?stored_metricCTE; reflexivity.
Qed.

Lemma stored_experimentMetricSql
  (metric : Metric.t) (experiment : Experiment.t) (phase : Phase.t)
  (activationMetric : option Metric.t) (dimension : option Dimension.t)
  (now : Date) :
  getExperimentMetricSql stored metric experiment phase activationMetric
    dimension now
  = getExperimentMetricSql given metric experiment phase activationMetric
      dimension now.
Proof.
  unfold getExperimentMetricSql.
  destruct (Experiment.sqlOverride experiment !! Metric.id metric);
    [reflexivity |].
  rewrite stored_experimentCTE, stored_metricCTE.
  destruct dimension as [d |], activationMetric as [a |];
    rewrite ?stored_dimensionCTE, ?stored_metricCTE; reflexivity.
Qed.

Lemma stored_varIndexOf (experiment : Experiment.t) (variation : string) :
  varIndexOf stored experiment variation = varIndexOf given experiment variation.
Proof.
  pose proof stored_keyFormat as E. unfold keyFormat in E.
  unfold varIndexOf. now rewrite E.
Qed.

Lemma fold_left_pointwise
  {A B : Type} (f g : A -> B -> A) (l : list B) (a : A) :
  (forall a x, f a x = g a x) -> fold_left f l a = fold_left g l a.
Proof.
  intros Hfg. revert a. induction l as [| x l IH]; intros a; [reflexivity |].
  cbn [fold_left]. now rewrite Hfg, IH.
Qed.

Section Run.

Context `{Warehouse}.

Lemma stored_taskSql
  (experiment : Experiment.t) (phase : Phase.t)
  (activationMetric : option Metric.t) (dimension : option Dimension.t)
  (now : Date) (t : Task) :
  taskSql stored experiment phase activationMetric dimension now t
  = taskSql given experiment phase activationMetric dimension now t.
Proof.
  destruct t as [m |]; unfold taskSql.
  - apply stored_experimentMetricSql.
  - apply stored_experimentUsersSql.
Qed.

Lemma stored_completeTask
  (experiment : Experiment.t) (phase : Phase.t)
  (activationMetric : option Metric.t) (dimension : option Dimension.t)
  (now : Date) (st : Merge.t) (t : Task) :
  completeTask stored experiment phase activationMetric dimension now st t
  = completeTask given experiment phase activationMetric dimension now st t.
Proof.
  destruct t as [m |]; unfold completeTask; rewrite stored_taskSql;
    apply fold_left_pointwise; intros a row.
  - unfold metricRowStep. now rewrite stored_varIndexOf.
  - unfold usersQueryRowStep. now rewrite stored_varIndexOf.
Qed.

(** The defaults are stated twice and agree: the settings that the
    constructor stores give the same queries and the same results as the
    settings of the caller, in which a field that is unset or empty falls
    back to the literal of the composer.  So filling the defaults in
    changes no query, and the literals serve for the empty texts only. *)
Theorem stored_settings_change_no_query :
  (forall (sqlFormat : string -> string) (params : QueryParams.t),
     getUsersQuery stored sqlFormat params
     = getUsersQuery given sqlFormat params)
  /\ (forall (percentile : string -> float -> string)
        (sqlFormat : string -> string) (params : MetricValueParams.t),
        getMetricValueQuery stored percentile sqlFormat params
        = getMetricValueQuery given percentile sqlFormat params)
  /\ (forall (sqlFormat : string -> string) (from : Date),
        getPastExperimentQuery stored sqlFormat from
        = getPastExperimentQuery given sqlFormat from)
  /\ (forall (sqlFormat : string -> string) (experiment : Experiment.t)
        (phase : Phase.t) (activationMetric : option Metric.t)
        (dimension : option Dimension.t) (now : Date)
        (metrics : list Metric.t) (completionOrder : list Task),
        getExperimentResults stored sqlFormat experiment phase
          activationMetric dimension now metrics completionOrder
        = getExperimentResults given sqlFormat experiment phase
            activationMetric dimension now metrics completionOrder)
  /\ forall (percentile : string -> float -> string)
       (sqlFormat : string -> string) (now : Date) (urlRegex : string)
       (metric : Metric.t) (segment : option Segment.t),
       getImpactEstimation stored percentile sqlFormat now urlRegex metric
         segment
       = getImpactEstimation given percentile sqlFormat now urlRegex metric
           segment.
Proof.
  split; [apply stored_usersQuery |].
  split; [apply stored_metricValueQuery |].
  split; [apply stored_pastExperimentQuery |].
  split.
  - intros sqlFormat experiment phase activationMetric dimension now metrics
      completionOrder.
    unfold getExperimentResults.
    rewrite (fold_left_pointwise _ _ completionOrder _
               (stored_completeTask experiment phase activationMetric
                  dimension now)).
    rewrite (map_ext _ _
               (stored_taskSql experiment phase activationMetric dimension
                  now)).
    reflexivity.
  - intros percentile sqlFormat now urlRegex metric segment.
    unfold getImpactEstimation, usersSql, metricSql, valueSql.
    now rewrite stored_usersQuery, !stored_metricValueQuery.
Qed.

End Run.

End Dated.

End Stored.

End DefaultsFacts.

(** ** The window of the impact estimation, with the clock in UTC *)

Module ClockFacts.

(** [dateOnly] is the midnight at or before the date. *)
Lemma dateOnly_midnight (t : Z) :
  @dateOnly UtcClock.clock t = t / UtcClock.msPerDay * UtcClock.msPerDay.
Proof.
  unfold dateOnly.
  cbn [setHours setMinutes setSeconds setMilliseconds UtcClock.clock].
  unfold UtcClock.setMilliseconds, UtcClock.setSeconds, UtcClock.setMinutes,
    UtcClock.setHours, UtcClock.msPerDay.
  Z.div_mod_to_equations. lia.
Qed.

(** With the clock in UTC, the queries of [getImpactEstimation] cover the
    [numDays] = 30 days that end at the midnight three days before the
    present day: [dateOnly] of the upper bound is that midnight and
    [dateOnly] of the lower bound is 30 days earlier.  So the sums that
    the queries return are over as many days as they are divided by. *)
Theorem impact_window_is_thirty_days
  (now : Z) (metric : Metric.t) (name : string)
  (urlRegex segmentQuery segmentName : option string) :
  let params :=
    @impactParams UtcClock.clock now metric name urlRegex segmentQuery
      segmentName in
  @dateOnly UtcClock.clock (QueryParams.to params)
  = (now / UtcClock.msPerDay - 3) * UtcClock.msPerDay
  /\ @dateOnly UtcClock.clock (QueryParams.to params)
     - @dateOnly UtcClock.clock (QueryParams.from params)
     = numDays * UtcClock.msPerDay.
Proof.
  cbv zeta. unfold impactParams. cbn [QueryParams.to QueryParams.from].
  rewrite !dateOnly_midnight.
  cbn [setDate getDate UtcClock.clock]. unfold UtcClock.setDate, numDays.
  generalize (UtcClock.getDate now). intros d.
  unfold UtcClock.msPerDay. split; Z.div_mod_to_equations; lia.
Qed.

End ClockFacts.

(** ** The properties at the fixtures *)

#[local] Existing Instance UtcClock.clock.

Lemma aggregate_is_capped_examples :
  (getAggregateMetricSqlValue Fixture.purchases "m.value"
   = "LEAST(10, COUNT(*))"
   /\ forall (value : Q) (values : list Q),
        exists v : Q,
          Aggregate.eval (value :: values)
            (Aggregate.Least 10 Aggregate.CountAll) = Some v
          /\ (v <= 10)%Q)
  /\ (getAggregateMetricSqlValue Fixture.basket "m.value"
      = "LEAST(99.5, MAX(m.value))"
      /\ forall (value : Q) (values : list Q),
           exists v : Q,
             Aggregate.eval (value :: values)
               (Aggregate.Least 99.5 (Aggregate.Max "m.value")) = Some v
             /\ (v <= 99.5)%Q)
  /\ getAggregateMetricSqlValue Fixture.timeOnSite "m.value" = "MAX(m.value)"
  /\ getAggregateMetricSqlValue Fixture.signup "m.value" = "1".
Proof.
  pose proof (aggregate_is_capped Fixture.purchases "m.value") as [Hp _].
  pose proof (aggregate_is_capped Fixture.basket "m.value") as [Hb _].
  pose proof (aggregate_is_capped Fixture.timeOnSite "m.value") as [Ht _].
  pose proof (aggregate_is_capped Fixture.signup "m.value") as [_ Hs].
  destruct (Hp ltac:(discriminate)) as (_ & Hcap & _).
  destruct (Hb ltac:(discriminate)) as (_ & Hcap' & _).
  destruct (Ht ltac:(discriminate)) as (_ & _ & Hzero).
  destruct (Hcap eq_refl) as (Htext & _ & Hvalue).
  destruct (Hcap' eq_refl) as (Htext' & _ & Hvalue').
  split; [| split; [| split]].
  - split; [exact Htext |].
    intros value values. exact (Hvalue 10%Q value values eq_refl).
  - split; [exact Htext' |].
    intros value values. exact (Hvalue' 99.5%Q value values eq_refl).
  - exact (Hzero eq_refl).
  - exact (Hs eq_refl).
Defined.

(** The cap and the conversion window are printed as JavaScript prints a
    number: a fraction with its decimal point, and a number from [1e21] on
    with an exponent. *)
Lemma numbers_in_the_text :
  capValue 99.5 "MAX(m.value)" = "LEAST(99.5, MAX(m.value))"
  /\ capValue 1e21 "MAX(m.value)" = "LEAST(1e+21, MAX(m.value))"
  /\ capValue 0.1 "MAX(m.value)" = "LEAST(0.1, MAX(m.value))"
  /\ capValue (-0) "MAX(m.value)" = "MAX(m.value)"
  /\ capValue nan "MAX(m.value)" = "MAX(m.value)"
  /\ capValue infinity "MAX(m.value)" = "LEAST(Infinity, MAX(m.value))"
  /\ addDateInterval "m.received_at" 0.5 = "m.received_at + INTERVAL '0.5 days'"
  /\ addDateInterval "m.received_at" 1e21
     = "m.received_at + INTERVAL '1e+21 days'"
  /\ addDateInterval "m.received_at" 1e-7
     = "m.received_at + INTERVAL '1e-7 days'"
  /\ addDateInterval "m.received_at" nan = "m.received_at + INTERVAL 'NaN days'".
Proof.
  repeat split; vm_compute; reflexivity.
Qed.

(** C2 as stated fails: with a conversion window of 3 the [conversion_end]
    column of the metric CTE is the timestamp plus 3 days, which is not the
    timestamp plus 3 hours. *)
Lemma conversion_end_not_in_hours :
  TimeExpr.render (conversionEnd Fixture.settings Fixture.purchases 3)
  = "m.received_at + INTERVAL '3 days'"
  /\ TimeExpr.render (conversionEnd Fixture.settings Fixture.purchases 3)
     <> "m.received_at + INTERVAL '3 hours'"
  /\ forall row : string -> Q,
       exists v : Q,
         TimeExpr.eval row (conversionEnd Fixture.settings Fixture.purchases 3)
         = Some v
         /\ (v == row "m.received_at" + inject_Z (3 * 24 * 60))%Q
         /\ ~ (v == row "m.received_at" + inject_Z (3 * 60))%Q.
Proof.
  split; [vm_compute; reflexivity | split].
  - vm_compute. discriminate.
  - intros row. eexists. split; [reflexivity | split].
    + apply Qplus_comp; [reflexivity | vm_compute; reflexivity].
    + intros E. apply Qplus_inj_l in E. vm_compute in E. discriminate E.
Qed.

Lemma metric_cte_identity_examples :
  (identifierMismatch Fixture.timeOnSite true
   /\ getMetricCTE Fixture.settings Fixture.timeOnSite 3%float true
      = "-- Metric (time_on_site)
      SELECT
        i.user_id as user_id,
        m.seconds as value,
        m.received_at as actual_start,
        m.received_at + INTERVAL '3 days' as conversion_end,
        m.received_at - INTERVAL '30 minutes' as session_start
      FROM
        orders m
        JOIN identifies i ON (
      i.anonymous_id = m.anonymous_id
    )
      
    "
   /\ occurrences "JOIN"
        (getMetricCTE Fixture.settings Fixture.timeOnSite 3%float true) = 1%nat)
  /\ (~ identifierMismatch Fixture.timeOnSite false
      /\ getMetricCTE Fixture.settings Fixture.timeOnSite 3%float false
         = "-- Metric (time_on_site)
      SELECT
        m.anonymous_id as user_id,
        m.seconds as value,
        m.received_at as actual_start,
        m.received_at + INTERVAL '3 days' as conversion_end,
        m.received_at - INTERVAL '30 minutes' as session_start
      FROM
        orders m
        
      
    "
      /\ occurrences "JOIN"
           (getMetricCTE Fixture.settings Fixture.timeOnSite 3%float false) = 0%nat).
Proof.
  assert (Hyes : identifierMismatch Fixture.timeOnSite true)
    by (left; split; reflexivity).
  assert (Hno : ~ identifierMismatch Fixture.timeOnSite false)
    by (intros [[E _] | [_ E]]; discriminate E).
  destruct (metric_cte_identity Fixture.settings Fixture.timeOnSite 3%float true)
    as [Hjoin _].
  destruct (metric_cte_identity Fixture.settings Fixture.timeOnSite 3%float false)
    as [_ Hdirect].
  split; (split; [assumption | split]).
  - rewrite (Hjoin Hyes). reflexivity.
  - reflexivity.
  - rewrite (Hdirect Hno). reflexivity.
  - reflexivity.
Defined.

Lemma percentiles_unless_binomial_examples :
  percentileColumns Fixture.percentile
    (Fixture.valueParams Fixture.timeOnSite false true)
  = ",APPROX_QUANTILES(value, 100)[OFFSET(1)] as p1
      ,APPROX_QUANTILES(value, 100)[OFFSET(5)] as p5
      ,APPROX_QUANTILES(value, 100)[OFFSET(10)] as p10
      ,APPROX_QUANTILES(value, 100)[OFFSET(20)] as p20
      ,APPROX_QUANTILES(value, 100)[OFFSET(30)] as p30
      ,APPROX_QUANTILES(value, 100)[OFFSET(40)] as p40
      ,APPROX_QUANTILES(value, 100)[OFFSET(50)] as p50
      ,APPROX_QUANTILES(value, 100)[OFFSET(60)] as p60
      ,APPROX_QUANTILES(value, 100)[OFFSET(70)] as p70
      ,APPROX_QUANTILES(value, 100)[OFFSET(80)] as p80
      ,APPROX_QUANTILES(value, 100)[OFFSET(90)] as p90
      ,APPROX_QUANTILES(value, 100)[OFFSET(95)] as p95
      ,APPROX_QUANTILES(value, 100)[OFFSET(99)] as p99"
  /\ percentileColumns Fixture.percentile
       (Fixture.valueParams Fixture.signup false true) = ""
  /\ occurrences " as p"
       (getMetricValueQuery Fixture.settings Fixture.percentile
          Fixture.sqlFormat (Fixture.valueParams Fixture.timeOnSite false true))
     = 13%nat
  /\ occurrences " as p"
       (getMetricValueQuery Fixture.settings Fixture.percentile
          Fixture.sqlFormat (Fixture.valueParams Fixture.signup false true))
     = 0%nat.
Proof.
  destruct (percentiles_unless_binomial Fixture.settings Fixture.percentile
              Fixture.sqlFormat
              (Fixture.valueParams Fixture.timeOnSite false true) eq_refl)
    as [Hduration _].
  destruct (percentiles_unless_binomial Fixture.settings Fixture.percentile
              Fixture.sqlFormat
              (Fixture.valueParams Fixture.signup false true) eq_refl)
    as [_ Hbinomial].
  destruct (Hduration ltac:(discriminate)) as [Hd _].
  destruct (Hbinomial eq_refl) as [Hb _].
  split; [| split; [| split]].
  - rewrite Hd. reflexivity.
  - exact Hb.
  - vm_compute. reflexivity.
  - vm_compute. reflexivity.
Defined.

Lemma by_date_percentiles_are_zero_example :
  zeroPercentileColumns (Fixture.valueParams Fixture.timeOnSite true true)
  = ",0 as p1
      ,0 as p5
      ,0 as p10
      ,0 as p20
      ,0 as p30
      ,0 as p40
      ,0 as p50
      ,0 as p60
      ,0 as p70
      ,0 as p80
      ,0 as p90
      ,0 as p95
      ,0 as p99".
Proof.
  destruct (by_date_percentiles_are_zero Fixture.settings Fixture.percentile
              Fixture.sqlFormat
              (Fixture.valueParams Fixture.timeOnSite true true)
              eq_refl eq_refl ltac:(discriminate)) as [Hz _].
  rewrite Hz. reflexivity.
Defined.

Lemma impact_of_empty_results_example :
  let r :=
    @getImpactEstimation UtcClock.clock Fixture.emptyWarehouse Fixture.settings
      Fixture.percentile Fixture.sqlFormat Fixture.noon "^/checkout"
      Fixture.purchases None in
  ImpactEstimationResult.users r = zero
  /\ ImpactEstimationResult.value r = zero
  /\ ImpactEstimationResult.metricTotal r = zero
  /\ ImpactEstimationResult.query r <> "".
Proof.
  destruct (@impact_of_empty_results UtcClock.clock Fixture.emptyWarehouse
              Fixture.settings Fixture.percentile Fixture.sqlFormat
              Fixture.noon "^/checkout" Fixture.purchases None
              eq_refl eq_refl eq_refl) as [E Hq].
  cbv zeta. split; [| split; [| split]].
  - rewrite E. reflexivity.
  - rewrite E. reflexivity.
  - rewrite E. reflexivity.
  - exact Hq.
Defined.

(** C4 at a row whose [users] column is not a number: [runUsersQuery] and
    [runMetricValueQuery] give 0 for the columns they cannot read, and
    [runPastExperimentQuery], which has no [|| 0], gives [NaN]. *)
Lemma past_experiment_users_is_NaN :
  map PastExperiment.users
    (PastExperimentResult.experiments
       (@runPastExperimentQuery UtcClock.clock Fixture.garbledWarehouse ""))
  = Js.NaN :: nil
  /\ UsersResult.users (@runUsersQuery Fixture.garbledWarehouse "") = Js.Num 0
  /\ MetricValueResult.count (@runMetricValueQuery Fixture.garbledWarehouse "")
     = Js.Num 0
  /\ MetricValueResult.mean (@runMetricValueQuery Fixture.garbledWarehouse "")
     = zero
  /\ MetricValueResult.stddev (@runMetricValueQuery Fixture.garbledWarehouse "")
     = zero.
Proof.
  repeat split; reflexivity.
Qed.

(** C1 at a row whose variation is not an index: with the format ["index"]
    the text [abc] reads as [NaN], with the format ["key"] it is not a key
    of the experiment; either way the row passes the guard, nothing is
    printed, and the result has a bucket for the dimension of the row.  A
    row whose variation is the integer 7, out of range, is dropped and
    printed. *)
Lemma unparsable_variation_is_kept :
  (let r :=
     @getExperimentResults UtcClock.clock (Fixture.metricRowWarehouse "abc")
       Fixture.settings Fixture.sqlFormat Fixture.experiment Fixture.phase
       None None Fixture.noon (Fixture.purchases :: nil)
       (tasks (Fixture.purchases :: nil)) in
   ExperimentResults.results (fst r)
   = {| DimensionResult.dimension := "All";
        DimensionResult.variations :=
          {[ "NaN" :=
               {| VariationData.variation := Js.Defined Js.NaN;
                  VariationData.users := Js.Num 0;
                  VariationData.metrics :=
                    {| VariationMetricResult.metric := "purchases";
                       VariationMetricResult.count := Js.Num 10;
                       VariationMetricResult.mean := 0.5;
                       VariationMetricResult.stddev := 0.25 |} :: nil |} ]} |}
     :: nil
   /\ snd r = nil)
  /\ (let r :=
        @getExperimentResults UtcClock.clock (Fixture.usersRowWarehouse "abc")
          Fixture.keySettings Fixture.sqlFormat Fixture.experiment
          Fixture.phase None None Fixture.noon (Fixture.purchases :: nil)
          (tasks (Fixture.purchases :: nil)) in
      ExperimentResults.results (fst r)
      = {| DimensionResult.dimension := "All";
           DimensionResult.variations :=
             {[ "undefined" :=
                  {| VariationData.variation := Js.Undefined;
                     VariationData.users := Js.Num 100;
                     VariationData.metrics := nil |} ]} |}
        :: nil
      /\ snd r = nil)
  /\ (let r :=
        @getExperimentResults UtcClock.clock (Fixture.metricRowWarehouse "7")
          Fixture.settings Fixture.sqlFormat Fixture.experiment Fixture.phase
          None None Fixture.noon (Fixture.purchases :: nil)
          (tasks (Fixture.purchases :: nil)) in
      ExperimentResults.results (fst r) = nil
      /\ snd r = "Unexpected variation 7" :: nil).
Proof.
  repeat split; vm_compute; reflexivity.
Qed.

(** C3 as stated fails.  After a day of 120 visitors and six days of 20, a
    day of 6 visitors is at the threshold of 6, not below it, and above the
    floor of 5 users: the pipeline as stated keeps it, and the query that
    is composed discards it. *)
Lemma past_query_is_not_the_stated_pipeline :
  getPastExperimentQuery Fixture.settings Fixture.sqlFormat 0
  = Fixture.sqlFormat
      (Sql.render (pastExperiments Fixture.settings "'1970-01-01 00:00:00'"))
  /\ map variationRow
       (Sql.run (pastExperiments Fixture.settings "'1970-01-01 00:00:00'")
          (warehouseOf Fixture.settings Fixture.thresholdTail))
     = {| PastQuery.v_key := ("exp", "0");
          PastQuery.v_start_date := 3;
          PastQuery.v_end_date := 9;
          PastQuery.v_users := 240 |} :: nil
  /\ PastSpec.result 0 Fixture.thresholdTail
     = {| PastQuery.v_key := ("exp", "0");
          PastQuery.v_start_date := 3;
          PastQuery.v_end_date := 10;
          PastQuery.v_users := 246 |} :: nil
  /\ map variationRow
       (Sql.run (pastExperiments Fixture.settings "'1970-01-01 00:00:00'")
          (warehouseOf Fixture.settings Fixture.thresholdTail))
     <> PastSpec.result 0 Fixture.thresholdTail.
Proof.
  assert (E1 : map variationRow
                 (Sql.run
                    (pastExperiments Fixture.settings "'1970-01-01 00:00:00'")
                    (warehouseOf Fixture.settings Fixture.thresholdTail))
               = {| PastQuery.v_key := ("exp", "0");
                    PastQuery.v_start_date := 3;
                    PastQuery.v_end_date := 9;
                    PastQuery.v_users := 240 |} :: nil)
    by (vm_compute; reflexivity).
  assert (E2 : PastSpec.result 0 Fixture.thresholdTail
               = {| PastQuery.v_key := ("exp", "0");
                    PastQuery.v_start_date := 3;
                    PastQuery.v_end_date := 10;
                    PastQuery.v_users := 246 |} :: nil)
    by (vm_compute; reflexivity).
  split; [vm_compute; reflexivity | split; [exact E1 | split; [exact E2 |]]].
  rewrite E1, E2. discriminate.
Qed.

(** The comment of the query at its floor says that the days on which a
    variation got 5 or fewer visitors are skipped; the query skips them
    only where it computes the threshold.  After seven days of 40
    visitors a day of 3 visitors is above the threshold of 2 and is
    counted: the row of the variation ends on that day and its users
    include the 3. *)
Lemma low_day_is_counted :
  map variationRow
    (Sql.run (pastExperiments Fixture.settings "'1970-01-01 00:00:00'")
       (warehouseOf Fixture.settings Fixture.quietTail))
  = {| PastQuery.v_key := ("exp", "0");
       PastQuery.v_start_date := 3;
       PastQuery.v_end_date := 10;
       PastQuery.v_users := 283 |} :: nil
  /\ PastSpec.floorFree 0 Fixture.quietTail = false.
Proof.
  split; vm_compute; reflexivity.
Qed.

(** C8 as stated fails: when the queries of two metrics return in the order
    of their creation the summary list of the variation 1 has [purchases]
    before [signup], and when they return in the reverse order it has
    [signup] before [purchases]. *)
Lemma results_depend_on_completion_order :
  Permutation (tasks Fixture.twoMetrics) (tasks Fixture.twoMetrics)
  /\ Permutation (rev (tasks Fixture.twoMetrics)) (tasks Fixture.twoMetrics)
  /\ summaryOrder
       (fst (@getExperimentResults UtcClock.clock Fixture.fullWarehouse
               Fixture.settings Fixture.sqlFormat Fixture.experiment
               Fixture.phase None None Fixture.noon Fixture.twoMetrics
               (tasks Fixture.twoMetrics)))
     = "purchases" :: "signup" :: nil
  /\ summaryOrder
       (fst (@getExperimentResults UtcClock.clock Fixture.fullWarehouse
               Fixture.settings Fixture.sqlFormat Fixture.experiment
               Fixture.phase None None Fixture.noon Fixture.twoMetrics
               (rev (tasks Fixture.twoMetrics))))
     = "signup" :: "purchases" :: nil
  /\ fst (@getExperimentResults UtcClock.clock Fixture.fullWarehouse
            Fixture.settings Fixture.sqlFormat Fixture.experiment
            Fixture.phase None None Fixture.noon Fixture.twoMetrics
            (tasks Fixture.twoMetrics))
     <> fst (@getExperimentResults UtcClock.clock Fixture.fullWarehouse
               Fixture.settings Fixture.sqlFormat Fixture.experiment
               Fixture.phase None None Fixture.noon Fixture.twoMetrics
               (rev (tasks Fixture.twoMetrics))).
Proof.
  assert (E1 : summaryOrder
                 (fst (@getExperimentResults UtcClock.clock
                         Fixture.fullWarehouse Fixture.settings
                         Fixture.sqlFormat Fixture.experiment Fixture.phase
                         None None Fixture.noon Fixture.twoMetrics
                         (tasks Fixture.twoMetrics)))
               = "purchases" :: "signup" :: nil)
    by (vm_compute; reflexivity).
  assert (E2 : summaryOrder
                 (fst (@getExperimentResults UtcClock.clock
                         Fixture.fullWarehouse Fixture.settings
                         Fixture.sqlFormat Fixture.experiment Fixture.phase
                         None None Fixture.noon Fixture.twoMetrics
                         (rev (tasks Fixture.twoMetrics))))
               = "signup" :: "purchases" :: nil)
    by (vm_compute; reflexivity).
  split; [apply Permutation_refl |].
  split; [apply Permutation_sym, Permutation_rev |].
  split; [exact E1 |]. split; [exact E2 |].
  intros E. apply (f_equal summaryOrder) in E. rewrite E1, E2 in E.
  discriminate E.
Qed.

Lemma results_up_to_order_example :
  Permutation
    (map DimensionResult.dimension
       (ExperimentResults.results
          (fst (@getExperimentResults UtcClock.clock Fixture.fullWarehouse
                  Fixture.settings Fixture.sqlFormat Fixture.experiment
                  Fixture.phase None None Fixture.noon Fixture.twoMetrics
                  (tasks Fixture.twoMetrics)))))
    (map DimensionResult.dimension
       (ExperimentResults.results
          (fst (@getExperimentResults UtcClock.clock Fixture.fullWarehouse
                  Fixture.settings Fixture.sqlFormat Fixture.experiment
                  Fixture.phase None None Fixture.noon Fixture.twoMetrics
                  (rev (tasks Fixture.twoMetrics)))))).
Proof.
  exact (proj1 (proj2
    (@MergeFacts.results_up_to_order UtcClock.clock Fixture.fullWarehouse
       Fixture.settings Fixture.sqlFormat Fixture.experiment Fixture.phase
       None None Fixture.noon Fixture.twoMetrics
       (tasks Fixture.twoMetrics) (rev (tasks Fixture.twoMetrics))
       (Permutation_refl _)
       (Permutation_sym (Permutation_rev (tasks Fixture.twoMetrics)))))).
Defined.

Lemma past_experiment_pipeline_example :
  getPastExperimentQuery Fixture.settings Fixture.sqlFormat 0
  = Fixture.sqlFormat
      (Sql.render (pastExperiments Fixture.settings (toTimestamp 0)))
  /\ Sql.wellFormed (pastExperiments Fixture.settings (toTimestamp 0)) = true
  /\ map variationRow
       (Sql.run (pastExperiments Fixture.settings (toTimestamp 0))
          (warehouseOf Fixture.settings Fixture.thresholdTail))
     = PastSpec.amended 0 Fixture.thresholdTail.
Proof.
  apply (@SqlFacts.past_experiment_pipeline UtcClock.clock Fixture.settings
           Fixture.sqlFormat 0 0 Fixture.thresholdTail).
  - apply (bool_decide_unpack _). vm_compute. reflexivity.
  - vm_compute. reflexivity.
  - vm_compute. reflexivity.
Defined.

(** ** Examples of the further properties *)

Lemma key_format_rejects_no_row_example :
  keyFormat Fixture.keySettings = true
  /\ unexpected Fixture.experiment
       (varIndexOf Fixture.keySettings Fixture.experiment "no such key")
     = false
  /\ snd (@getExperimentResults UtcClock.clock
            (Fixture.metricRowWarehouse "no such key") Fixture.keySettings
            Fixture.sqlFormat Fixture.experiment Fixture.phase None None
            Fixture.noon Fixture.twoMetrics (tasks Fixture.twoMetrics))
     = nil.
Proof.
  split; [reflexivity |].
  exact (conj
    (proj1 (@GuardFacts.key_format_rejects_no_row UtcClock.clock
              (Fixture.metricRowWarehouse "no such key") Fixture.keySettings
              Fixture.sqlFormat Fixture.experiment Fixture.phase None None
              Fixture.noon eq_refl) "no such key")
    (proj2 (@GuardFacts.key_format_rejects_no_row UtcClock.clock
              (Fixture.metricRowWarehouse "no such key") Fixture.keySettings
              Fixture.sqlFormat Fixture.experiment Fixture.phase None None
              Fixture.noon eq_refl)
       Fixture.twoMetrics (tasks Fixture.twoMetrics))).
Defined.

Lemma printed_index_is_read_back_example :
  keyFormat Fixture.settings = false
  /\ varIndexOf Fixture.settings Fixture.experiment (Js.showZ 7)
     = Js.Defined (Js.Num 7)
  /\ (unexpected Fixture.experiment
        (varIndexOf Fixture.settings Fixture.experiment (Js.showZ 7)) = true
      <-> 7 < 0
          \/ Z.of_nat (List.length (Experiment.variations Fixture.experiment))
             <= 7).
Proof.
  split; [reflexivity |].
  apply (GuardFacts.printed_index_is_read_back Fixture.settings
           Fixture.experiment 7 eq_refl).
  lia.
Defined.

Lemma formats_agree_on_index_keys_example :
  varIndexOf Fixture.keySettings Samples.numbered (Js.showZ 1)
  = Js.Defined (Js.Num 1)
  /\ varIndexOf Fixture.settings Samples.numbered (Js.showZ 1)
     = Js.Defined (Js.Num 1).
Proof.
  apply (GuardFacts.formats_agree_on_index_keys Fixture.keySettings
           Fixture.settings Samples.numbered 1).
  - reflexivity.
  - reflexivity.
  - reflexivity.
  - cbn. lia.
Defined.

(** The result of the example experiment, when the queries return in the
    order of their creation, and its first element. *)
Lemma first_dimension_example :
  In (hd {| DimensionResult.dimension := ""; DimensionResult.variations := ∅ |}
        (ExperimentResults.results
           (fst (@getExperimentResults UtcClock.clock Fixture.fullWarehouse
                   Fixture.settings Fixture.sqlFormat Fixture.experiment
                   Fixture.phase None None Fixture.noon Fixture.twoMetrics
                   (tasks Fixture.twoMetrics)))))
     (ExperimentResults.results
        (fst (@getExperimentResults UtcClock.clock Fixture.fullWarehouse
                Fixture.settings Fixture.sqlFormat Fixture.experiment
                Fixture.phase None None Fixture.noon Fixture.twoMetrics
                (tasks Fixture.twoMetrics)))).
Proof. vm_compute. left. reflexivity. Defined.

Lemma variation_object_contents_example :
  let d :=
    hd {| DimensionResult.dimension := ""; DimensionResult.variations := ∅ |}
       (ExperimentResults.results
          (fst (@getExperimentResults UtcClock.clock Fixture.fullWarehouse
                  Fixture.settings Fixture.sqlFormat Fixture.experiment
                  Fixture.phase None None Fixture.noon Fixture.twoMetrics
                  (tasks Fixture.twoMetrics)))) in
  let ws :=
    @mergedWrites UtcClock.clock Fixture.fullWarehouse Fixture.settings
      Fixture.experiment Fixture.phase None None Fixture.noon
      (tasks Fixture.twoMetrics) in
  DimensionResult.variations d !! "1"
  = match List.filter (targets (DimensionResult.dimension d) "1") ws with
    | nil => None
    | w :: _ =>
        Some {| VariationData.variation := w_variation w;
                VariationData.users :=
                  usersAt (DimensionResult.dimension d) "1" ws;
                VariationData.metrics :=
                  summariesAt (DimensionResult.dimension d) "1" ws |}
    end.
Proof.
  exact (@ResultFacts.variation_object_contents UtcClock.clock
           Fixture.fullWarehouse Fixture.settings Fixture.sqlFormat
           Fixture.experiment Fixture.phase None None Fixture.noon
           Fixture.twoMetrics (tasks Fixture.twoMetrics) _ "1"
           first_dimension_example).
Defined.

Lemma stored_index_passed_the_guard_example :
  let d :=
    hd {| DimensionResult.dimension := ""; DimensionResult.variations := ∅ |}
       (ExperimentResults.results
          (fst (@getExperimentResults UtcClock.clock Fixture.fullWarehouse
                  Fixture.settings Fixture.sqlFormat Fixture.experiment
                  Fixture.phase None None Fixture.noon Fixture.twoMetrics
                  (tasks Fixture.twoMetrics)))) in
  exists data : VariationData.t,
    DimensionResult.variations d !! "1" = Some data
    /\ Js.propertyKey (VariationData.variation data) = "1"
    /\ unexpected Fixture.experiment (VariationData.variation data) = false.
Proof.
  intros d.
  destruct (DimensionResult.variations d !! "1") as [data |] eqn:E.
  - exists data. split; [reflexivity |].
    exact (@ResultFacts.stored_index_passed_the_guard UtcClock.clock
             Fixture.fullWarehouse Fixture.settings Fixture.sqlFormat
             Fixture.experiment Fixture.phase None None Fixture.noon
             Fixture.twoMetrics (tasks Fixture.twoMetrics) _ "1" data
             first_dimension_example E).
  - exfalso. vm_compute in E. discriminate E.
Defined.

Lemma result_numbers_are_numbers_example :
  let d :=
    hd {| DimensionResult.dimension := ""; DimensionResult.variations := ∅ |}
       (ExperimentResults.results
          (fst (@getExperimentResults UtcClock.clock Fixture.fullWarehouse
                  Fixture.settings Fixture.sqlFormat Fixture.experiment
                  Fixture.phase None None Fixture.noon Fixture.twoMetrics
                  (tasks Fixture.twoMetrics)))) in
  exists data : VariationData.t,
    DimensionResult.variations d !! "0" = Some data
    /\ VariationData.users data <> Js.NaN
    /\ forall s : VariationMetricResult.t,
         In s (VariationData.metrics data) ->
         VariationMetricResult.count s <> Js.NaN
         /\ is_nan (VariationMetricResult.mean s) = false
         /\ is_nan (VariationMetricResult.stddev s) = false
         /\ exists m : Metric.t,
              In (MetricTask m) (tasks Fixture.twoMetrics)
              /\ VariationMetricResult.metric s = Metric.id m.
Proof.
  intros d.
  destruct (DimensionResult.variations d !! "0") as [data |] eqn:E.
  - exists data. split; [reflexivity |].
    exact (@ResultFacts.result_numbers_are_numbers UtcClock.clock
             Fixture.fullWarehouse Fixture.settings Fixture.sqlFormat
             Fixture.experiment Fixture.phase None None Fixture.noon
             Fixture.twoMetrics (tasks Fixture.twoMetrics) _ "0" data
             first_dimension_example E).
  - exfalso. vm_compute in E. discriminate E.
Defined.

Lemma percentile_columns_round_trip_example :
  exists m : gmap string Js.num,
    MetricValueResult.percentiles
      (@runMetricValueQuery Samples.percentileWarehouse "select 1")
    = Some m
    /\ (forall n : float,
          In n percentileNumbers ->
          m !! percentileKey n = Some (Js.orZero (Js.parseInt "7")))
    /\ forall k : string,
         is_Some (m !! k)
         <-> In k ("1" :: "5" :: "10" :: "20" :: "30" :: "40" :: "50"
                   :: "60" :: "70" :: "80" :: "90" :: "95" :: "99" :: nil).
Proof.
  exact (proj2
    (@ParserFacts.percentile_columns_round_trip UtcClock.clock
       Samples.percentileWarehouse Fixture.percentile
       (Fixture.valueParams Fixture.purchases false true) "select 1"
       (fun _ => "7") eq_refl)).
Defined.

Lemma metric_column_alias_examples :
  getMetricColumn Fixture.timeOnSite "m" = "m.seconds"
  /\ getMetricColumn Samples.elapsed "m" = "m.ended_at - m.started_at".
Proof.
  split.
  - apply (proj1 (ComposerFacts.metric_column_alias Fixture.timeOnSite "m")).
    right. reflexivity.
  - apply (proj2 (ComposerFacts.metric_column_alias Samples.elapsed "m")
             ("" :: ".ended_at - " :: ".started_at" :: nil)).
    + reflexivity.
    + reflexivity.
    + cbn. lia.
    + repeat constructor.
    + reflexivity.
Defined.

Lemma timestamp_of_iso_text_example :
  @toTimestamp UtcClock.clock Fixture.noon = "'2021-06-15 12:00:00'".
Proof.
  apply (@ComposerFacts.timestamp_of_iso_text UtcClock.clock Fixture.noon
           "2021-06-15" "12:00:00" ".000Z");
    vm_compute; reflexivity.
Defined.

Lemma override_is_a_filled_template_example :
  @getExperimentUsersSql UtcClock.clock Fixture.settings Samples.overridden
    Fixture.phase None None Fixture.noon
  = "SELECT variation, 'All' AS dimension, COUNT(1) AS users FROM exposures WHERE experiment = 'checkout-button' AND seen_at BETWEEN '2021-06-01 00:00:00' AND '2021-06-15 12:00:00' GROUP BY variation".
Proof.
  apply (proj1
    (@ComposerFacts.override_is_a_filled_template UtcClock.clock
       Fixture.settings Samples.overridden Fixture.phase None None
       Fixture.noon Samples.usersTemplate
       eq_refl
       (fun h => match h with
                 | DateStart => eq_refl
                 | DateEnd => eq_refl
                 | ExperimentKey => eq_refl
                 end)
       eq_refl eq_refl)).
  reflexivity.
Defined.

(** A dollar in the tracking key is read by [replace] as the start of a
    pattern: a key that ends in one makes, with the closing quote, the
    pattern of the text after the match. *)
Lemma dollar_in_tracking_key :
  Js.replacePlaceholder "experimentKey" "'a$'" "x = {{ experimentKey }} y"
  = "x = 'a y y"
  /\ Js.replacePlaceholder "experimentKey" "'a$$b'" "x = {{experimentKey}}"
     = "x = 'a$b'"
  /\ Js.replacePlaceholder "experimentKey" "'a$1'" "x = {{experimentKey}}"
     = "x = 'a$1'".
Proof.
  repeat split; vm_compute; reflexivity.
Qed.

Lemma match_all_pattern_adds_no_filter_example :
  let params := MetricValueParams.base (Fixture.valueParams Fixture.purchases false false) in
  @getUsersQuery UtcClock.clock Fixture.settings Fixture.sqlFormat params
  = @getUsersQuery UtcClock.clock Fixture.settings Fixture.sqlFormat
      (withUrlRegex params None)
  /\ @getMetricValueQuery UtcClock.clock Fixture.settings Fixture.percentile
       Fixture.sqlFormat
       {| MetricValueParams.base := params;
          MetricValueParams.metric := Fixture.purchases;
          MetricValueParams.includePercentiles := true |}
     = @getMetricValueQuery UtcClock.clock Fixture.settings Fixture.percentile
         Fixture.sqlFormat
         {| MetricValueParams.base := withUrlRegex params None;
            MetricValueParams.metric := Fixture.purchases;
            MetricValueParams.includePercentiles := true |}.
Proof.
  exact (@ComposerFacts.match_all_pattern_adds_no_filter UtcClock.clock
           Fixture.settings Fixture.percentile Fixture.sqlFormat
           (MetricValueParams.base
              (Fixture.valueParams Fixture.purchases false false))
           Fixture.purchases true eq_refl).
Defined.

Lemma impact_of_unparsable_results_example :
  let r :=
    @getImpactEstimation UtcClock.clock Fixture.garbledWarehouse
      Fixture.settings Fixture.percentile Fixture.sqlFormat Fixture.noon ".*"
      Fixture.purchases None in
  ImpactEstimationResult.users r = zero
  /\ ImpactEstimationResult.value r = zero
  /\ ImpactEstimationResult.metricTotal r = zero.
Proof.
  exact (@EstimationFacts.impact_of_unparsable_results UtcClock.clock
           Fixture.garbledWarehouse Fixture.settings Fixture.percentile
           Fixture.sqlFormat Fixture.noon ".*" Fixture.purchases None
           _ _ _ _ _ _ eq_refl eq_refl eq_refl eq_refl eq_refl eq_refl).
Defined.

Lemma negative_cap_is_applied_example :
  (getAggregateMetricSqlValue Samples.refunds "m.value"
   = "LEAST(-1, MAX(m.value))"
   /\ forall (value : Q) (values : list Q),
        exists v : Q,
          Aggregate.eval (value :: values)
            (Aggregate.Least (-1) (Aggregate.Max "m.value")) = Some v
          /\ (v <= -1)%Q)
  /\ getAggregateMetricSqlValue
       (Fixture.metricOf "refunds" revenue "amount" "user" nan) "m.value"
     = "MAX(m.value)".
Proof.
  pose proof (ComposerFacts.negative_cap_is_applied Samples.refunds "m.value"
                ltac:(discriminate)) as [Hneg _].
  pose proof (ComposerFacts.negative_cap_is_applied
                (Fixture.metricOf "refunds" revenue "amount" "user" nan)
                "m.value" ltac:(discriminate)) as [_ Hnan].
  destruct (Hneg eq_refl) as [Htext Hvalue].
  split; [split |].
  - exact Htext.
  - intros value values. exact (Hvalue (-1)%Q value values eq_refl).
  - exact (Hnan eq_refl).
Defined.

Lemma one_row_per_variation_example :
  getPastExperimentQuery Fixture.settings Fixture.sqlFormat 0
  = Fixture.sqlFormat
      (Sql.render (pastExperiments Fixture.settings (toTimestamp 0)))
  /\ List.NoDup
       (map PastQuery.v_key
          (map variationRow
             (Sql.run (pastExperiments Fixture.settings (toTimestamp 0))
                (warehouseOf Fixture.settings Fixture.quietTail)))).
Proof.
  apply (@EstimationFacts.one_row_per_variation UtcClock.clock
           Fixture.settings Fixture.sqlFormat 0 0 Fixture.quietTail).
  - apply (bool_decide_unpack _). vm_compute. reflexivity.
  - vm_compute. reflexivity.
Defined.
